(** * A shallow embedding of the marshalling core of [src/python.cpp]

    The development follows the source file top-down: the NumPy storage-kind
    narrowing table, the error-message truncation, the pending-call retry
    loops, the Python/R value marshaller ([py_to_r], [r_to_py_cpp]), the
    exception fetch ([py_fetch_error]) and the entry points on references
    (capsules, tuples, dictionaries, formals, submodules).  Every
    definition carries the name of the C++ function it embeds. *)

From Stdlib Require Import ZArith List String Ascii Bool Lia.
From Stdlib Require Import Numbers.DecimalString.
Import ListNotations.

Open Scope string_scope.
Open Scope list_scope.
Open Scope Z_scope.

(** ** C++ exceptions and results

    Fallible code returns [result]: a value, or the C++ exception that
    unwinds the call. *)

Inductive exception : Type :=
| Rcpp_stop (msg : string)        (* Rcpp::stop(...)                      *)
| PythonException                 (* throw PythonException(py_fetch_error()) *)
| InterruptedException            (* Rcpp::internal::InterruptedException *)
| std_out_of_range                (* std::out_of_range from the STL       *)
| Rcpp_not_compatible             (* Rcpp::as<T> on a value of another kind *)
| Rcpp_index_out_of_bounds        (* Rcpp::Vector::at past the end        *)
| PyErr_NULL.                     (* not a throw: the CPython call returned
                                     NULL with the error indicator set and
                                     the function hands that NULL on       *)

Inductive result (A : Type) : Type :=
| Ok (a : A)
| Err (e : exception).

Arguments Ok {A} a.
Arguments Err {A} e.

Definition bind {A B : Type} (r : result A) (k : A -> result B) : result B :=
  match r with
  | Ok a => k a
  | Err e => Err e
  end.

Notation "'do' x <- r ; k" := (bind r (fun x => k))
  (at level 10, x name, r at level 100, k at level 200).

(** Sequencing a conversion over the elements of a container: the first
    exception aborts the loop. *)
Definition mapM {A B : Type} (f : A -> result B) : list A -> result (list B) :=
  fix go (l : list A) : result (list B) :=
    match l with
    | [] => Ok []
    | a :: l' => do b <- f a; do bs <- go l'; Ok (b :: bs)
    end.

(** The same over the first [n] elements: [for (i = 0; i < n; i++)]. *)
Definition mapM_n {A B : Type} (f : A -> result B)
    : list A -> nat -> result (list B) :=
  fix go (l : list A) (n : nat) : result (list B) :=
    match l, n with
    | a :: l', S n' => do b <- f a; do bs <- go l' n'; Ok (b :: bs)
    | _, _ => Ok []
    end.

(** [printf]'s [%d]. *)
Definition fmt_d (n : Z) : string := NilEmpty.string_of_int (Z.to_int n).

(** ** NumPy storage kinds

    The [NPY_*] enumerators are declared in [libpython.h]; the model takes
    them as parameters.  The only fact used about them is the one the C++
    compiler enforces on the [switch] of [narrow_array_typenum]: the case
    labels are pairwise distinct. *)

Class NPY_TYPES : Type := {
  NPY_BOOL : Z;
  NPY_BYTE : Z;
  NPY_UBYTE : Z;
  NPY_SHORT : Z;
  NPY_USHORT : Z;
  NPY_INT : Z;
  NPY_UINT : Z;
  NPY_LONG : Z;
  NPY_ULONG : Z;
  NPY_LONGLONG : Z;
  NPY_ULONGLONG : Z;
  NPY_HALF : Z;
  NPY_FLOAT : Z;
  NPY_DOUBLE : Z;
  NPY_CFLOAT : Z;
  NPY_CDOUBLE : Z;
  NPY_STRING : Z;
  NPY_UNICODE : Z;
  NPY_OBJECT : Z
}.

(** The enumerators as NumPy's [ndarraytypes.h] numbers them; used to
    instantiate the parametric statements. *)
Definition numpy_abi : NPY_TYPES := {|
  NPY_BOOL := 0;
  NPY_BYTE := 1;
  NPY_UBYTE := 2;
  NPY_SHORT := 3;
  NPY_USHORT := 4;
  NPY_INT := 5;
  NPY_UINT := 6;
  NPY_LONG := 7;
  NPY_ULONG := 8;
  NPY_LONGLONG := 9;
  NPY_ULONGLONG := 10;
  NPY_HALF := 23;
  NPY_FLOAT := 11;
  NPY_DOUBLE := 12;
  NPY_CFLOAT := 14;
  NPY_CDOUBLE := 15;
  NPY_STRING := 18;
  NPY_UNICODE := 19;
  NPY_OBJECT := 17
|}.

Section Narrowing.

Context {K : NPY_TYPES}.

(** The case labels of the [switch], in source order. *)
Definition logical_kinds : list Z := [NPY_BOOL].
Definition integer_kinds : list Z :=
  [NPY_BYTE; NPY_UBYTE; NPY_SHORT; NPY_USHORT; NPY_INT].
Definition double_kinds : list Z :=
  [NPY_UINT; NPY_ULONG; NPY_ULONGLONG; NPY_LONG; NPY_LONGLONG;
   NPY_HALF; NPY_FLOAT; NPY_DOUBLE].
Definition complex_kinds : list Z := [NPY_CFLOAT; NPY_CDOUBLE].
Definition structural_kinds : list Z := [NPY_STRING; NPY_UNICODE; NPY_OBJECT].

Definition numeric_kinds : list Z :=
  logical_kinds ++ integer_kinds ++ double_kinds ++ complex_kinds.

Definition case_labels : list Z := numeric_kinds ++ structural_kinds.

Definition canonical_kinds : list Z :=
  [NPY_BOOL; NPY_LONG; NPY_DOUBLE; NPY_CDOUBLE].

(** A [case] group: does [typenum] match one of its labels? *)
Definition case_of (labels : list Z) (typenum : Z) : bool :=
  existsb (Z.eqb typenum) labels.

(** [int narrow_array_typenum(int typenum)] *)
Definition narrow_array_typenum (typenum : Z) : result Z :=
  if case_of logical_kinds typenum then Ok NPY_BOOL
  else if case_of integer_kinds typenum then Ok NPY_LONG
  else if case_of double_kinds typenum then Ok NPY_DOUBLE
  else if case_of complex_kinds typenum then Ok NPY_CDOUBLE
  else if case_of structural_kinds typenum then Ok typenum
  else Err (Rcpp_stop ("Conversion from numpy array type " ++ fmt_d typenum
                       ++ " is not supported")%string).

End Narrowing.

(** ** Machine integers and [std::string]

    [std::size_t] is 64 bits wide and [int] 32 bits (LP64); conversions wrap
    as the C++ implementation does.  A [std::string] is a [string] of
    bytes. *)

Definition to_size_t (z : Z) : Z := z mod 2 ^ 64.
Definition to_int (z : Z) : Z := (z + 2 ^ 31) mod 2 ^ 32 - 2 ^ 31.
Definition npos : Z := 2 ^ 64 - 1.

Definition size (s : string) : Z := Z.of_nat (String.length s).

Fixpoint drop (n : nat) (s : string) : string :=
  match n, s with
  | O, _ => s
  | S _, EmptyString => EmptyString
  | S n', String _ s' => drop n' s'
  end.

Fixpoint take (n : nat) (s : string) : string :=
  match n, s with
  | O, _ => EmptyString
  | S _, EmptyString => EmptyString
  | S n', String c s' => String c (take n' s')
  end.

(** Offset of the first occurrence of the byte [c]. *)
Fixpoint index_of (c : ascii) (s : string) : option nat :=
  match s with
  | EmptyString => None
  | String c' s' =>
      if Ascii.eqb c' c then Some O
      else match index_of c s' with
           | Some i => Some (S i)
           | None => None
           end
  end.

(** [s.find(c, pos)] for a one-byte pattern. *)
Definition std_find (s : string) (c : ascii) (pos : Z) : Z :=
  if size s <? pos then npos
  else match index_of c (drop (Z.to_nat pos) s) with
       | Some i => pos + Z.of_nat i
       | None => npos
       end.

(** [s.substr(pos, count)]: throws when [pos > s.size()]. *)
Definition std_substr (s : string) (pos count : Z) : result string :=
  if size s <? pos then Err std_out_of_range
  else Ok (take (Z.to_nat (Z.min count (size s - pos))) (drop (Z.to_nat pos) s)).

Definition newline : ascii := "010"%char.

(** ** [conditionMessage_from_py_exception] *)

(** What the calls into Python's [traceback] module produce. *)
Inductive traceback_outcome : Type :=
| tb_module_not_found                   (* py_import("traceback") is NULL      *)
| tb_format_fn_not_found                (* no attribute format_exception_only  *)
| tb_format_fn_returned_NULL            (* the call itself failed              *)
| tb_formatted (lines : list string).   (* the list of formatted lines         *)

Definition trunc : string := "<...truncated...>".

(** Start index handed to [error.substr] for the tail:
    [over + head.size() + trunc.size() + 20], computed in [size_t]. *)
Definition tail_start (over : Z) (head : string) : Z :=
  to_size_t (to_size_t over + size head + size trunc + 20).

(** The block guarded by [if (error.size() > max_msg_len)]. *)
Definition truncate_middle (error : string) (max_msg_len : Z) : result string :=
  let over := to_int (to_size_t (size error - max_msg_len)) in
  let first_line_end_pos := to_int (std_find error newline 0) in
  let second_line_start_pos :=
    to_int (std_find error newline (to_size_t (first_line_end_pos + 1))) in
  do head <- std_substr error 0 (to_size_t (second_line_start_pos + 1));
  do tail <- std_substr error (tail_start over head) npos;
  Ok (head ++ trunc ++ tail)%string.

(** [hint] is the value of [.py_last_error_hint()], [warning_length] the
    [int] read from [getOption("warning.length")]. *)
Definition conditionMessage_from_py_exception
    (tb : traceback_outcome) (hint : string) (warning_length : Z)
    : result string :=
  match tb with
  | tb_module_not_found =>
      Ok "<unknown python exception, traceback module not found>"
  | tb_format_fn_not_found =>
      Ok "<unknown python exception, traceback format fn not found>"
  | tb_format_fn_returned_NULL =>
      Ok "<unknown python exception, traceback format fn returned NULL>"
  | tb_formatted lines =>
      let error := (String.concat "" lines ++ hint)%string in
      let max_msg_len := to_size_t warning_length in
      if max_msg_len <? size error
      then truncate_middle error max_msg_len
      else Ok error
  end.

(** ** Scheduling a call on the main thread

    [Py_AddPendingCall] is the environment's move: each loop is run against
    the answers it gives, one per attempt ([0] is success).  A run that has
    used up the answers without leaving the loop is still [Retrying]. *)

Inductive dispatch_event : Type :=
| sleep_for (ms : Z)
| PySys_WriteStderr (msg : string).

Inductive dispatch_status : Type :=
| RemovedOnMainThread   (* Rcpp_precious_remove called directly        *)
| Scheduled             (* Py_AddPendingCall returned 0                *)
| Abandoned             (* the function returned without scheduling    *)
| Retrying.             (* still inside the loop                       *)

Definition wait_ms : Z := 100.

Definition finalizer_waiting_msg : string :=
  String.append
    "Waiting to schedule object finalizer on main R interpeter thread..."
    (String newline EmptyString).
Definition finalizer_error_msg : string :=
  String.append
    "Error: unable to register R object finalizer on main thread"
    (String newline EmptyString).
Definition call_waiting_msg : string :=
  String.append
    "Waiting to schedule call on main R interpeter thread..."
    (String newline EmptyString).

(** The [while] loop of [Rcpp_precious_remove_main_thread]. *)
Fixpoint precious_remove_loop (answers : list Z) (waited_ms : Z)
    : dispatch_status * list dispatch_event :=
  match answers with
  | [] => (Retrying, [])
  | a :: rest =>
      if a =? 0 then (Scheduled, [])
      else
        let waited_ms := to_size_t (waited_ms + wait_ms) in
        if waited_ms mod 60000 =? 0 then
          let '(st, ev) := precious_remove_loop rest waited_ms in
          (st, sleep_for wait_ms :: PySys_WriteStderr finalizer_waiting_msg :: ev)
        else if 60000 * 2 <? waited_ms then
          (Abandoned, [sleep_for wait_ms; PySys_WriteStderr finalizer_error_msg])
        else
          let '(st, ev) := precious_remove_loop rest waited_ms in
          (st, sleep_for wait_ms :: ev)
  end.

Definition Rcpp_precious_remove_main_thread (is_main_thread : bool)
    (answers : list Z) : dispatch_status * list dispatch_event :=
  if is_main_thread then (RemovedOnMainThread, [])
  else precious_remove_loop answers 0.

(** The [while (true)] loop of [call_python_function_on_main_thread]. *)
Fixpoint call_on_main_thread_loop (answers : list Z) (waited_ms : Z)
    : dispatch_status * list dispatch_event :=
  match answers with
  | [] => (Retrying, [])
  | a :: rest =>
      if a =? 0 then (Scheduled, [])
      else
        let waited_ms := to_size_t (waited_ms + wait_ms) in
        let '(st, ev) := call_on_main_thread_loop rest waited_ms in
        if waited_ms mod 60000 =? 0 then
          (st, sleep_for wait_ms :: PySys_WriteStderr call_waiting_msg :: ev)
        else
          (st, sleep_for wait_ms :: ev)
  end.

(** [call_python_function_on_main_thread]: the call record is built from
    the two arguments and handed to the loop; once it is scheduled the
    function returns None. *)
Definition call_python_function_on_main_thread (answers : list Z)
    : dispatch_status * list dispatch_event :=
  call_on_main_thread_loop answers 0.

(** ** The two object models

    A Python object is modelled by what the C API lets [python.cpp] observe
    of it: its type (exactness, call slot, method resolution order, the
    attribute names the type provides), its instance attributes and its
    C-level payload.  An R object is a value with its attribute pairlist.
    A [double] is carried as its IEEE-754 bit pattern: the marshaller only
    moves doubles, it never computes with them. *)

Definition npy_double : Type := Z.

Record Rcomplex : Type := mkRcomplex { cplx_r : npy_double; cplx_i : npy_double }.

Inductive cetype_t : Type := CE_NATIVE | CE_UTF8 | CE_LATIN1 | CE_BYTES.

Inductive CHARSXP : Type :=
| NA_STRING
| mkCharCE (bytes : string) (ce : cetype_t).

Inductive SEXPTYPE : Type :=
| NILSXP | LGLSXP | INTSXP | REALSXP | CPLXSXP | STRSXP | VECSXP | RAWSXP
| CLOSXP | EXTPTRSXP | ENVSXP | OTHERSXP (code : Z).

Record PyClass : Type := mkPyClass {
  cls_module : option string;     (* __module__, when the class has one *)
  cls_name : string               (* __name__ *)
}.

Record PyTypeObject : Type := mkPyType {
  tp_exact : bool;            (* Py_TYPE(x) is the builtin type of the payload
                                 itself, not a subclass: the *_CheckExact macros *)
  tp_call : bool;             (* PyCallable_Check(x) *)
  tp_isinstance_dict : bool;  (* PyObject_IsInstance(x, dict) for an object
                                 that is not a dict at the C level *)
  tp_attrs : list string;     (* attribute names found on the type *)
  tp_mro : list PyClass       (* inspect.getmro(x.__class__) *)
}.

#[warnings="-register-all"]
Inductive PyObject : Type :=
| mkPyObject (ob_type : PyTypeObject) (ob_attrs : list (string * PyObject))
             (ob_val : PyValue)
with PyValue : Type :=
| VNone                                         (* the Py_None singleton      *)
| VBool (b : bool)                              (* Py_True / Py_False         *)
| VLong (n : Z)                                 (* int (and Python 2 long)    *)
| VFloat (d : npy_double)
| VComplex (re im : npy_double)
| VUnicode (utf8 : string)                      (* text, by its UTF-8 bytes   *)
| VBytes (bytes : string)                       (* bytes / Python 2 str       *)
| VList (items : list PyObject)
| VTuple (items : list PyObject)
| VDict (entries : list (PyObject * PyObject))  (* in iteration order         *)
| VArray (type_num : Z) (dims : list Z) (data : list npy_item)
| VArrayScalar (type_num : Z) (item : npy_item) (* numpy.generic instance     *)
| VByteArray (bytes : string)
| VCapsule (c : capsule)
| VInstance (items : list (PyObject * PyObject))
                                                (* any other object; [items]
                                                   is what PyMapping_Items
                                                   yields for it             *)
with npy_item : Type :=                         (* one element of a buffer    *)
| elem_num (v : Z)                              (* integer value, double bits *)
| elem_cplx (re im : npy_double)
| elem_obj (o : PyObject)                       (* PyObject* element; for a
                                                   string array, what
                                                   nditer/item() yields      *)
with capsule : Type :=
| r_object_capsule (object : SEXP) (context : bool)
                                                (* name "r_object", pointer
                                                   the preserved cell whose
                                                   TAG is [object]           *)
| r_extptr_capsule_ (addr : Z) (sexp : SEXP)    (* name NULL                  *)
| foreign_capsule (name : option string)        (* made by other code         *)
with SEXP : Type :=
| mkSEXP (sx_val : RValue) (sx_attrib : list (string * SEXP))
with RValue : Type :=
| RNil
| RLogical (v : list Z)                         (* int cells; NA is INT_MIN   *)
| RInteger (v : list Z)
| RReal (v : list npy_double)
| RComplex (v : list Rcomplex)
| RString (v : list CHARSXP)
| RRaw (v : string)
| RList (v : list SEXP)
| RClosure (id : Z)
| RExternalPtr (addr : Z)
| RPyObjectRef (pyobj : PyObject) (convert : bool)
| ROther (type : Z) (id : Z).

Definition ob_type (x : PyObject) : PyTypeObject :=
  match x with mkPyObject t _ _ => t end.
Definition ob_attrs (x : PyObject) : list (string * PyObject) :=
  match x with mkPyObject _ a _ => a end.
Definition ob_val (x : PyObject) : PyValue :=
  match x with mkPyObject _ _ v => v end.

Definition sx_val (x : SEXP) : RValue :=
  match x with mkSEXP v _ => v end.
Definition sx_attrib (x : SEXP) : list (string * SEXP) :=
  match x with mkSEXP _ a => a end.

(** *** R-side constructors and accessors *)

Definition R_NilValue : SEXP := mkSEXP RNil [].
Definition NA_INTEGER : Z := - 2 ^ 31.
Definition NA_LOGICAL : Z := - 2 ^ 31.
Definition R_NaReal : npy_double := 9218868437227407266.   (* 0x7FF00000000007A2 *)

Definition LogicalVector (v : list Z) : SEXP := mkSEXP (RLogical v) [].
Definition IntegerVector (v : list Z) : SEXP := mkSEXP (RInteger v) [].
Definition NumericVector (v : list npy_double) : SEXP := mkSEXP (RReal v) [].
Definition ComplexVector (v : list Rcomplex) : SEXP := mkSEXP (RComplex v) [].
Definition CharacterVector (v : list CHARSXP) : SEXP := mkSEXP (RString v) [].
Definition RawVector (v : string) : SEXP := mkSEXP (RRaw v) [].
Definition List_ (v : list SEXP) : SEXP := mkSEXP (RList v) [].

(** [wrap(std::vector<std::string>)] *)
Definition wrap_strings (l : list string) : SEXP :=
  CharacterVector (map (fun s => mkCharCE s CE_NATIVE) l).

(** [Rf_allocArray(type, dims)] filled with [data]. *)
Definition Rf_allocArray (data : RValue) (dimsVector : list Z) : SEXP :=
  mkSEXP data [("dim", IntegerVector dimsVector)].

Definition TYPEOF (x : SEXP) : SEXPTYPE :=
  match sx_val x with
  | RNil => NILSXP
  | RLogical _ => LGLSXP
  | RInteger _ => INTSXP
  | RReal _ => REALSXP
  | RComplex _ => CPLXSXP
  | RString _ => STRSXP
  | RRaw _ => RAWSXP
  | RList _ => VECSXP
  | RClosure _ => CLOSXP
  | RExternalPtr _ => EXTPTRSXP
  | RPyObjectRef _ _ => ENVSXP
  | ROther t _ => OTHERSXP t
  end.

Definition LENGTH (x : SEXP) : Z :=
  match sx_val x with
  | RLogical v | RInteger v | RReal v => Z.of_nat (List.length v)
  | RComplex v => Z.of_nat (List.length v)
  | RString v => Z.of_nat (List.length v)
  | RRaw v => size v
  | RList v => Z.of_nat (List.length v)
  | RNil => 0
  | _ => 1
  end.

Fixpoint assoc {A : Type} (name : string) (l : list (string * A)) : option A :=
  match l with
  | [] => None
  | (k, v) :: l' => if String.eqb k name then Some v else assoc name l'
  end.

Definition hasAttribute (x : SEXP) (name : string) : bool :=
  match assoc name (sx_attrib x) with Some _ => true | None => false end.

Definition attr (x : SEXP) (name : string) : SEXP :=
  match assoc name (sx_attrib x) with Some v => v | None => R_NilValue end.

Definition char_bytes (c : CHARSXP) : string :=
  match c with NA_STRING => "NA" | mkCharCE b _ => b end.

(** [x.inherits(what)]: [what] is among the strings of the class attribute. *)
Definition inherits (x : SEXP) (what : string) : bool :=
  match sx_val (attr x "class") with
  | RString cls => existsb (fun c => String.eqb (char_bytes c) what) cls
  | _ => false
  end.

(** The object bit: set exactly when a class attribute is present. *)
Definition OBJECT (x : SEXP) : bool := hasAttribute x "class".

(** ** What the two runtimes provide

    Global flags of the running session and the behaviour of functions that
    live in CPython, NumPy, R or the R side of the package.  [python.cpp]
    only calls them; the model takes them as parameters. *)

Class Runtime : Type := {
  npy_types :: NPY_TYPES;
  s_isPython3 : bool;                       (* set during py_initialize       *)
  s_numpy_loaded : bool;                    (* s_numpy_load_error.empty()     *)
  sizeof_long : Z;                          (* sizeof(long), in bytes         *)
  (* CPython *)
  utf8_decodes : string -> bool;            (* PyUnicode_FromString accepts   *)
  py_str_text : PyObject -> string;         (* the text str(x) evaluates to   *)
  py_hashable : PyObject -> bool;           (* PyObject_Hash(x) succeeds      *)
  py_key_eq : PyObject -> PyObject -> bool; (* dict key lookup: same hash and
                                               identical or __eq__            *)
  is_numpy_nan : PyObject -> bool;          (* x is the object numpy.nan      *)
  call_results_checked : bool;              (* a call that returns a result
                                               while the error indicator is
                                               set fails with SystemError, as
                                               in CPython 3.8 and later        *)
  (* NumPy *)
  PyArray_CastToType :
    Z -> list Z -> list npy_item -> Z -> option (list npy_item);
                                            (* buffer of the array cast to the
                                               kind; None when the cast fails *)
  PyArray_CastScalarToCtype : Z -> npy_item -> Z -> npy_item;
  (* R *)
  iconv_utf8 : string -> cetype_t -> string;   (* re-encoding of non-ASCII    *)
  iconv_native : string -> cetype_t -> string;
  is_ascii : string -> bool;
  (* the package's R namespace *)
  py_filter_classes : list string -> list string;
  py_callable_as_function : SEXP -> bool -> SEXP;
  r_to_py_fn : SEXP -> bool -> result PyObject;  (* the S3 generic r_to_py    *)
  make_python_function : PyObject -> PyObject -> result PyObject
                                            (* rpytools.call                  *)
}.

Section Marshaller.

Context {RT : Runtime}.

(** *** Builtin Python objects *)

Definition builtin_type (name : string) (attrs : list string) : PyTypeObject :=
  {| tp_exact := true; tp_call := false; tp_isinstance_dict := false;
     tp_attrs := attrs;
     tp_mro := [mkPyClass (Some "builtins") name;
                mkPyClass (Some "builtins") "object"] |}.

Definition Py_None : PyObject := mkPyObject (builtin_type "NoneType" []) [] VNone.
Definition Py_True : PyObject := mkPyObject (builtin_type "bool" []) [] (VBool true).
Definition Py_False : PyObject := mkPyObject (builtin_type "bool" []) [] (VBool false).

Definition PyBool_FromLong (v : Z) : PyObject :=
  if v =? 0 then Py_False else Py_True.
Definition PyInt_FromLong (v : Z) : PyObject :=
  mkPyObject (builtin_type "int" []) [] (VLong v).
Definition PyFloat_FromDouble (d : npy_double) : PyObject :=
  mkPyObject (builtin_type "float" []) [] (VFloat d).
Definition PyComplex_FromDoubles (re im : npy_double) : PyObject :=
  mkPyObject (builtin_type "complex" []) [] (VComplex re im).
Definition PyUnicode_FromString (s : string) : result PyObject :=
  if utf8_decodes s
  then Ok (mkPyObject (builtin_type "str" ["__iter__"]) [] (VUnicode s))
  else Err PyErr_NULL.
Definition PyString_FromString (s : string) : PyObject :=
  mkPyObject (builtin_type "str" ["__iter__"]) [] (VBytes s).
Definition PyList_New (items : list PyObject) : PyObject :=
  mkPyObject (builtin_type "list" ["__iter__"]) [] (VList items).
Definition PyTuple_New (items : list PyObject) : PyObject :=
  mkPyObject (builtin_type "tuple" ["__iter__"]) [] (VTuple items).
Definition PyDict_New (entries : list (PyObject * PyObject)) : PyObject :=
  mkPyObject (builtin_type "dict" ["__iter__"]) [] (VDict entries).
Definition PyByteArray_FromStringAndSize (b : string) : PyObject :=
  mkPyObject (builtin_type "bytearray" ["__iter__"]) [] (VByteArray b).
Definition PyCapsule_New (c : capsule) : PyObject :=
  mkPyObject (builtin_type "PyCapsule" []) [] (VCapsule c).
Definition PyArray_New (typenum : Z) (dims : list Z) (data : list npy_item)
    : PyObject :=
  mkPyObject {| tp_exact := true; tp_call := false; tp_isinstance_dict := false;
                tp_attrs := ["__iter__"];
                tp_mro := [mkPyClass (Some "numpy") "ndarray";
                           mkPyClass (Some "builtins") "object"] |}
             [] (VArray typenum dims data).

(** *** Type checks of the C API *)

Definition py_is_none (x : PyObject) : bool :=
  match ob_val x with VNone => true | _ => false end.
Definition PyBool_Check (x : PyObject) : bool :=
  match ob_val x with VBool _ => true | _ => false end.
Definition PyInt_Check (x : PyObject) : bool :=
  match ob_val x with VLong _ => true | _ => false end.
Definition PyLong_Check (x : PyObject) : bool :=
  match ob_val x with VLong _ | VBool _ => true | _ => false end.
Definition PyFloat_Check (x : PyObject) : bool :=
  match ob_val x with VFloat _ => true | _ => false end.
Definition PyComplex_Check (x : PyObject) : bool :=
  match ob_val x with VComplex _ _ => true | _ => false end.
Definition PyUnicode_Check (x : PyObject) : bool :=
  match ob_val x with VUnicode _ => true | _ => false end.
Definition PyString_Check (x : PyObject) : bool :=
  match ob_val x with VBytes _ => true | _ => false end.
Definition PyList_Check (x : PyObject) : bool :=
  match ob_val x with VList _ => true | _ => false end.
Definition PyList_CheckExact (x : PyObject) : bool :=
  PyList_Check x && tp_exact (ob_type x).
Definition PyTuple_CheckExact (x : PyObject) : bool :=
  match ob_val x with VTuple _ => tp_exact (ob_type x) | _ => false end.
Definition PyDict_Check (x : PyObject) : bool :=
  match ob_val x with VDict _ => true | _ => false end.
Definition PyDict_CheckExact (x : PyObject) : bool :=
  PyDict_Check x && tp_exact (ob_type x).
Definition PyByteArray_Check (x : PyObject) : bool :=
  match ob_val x with VByteArray _ => true | _ => false end.
Definition PyCallable_Check (x : PyObject) : bool := tp_call (ob_type x).
Definition PyObject_IsInstance_dict (x : PyObject) : bool :=
  PyDict_Check x || tp_isinstance_dict (ob_type x).

Definition PyObject_HasAttrString (x : PyObject) (name : string) : bool :=
  match assoc name (ob_attrs x) with
  | Some _ => true
  | None => existsb (String.eqb name) (tp_attrs (ob_type x))
  end.

(** [PyArray_Check] and [PyArray_CheckScalar] (a [numpy.generic] instance or
    a zero-dimensional array), behind the [haveNumPy()] guard. *)
Definition haveNumPy : bool := s_numpy_loaded.

Definition isPyArray (object : PyObject) : bool :=
  if negb haveNumPy then false
  else match ob_val object with VArray _ _ _ => true | _ => false end.

Definition isPyArrayScalar (object : PyObject) : bool :=
  if negb haveNumPy then false
  else match ob_val object with
       | VArrayScalar _ _ => true
       | VArray _ [] _ => true
       | _ => false
       end.

(** [PyArray_DescrFromScalar(x)->type_num] *)
Definition descr_type_num (x : PyObject) : Z :=
  match ob_val x with
  | VArrayScalar t _ => t
  | VArray t _ _ => t
  | _ => NPY_OBJECT
  end.

Definition is_numpy_str (x : PyObject) : result bool :=
  if negb (isPyArrayScalar x) then Ok false
  else
    do typenum <- narrow_array_typenum (descr_type_num x);
    Ok ((typenum =? NPY_STRING) || (typenum =? NPY_UNICODE)).

(** [PyString_AsStringAndSize(str, &buffer, NULL)] fails on an embedded NUL. *)
Definition has_null_bytes (str : PyObject) : bool :=
  match ob_val str with
  | VBytes b => match index_of "000"%char b with Some _ => true | None => false end
  | _ => true
  end.

Definition is_python_str (x : PyObject) : result bool :=
  if PyUnicode_Check x then Ok true
  else if negb s_isPython3 && PyString_Check x && negb (has_null_bytes x)
  then Ok true
  else
    do b <- is_numpy_str x;
    if b then Ok true else Ok false.

(** [as_std_string]: text is encoded to UTF-8 first; the buffer of a bytes
    object is copied.  Asking a non-text NumPy scalar for its encoding
    yields NULL, which the source passes on unchecked; the model reports
    that as the failure of the following call. *)
Definition as_std_string (str : PyObject) : result string :=
  if PyUnicode_Check str || isPyArrayScalar str then
    match ob_val str with
    | VUnicode s => Ok s
    | _ => Err PythonException
    end
  else
    match ob_val str with
    | VBytes b => Ok b
    | _ => Err PythonException
    end.

(** [as_utf8_r_string(str)]: [Rcpp::String(as_std_string(str))]. *)
Definition as_utf8_r_string (str : PyObject) : result CHARSXP :=
  do s <- as_std_string str; Ok (mkCharCE s CE_UTF8).

(** [PyObject_Str(key)], as a text object. *)
Definition PyObject_Str (x : PyObject) : PyObject :=
  mkPyObject (builtin_type "str" ["__iter__"]) [] (VUnicode (py_str_text x)).

(** [int r_scalar_type(PyObject* x)] *)
Definition r_scalar_type (x : PyObject) : result SEXPTYPE :=
  if PyBool_Check x then Ok LGLSXP
  else if PyInt_Check x || PyLong_Check x then Ok INTSXP
  else if PyFloat_Check x then Ok REALSXP
  else if PyComplex_Check x then Ok CPLXSXP
  else
    do s <- is_python_str x;
    if s then Ok STRSXP else Ok NILSXP.

Definition SEXPTYPE_eqb (a b : SEXPTYPE) : bool :=
  match a, b with
  | NILSXP, NILSXP | LGLSXP, LGLSXP | INTSXP, INTSXP | REALSXP, REALSXP
  | CPLXSXP, CPLXSXP | STRSXP, STRSXP | VECSXP, VECSXP | RAWSXP, RAWSXP
  | CLOSXP, CLOSXP | EXTPTRSXP, EXTPTRSXP | ENVSXP, ENVSXP => true
  | OTHERSXP c, OTHERSXP d => c =? d
  | _, _ => false
  end.

(** The [for] loop of [scalar_list_type]: every further item has the type
    of the first. *)
Fixpoint scalar_list_rest (scalarType : SEXPTYPE) (rest : list PyObject)
    : result SEXPTYPE :=
  match rest with
  | [] => Ok scalarType
  | next :: rest' =>
      do t <- r_scalar_type next;
      if negb (SEXPTYPE_eqb t scalarType) then Ok NILSXP
      else scalar_list_rest scalarType rest'
  end.

(** [int scalar_list_type(PyObject* x)], on the items of the list. *)
Definition scalar_list_type (items : list PyObject) : result SEXPTYPE :=
  match items with
  | [] => Ok NILSXP
  | first :: rest =>
      do scalarType <- r_scalar_type first;
      if SEXPTYPE_eqb scalarType NILSXP then Ok NILSXP
      else scalar_list_rest scalarType rest
  end.

(** *** Scalar accessors *)

(** [PyInt_AsLong]: [-1] (with the error indicator set) when the value does
    not fit a C [long]. *)
Definition PyInt_AsLong (x : PyObject) : Z :=
  match ob_val x with
  | VLong n =>
      if (- 2 ^ (8 * sizeof_long - 1) <=? n) && (n <? 2 ^ (8 * sizeof_long - 1))
      then n else -1
  | VBool b => if b then 1 else 0
  | _ => -1
  end.

Definition PyFloat_AsDouble (x : PyObject) : npy_double :=
  match ob_val x with
  | VFloat d => d
  | _ => 13830554455654793216          (* -1.0, the error value *)
  end.

Definition PyComplex_AsRcomplex (x : PyObject) : Rcomplex :=
  match ob_val x with
  | VComplex re im => mkRcomplex re im
  | VFloat d => mkRcomplex d 0
  | _ => mkRcomplex 13830554455654793216 0
  end.

Definition is_Py_True (x : PyObject) : Z :=
  match ob_val x with VBool true => 1 | _ => 0 end.

(** *** Class names and [py_ref] *)

Definition starts_with (p s : string) : bool :=
  String.eqb (take (String.length p) s) p.

(** [std::string as_r_class(PyObject* classPtr)] *)
Definition as_r_class (classPtr : PyClass) : string :=
  let module :=
    match cls_module classPtr with
    | Some m =>
        let module := (m ++ ".")%string in
        let module :=
          if starts_with "__builtin__" module
          then ("python.builtin" ++ drop 11 module)%string else module in
        let module :=
          if starts_with "builtins" module
          then ("python.builtin" ++ drop 8 module)%string else module in
        module
    | None => "python.builtin."
    end in
  (module ++ cls_name classPtr)%string.

Definition py_class_names (object : PyObject) : list string :=
  map as_r_class (tp_mro (ob_type object)).

Definition contains (l : list string) (s : string) : bool :=
  existsb (String.eqb s) l.

(** [PyObjectRef py_ref(PyObject* object, bool convert, extraClass)].
    Every object answers [__class__]. *)
Definition py_ref (object : PyObject) (convert : bool) (extraClass : string)
    : SEXP :=
  let attrClass := if String.eqb extraClass "" then [] else [extraClass] in
  let attrClass := attrClass ++ py_class_names object in
  let attrClass :=
    if contains attrClass "python.builtin.object" then attrClass
    else attrClass ++ ["python.builtin.object"] in
  let attrClass := py_filter_classes attrClass in
  mkSEXP (RPyObjectRef object convert) [("class", wrap_strings attrClass)].

(** *** The error indicator

    A CPython call that fails leaves an exception in the error indicator
    of the thread, where it stays until it is fetched or cleared: a call
    that succeeds does not touch it.  The indicator is the exception value
    and its traceback; an exception the interpreter raises itself is
    modelled by its class. *)

Definition PyErr : Type := option (PyObject * option PyObject).

(** An exception class, and instances of it. *)
Definition exception_type (name : string) : PyTypeObject :=
  {| tp_exact := false; tp_call := false; tp_isinstance_dict := false;
     tp_attrs := ["with_traceback"];
     tp_mro := [mkPyClass (Some "builtins") name;
                mkPyClass (Some "builtins") "Exception";
                mkPyClass (Some "builtins") "BaseException";
                mkPyClass (Some "builtins") "object"] |}.

(** What a failed attribute lookup and a refused dictionary key leave. *)
Definition AttributeError_raised : PyErr :=
  Some (mkPyObject (exception_type "AttributeError") [] (VInstance []), None).

Definition TypeError_raised : PyErr :=
  Some (mkPyObject (exception_type "TypeError") [] (VInstance []), None).

(** The SystemError of a call that returned a result with an error set:
    the pending exception becomes its cause and its context. *)
Definition SystemError_from (err : PyErr) : PyObject :=
  mkPyObject (exception_type "SystemError")
    match err with
    | Some (pending, _) => [("__cause__", pending); ("__context__", pending)]
    | None => []
    end
    (VInstance []).

(** [py_ref] with the error indicator as it is at the call.  Every lookup
    of [py_ref] and [py_class_names] succeeds and leaves the indicator
    alone; [py_class_names] then calls [inspect.getmro], the call fails
    when the interpreter checks results against the indicator, and
    [py_class_names] throws. *)
Definition py_ref_with (err : PyErr) (object : PyObject) (convert : bool)
    (extraClass : string) : result SEXP :=
  match err with
  | Some _ =>
      if call_results_checked then Err PythonException
      else Ok (py_ref object convert extraClass)
  | None => Ok (py_ref object convert extraClass)
  end.

(** *** Capsules *)

Definition is_r_object_capsule (x : PyObject) : bool :=
  match ob_val x with
  | VCapsule (r_object_capsule _ _) => true
  | _ => false
  end.

(** [py_capsule_read]: the object kept in the preserved cell. *)
Definition py_capsule_read (x : PyObject) : result SEXP :=
  match ob_val x with
  | VCapsule (r_object_capsule object _) => Ok object
  | _ => Err PythonException
  end.

(** [py_capsule_new]: preserve the object, name the capsule "r_object". *)
Definition py_capsule_new (object : SEXP) : PyObject :=
  PyCapsule_New (r_object_capsule object false).

(** *** pandas *)

Definition is_pandas_na (x : PyObject) : bool :=
  match tp_mro (ob_type x) with
  | [] => false
  | pyClass :: _ =>
      match cls_module pyClass with
      | None => false
      | Some pyModule =>
          if negb (String.eqb pyModule "pandas._libs.missing") then false
          else String.eqb (cls_name pyClass) "NAType"
               || String.eqb (cls_name pyClass) "C_NAType"
      end
  end.

Definition is_pandas_na_like (x : PyObject) : bool :=
  is_pandas_na x || py_is_none x || is_numpy_nan x.

(** The value [set_string_element] stores. *)
Definition string_element (pyStr : PyObject) : result CHARSXP :=
  if is_pandas_na_like pyStr then Ok NA_STRING
  else
    do str <- as_std_string pyStr;
    Ok (mkCharCE str (if PyUnicode_Check pyStr then CE_UTF8 else CE_NATIVE)).

Definition py_is_callable (x : PyObject) : bool :=
  PyCallable_Check x || PyObject_HasAttrString x "__call__".

End Marshaller.

Section Conversion.

Context {RT : Runtime}.

(** *** Container and buffer views *)

Definition PyList_items (x : PyObject) : list PyObject :=
  match ob_val x with VList items => items | _ => [] end.
Definition PyTuple_items (x : PyObject) : list PyObject :=
  match ob_val x with VTuple items => items | _ => [] end.
Definition PyDict_entries (x : PyObject) : list (PyObject * PyObject) :=
  match ob_val x with VDict entries => entries | _ => [] end.

Definition PyArray_TYPE (x : PyObject) : Z :=
  match ob_val x with VArray t _ _ => t | _ => NPY_OBJECT end.
Definition PyArray_DIMS (x : PyObject) : list Z :=
  match ob_val x with VArray _ dims _ => dims | _ => [] end.
Definition PyArray_DATA (x : PyObject) : list npy_item :=
  match ob_val x with VArray _ _ data => data | _ => [] end.

Definition PyArray_SIZE (x : PyObject) : Z :=
  fold_right Z.mul 1 (PyArray_DIMS x).

(** The buffer read at the C type of each [case]. *)
Definition read_num (e : npy_item) : Z :=
  match e with elem_num v => v | _ => 0 end.
Definition read_complex (e : npy_item) : Rcomplex :=
  match e with
  | elem_cplx re im => mkRcomplex re im
  | elem_num v => mkRcomplex v 0
  | elem_obj _ => mkRcomplex 0 0
  end.

(** [dimsVector]: the dimensions as R integers; a zero-dimensional array
    is given the single dimension 1. *)
Definition dimsVector_of (dims : list Z) : list Z :=
  match dims with
  | [] => [1]
  | _ => map to_int dims
  end.

(** [std::string s = Rcpp::String(...)]: the conversion goes through the
    C string, which ends at the first NUL; the encoding mark is lost. *)
Definition c_str (s : string) : string :=
  match index_of "000"%char s with
  | Some i => take i s
  | None => s
  end.

Definition String_to_std_string (s : CHARSXP) : string := c_str (char_bytes s).

(** [names[idx] = as_utf8_r_string(...)], with [names] a
    [std::vector<std::string>]: the name a dict key is given. *)
Definition key_name (key : PyObject) : result string :=
  do s <- is_python_str key;
  do name <- (if s then as_utf8_r_string key
              else as_utf8_r_string (PyObject_Str key));
  Ok (String_to_std_string name).

(** [set_string_element] on a buffer element. *)
Definition string_element_of (e : npy_item) : result CHARSXP :=
  match e with
  | elem_obj pyStr => string_element pyStr
  | _ => Err PythonException
  end.

(** The [allStrings] loop over an object array: the scan stops at the
    first element that is neither a string nor NA-like. *)
Fixpoint all_strings (pData : list npy_item) : result bool :=
  match pData with
  | [] => Ok true
  | elem_obj el :: rest =>
      do s <- is_python_str el;
      if negb s && negb (is_pandas_na_like el) then Ok false
      else all_strings rest
  | _ :: _ => Ok false
  end.

(** The scalar branch of [py_to_r]. *)
Definition py_scalar_to_r (scalarType : SEXPTYPE) (x : PyObject) : result SEXP :=
  match scalarType with
  | LGLSXP => Ok (LogicalVector [is_Py_True x])
  | INTSXP => Ok (IntegerVector [to_int (PyInt_AsLong x)])
  | REALSXP => Ok (NumericVector [PyFloat_AsDouble x])
  | CPLXSXP => Ok (ComplexVector [PyComplex_AsRcomplex x])
  | STRSXP => do s <- as_utf8_r_string x; Ok (CharacterVector [s])
  | _ => Ok R_NilValue
  end.

(** The [isPyArrayScalar] branch of [py_to_r]. *)
Definition py_array_scalar_to_r (x : PyObject) : result SEXP :=
  do typenum <- narrow_array_typenum (descr_type_num x);
  let value :=
    match ob_val x with
    | VArrayScalar t item => PyArray_CastScalarToCtype t item typenum
    | _ => elem_num 0
    end in
  if typenum =? NPY_BOOL then Ok (LogicalVector [read_num value])
  else if typenum =? NPY_LONG then Ok (IntegerVector [to_int (read_num value)])
  else if typenum =? NPY_DOUBLE then Ok (NumericVector [read_num value])
  else if typenum =? NPY_CDOUBLE then Ok (ComplexVector [read_complex value])
  else Err (Rcpp_stop ("Unsupported array conversion from " ++ fmt_d typenum)%string).

(** *** The branches of [py_to_r]

    Each branch of the function, in source order.  Where a branch converts
    the elements of a container, the converted elements are an argument:
    [py_to_r] below passes its recursive calls there. *)

(** [PyList_CheckExact(x)]: a list of scalars of one type becomes a vector
    of that type, any other list an R list. *)
Definition list_to_r (x : PyObject) (converted_items : result (list SEXP))
    : result SEXP :=
  let items := PyList_items x in
  do scalarType <- scalar_list_type items;
  match scalarType with
  | REALSXP => Ok (NumericVector (map PyFloat_AsDouble items))
  | INTSXP => Ok (IntegerVector (map (fun i => to_int (PyInt_AsLong i)) items))
  | CPLXSXP => Ok (ComplexVector (map PyComplex_AsRcomplex items))
  | LGLSXP => Ok (LogicalVector (map is_Py_True items))
  | STRSXP => do vec <- mapM as_utf8_r_string items; Ok (CharacterVector vec)
  | _ => do list <- converted_items; Ok (List_ list)
  end.

(** An exact tuple, and a subclassed list read through [PyObject_GetItem]:
    an unnamed R list. *)
Definition sequence_to_r (converted_items : result (list SEXP)) : result SEXP :=
  do list <- converted_items; Ok (List_ list).

(** [PyDict_CheckExact(x)], and the mapping read through
    [PyMapping_Items]: [list.names() = names], where [names] is a
    [std::vector<std::string>]. *)
Definition entries_to_r (converted_entries : result (list (string * SEXP)))
    : result SEXP :=
  do list <- converted_entries;
  Ok (mkSEXP (RList (map snd list))
             [("names", wrap_strings (map fst list))]).

(** [isPyArray(x)].  For an object or string array the cast to the
    array's own kind hands back the array's elements. *)
Definition array_to_r (x : PyObject) (converted_objects : result (list SEXP))
    : result SEXP :=
  let len := Z.to_nat (PyArray_SIZE x) in
  let dimsVector := dimsVector_of (PyArray_DIMS x) in
  do typenum <- narrow_array_typenum (PyArray_TYPE x);
  if (typenum =? NPY_BOOL) || (typenum =? NPY_LONG)
     || (typenum =? NPY_DOUBLE) || (typenum =? NPY_CDOUBLE) then
    match PyArray_CastToType (PyArray_TYPE x) (PyArray_DIMS x)
                             (PyArray_DATA x) typenum with
    | None => Err PythonException
    | Some pData =>
        let pData := firstn len pData in
        if typenum =? NPY_BOOL then
          Ok (Rf_allocArray (RLogical (map read_num pData)) dimsVector)
        else if typenum =? NPY_LONG then
          Ok (Rf_allocArray
                (RInteger (map (fun e => to_int (read_num e)) pData))
                dimsVector)
        else if typenum =? NPY_DOUBLE then
          Ok (Rf_allocArray (RReal (map read_num pData)) dimsVector)
        else
          Ok (Rf_allocArray (RComplex (map read_complex pData)) dimsVector)
    end
  else
    let pData := firstn len (PyArray_DATA x) in
    if (typenum =? NPY_STRING) || (typenum =? NPY_UNICODE) then
      do strs <- mapM string_element_of pData;
      Ok (Rf_allocArray (RString strs) dimsVector)
    else if typenum =? NPY_OBJECT then
      (* check for all strings *)
      do allStrings <- all_strings pData;
      if allStrings then
        do strs <- mapM string_element_of pData;
        Ok (Rf_allocArray (RString strs) dimsVector)
      else
        do list <- converted_objects;
        Ok (Rf_allocArray (RList list) dimsVector)
    else Ok R_NilValue.

(** [py_is_callable(x)]: an R function made by the package, carrying the
    classes of the wrapped object and the object itself. *)
Definition callable_to_r (x : PyObject) (convert : bool) : result SEXP :=
  let pyFunc := py_ref x convert "" in
  let f := py_callable_as_function pyFunc convert in
  Ok (mkSEXP (sx_val f)
             (("py_object", pyFunc) :: ("class", attr pyFunc "class")
              :: sx_attrib f)).

(** [PyByteArray_Check(x)] *)
Definition bytearray_to_r (x : PyObject) : result SEXP :=
  match ob_val x with
  | VByteArray b => Ok (RawVector b)
  | _ => Ok (RawVector "")
  end.

(** The [if]/[else if] chain of [py_to_r]. *)
Definition py_to_r_chain (x : PyObject) (convert : bool)
    (converted_items : result (list SEXP))
    (converted_entries : result (list (string * SEXP)))
    (converted_objects : result (list SEXP)) : result SEXP :=
  (* NULL for Python None *)
  if py_is_none x then Ok R_NilValue
  else
  (* check for scalars *)
  do scalarType <- r_scalar_type x;
  if negb (SEXPTYPE_eqb scalarType NILSXP) then py_scalar_to_r scalarType x
  (* list *)
  else if PyList_CheckExact x then list_to_r x converted_items
  (* tuple (but don't convert namedtuple as it's often a custom class) *)
  else if PyTuple_CheckExact x && negb (PyObject_HasAttrString x "_fields")
  then sequence_to_r converted_items
  (* dict *)
  else if PyDict_CheckExact x then entries_to_r converted_entries
  (* numpy array *)
  else if isPyArray x then array_to_r x converted_objects
  (* check for numpy scalar *)
  else if isPyArrayScalar x then py_array_scalar_to_r x
  (* an object that subclasses list *)
  else if PyList_Check x then sequence_to_r converted_items
  else if PyObject_IsInstance_dict x then entries_to_r converted_entries
  (* callable *)
  else if py_is_callable x then callable_to_r x convert
  (* iterator/generator *)
  else if PyObject_HasAttrString x "__iter__"
          && (PyObject_HasAttrString x "next"
              || PyObject_HasAttrString x "__next__")
  then Ok (py_ref x true "python.builtin.iterator")
  (* bytearray *)
  else if PyByteArray_Check x then bytearray_to_r x
  (* pandas array *)
  else if is_pandas_na x then Ok (NumericVector [R_NaReal])
  else if is_r_object_capsule x then py_capsule_read x
  (* default is to return opaque wrapper to python object *)
  else Ok (py_ref x true "").

(** [SEXP py_to_r(PyObject* x, bool convert)]: the chain, with the loops
    that convert the elements of [x] by recursive calls. *)
Fixpoint py_to_r (x : PyObject) (convert : bool) {struct x} : result SEXP :=
  py_to_r_chain x convert
    (* list[i] = py_to_r(PyList_GetItem(x, i), convert), and the like *)
    match ob_val x with
    | VList items | VTuple items => mapM (fun i => py_to_r i convert) items
    | _ => Ok []
    end
    (* names[idx] = ...; list[idx] = py_to_r(value, convert) *)
    match ob_val x with
    | VDict entries | VInstance entries =>
        mapM (fun kv : PyObject * PyObject =>
                do name <- key_name (fst kv);
                do value <- py_to_r (snd kv) convert;
                Ok (name, value)) entries
    | _ => Ok []
    end
    (* SET_VECTOR_ELT(rArray, i, py_to_r(pData[i], convert)) *)
    match ob_val x with
    | VArray _ _ data =>
        mapM_n (fun e => match e with
                         | elem_obj o => py_to_r o convert
                         | _ => Ok R_NilValue
                         end)
               data (Z.to_nat (PyArray_SIZE x))
    | _ => Ok []
    end.

(** The three loops, named. *)
Definition converted_items (x : PyObject) (convert : bool)
    : result (list SEXP) :=
  match ob_val x with
  | VList items | VTuple items => mapM (fun i => py_to_r i convert) items
  | _ => Ok []
  end.

Definition converted_entries (x : PyObject) (convert : bool)
    : result (list (string * SEXP)) :=
  match ob_val x with
  | VDict entries | VInstance entries =>
      mapM (fun kv : PyObject * PyObject =>
              do name <- key_name (fst kv);
              do value <- py_to_r (snd kv) convert;
              Ok (name, value)) entries
  | _ => Ok []
  end.

Definition converted_objects (x : PyObject) (convert : bool)
    : result (list SEXP) :=
  match ob_val x with
  | VArray _ _ data =>
      mapM_n (fun e => match e with
                       | elem_obj o => py_to_r o convert
                       | _ => Ok R_NilValue
                       end)
             data (Z.to_nat (PyArray_SIZE x))
  | _ => Ok []
  end.

(** *** The precedence order, as a list

    The categories a Python value can fall into, the test that lets a
    value into each, and the conversion each receives. *)

Inductive category : Type :=
| cat_none | cat_scalar | cat_exact_list | cat_exact_tuple | cat_exact_dict
| cat_array | cat_array_scalar | cat_subclassed_list | cat_mapping
| cat_callable | cat_iterator | cat_bytearray | cat_pandas_na
| cat_r_object_capsule | cat_opaque.

Definition category_test (c : category) (x : PyObject) : result bool :=
  match c with
  | cat_none => Ok (py_is_none x)
  | cat_scalar =>
      do scalarType <- r_scalar_type x;
      Ok (negb (SEXPTYPE_eqb scalarType NILSXP))
  | cat_exact_list => Ok (PyList_CheckExact x)
  | cat_exact_tuple =>
      Ok (PyTuple_CheckExact x && negb (PyObject_HasAttrString x "_fields"))
  | cat_exact_dict => Ok (PyDict_CheckExact x)
  | cat_array => Ok (isPyArray x)
  | cat_array_scalar => Ok (isPyArrayScalar x)
  | cat_subclassed_list => Ok (PyList_Check x)
  | cat_mapping => Ok (PyObject_IsInstance_dict x)
  | cat_callable => Ok (py_is_callable x)
  | cat_iterator =>
      Ok (PyObject_HasAttrString x "__iter__"
          && (PyObject_HasAttrString x "next"
              || PyObject_HasAttrString x "__next__"))
  | cat_bytearray => Ok (PyByteArray_Check x)
  | cat_pandas_na => Ok (is_pandas_na x)
  | cat_r_object_capsule => Ok (is_r_object_capsule x)
  | cat_opaque => Ok true
  end.

(** The first category of [order] whose test [x] passes; [cat_opaque] when none
    does. *)
Fixpoint classify (order : list category) (x : PyObject) : result category :=
  match order with
  | [] => Ok cat_opaque
  | c :: rest =>
      do yes <- category_test c x;
      if yes then Ok c else classify rest x
  end.

Definition convert_as (c : category) (x : PyObject) (convert : bool)
    : result SEXP :=
  match c with
  | cat_none => Ok R_NilValue
  | cat_scalar => do scalarType <- r_scalar_type x; py_scalar_to_r scalarType x
  | cat_exact_list => list_to_r x (converted_items x convert)
  | cat_exact_tuple | cat_subclassed_list =>
      sequence_to_r (converted_items x convert)
  | cat_exact_dict | cat_mapping => entries_to_r (converted_entries x convert)
  | cat_array => array_to_r x (converted_objects x convert)
  | cat_array_scalar => py_array_scalar_to_r x
  | cat_callable => callable_to_r x convert
  | cat_iterator => Ok (py_ref x true "python.builtin.iterator")
  | cat_bytearray => bytearray_to_r x
  | cat_pandas_na => Ok (NumericVector [R_NaReal])
  | cat_r_object_capsule => py_capsule_read x
  | cat_opaque => Ok (py_ref x true "")
  end.

(** The order the specification lists. *)
Definition precedence_listed : list category :=
  [cat_none; cat_scalar; cat_exact_list; cat_exact_tuple; cat_exact_dict;
   cat_array; cat_array_scalar; cat_subclassed_list; cat_mapping;
   cat_callable; cat_iterator; cat_bytearray; cat_pandas_na; cat_opaque].

(** The order of the tests in the source. *)
Definition precedence : list category :=
  [cat_none; cat_scalar; cat_exact_list; cat_exact_tuple; cat_exact_dict;
   cat_array; cat_array_scalar; cat_subclassed_list; cat_mapping;
   cat_callable; cat_iterator; cat_bytearray; cat_pandas_na;
   cat_r_object_capsule; cat_opaque].

(** The tests that look at the exact type, and the categories decided by
    the shape an object presents. *)
Definition exact_type_tests (x : PyObject) : list bool :=
  [PyList_CheckExact x;
   PyTuple_CheckExact x && negb (PyObject_HasAttrString x "_fields");
   PyDict_CheckExact x].

Definition structural (c : category) : bool :=
  match c with
  | cat_mapping | cat_callable | cat_iterator => true
  | _ => false
  end.

(** An R value that is nothing but a reference to the Python object. *)
Definition is_opaque_wrapper (r : SEXP) (x : PyObject) : Prop :=
  exists convert, sx_val r = RPyObjectRef x convert.

End Conversion.

(** ** From R to Python *)

Section ToPython.

Context {RT : Runtime}.

(** [Rf_translateCharUTF8] and [Rf_translateChar]: the bytes are handed
    back as they are when already in the target encoding or plain ASCII. *)
Definition Rf_translateCharUTF8 (x : CHARSXP) : string :=
  match x with
  | NA_STRING => "NA"
  | mkCharCE b CE_UTF8 => b
  | mkCharCE b ce => if is_ascii b then b else iconv_utf8 b ce
  end.

Definition Rf_translateChar (x : CHARSXP) : string :=
  match x with
  | NA_STRING => "NA"
  | mkCharCE b CE_NATIVE => b
  | mkCharCE b ce => if is_ascii b then b else iconv_native b ce
  end.

Definition CHARSXP_is_NA (x : CHARSXP) : bool :=
  match x with NA_STRING => true | _ => false end.

(** [PyObject* as_python_str(SEXP strSEXP, bool handle_na = false)] *)
Definition as_python_str (strSEXP : CHARSXP) (handle_na : bool)
    : result PyObject :=
  if handle_na && CHARSXP_is_NA strSEXP then Ok Py_None
  else if s_isPython3 then PyUnicode_FromString (Rf_translateCharUTF8 strSEXP)
  else Ok (PyString_FromString (Rf_translateChar strSEXP)).

(** *** Dictionaries *)

(** The entry whose key matches is overwritten in place; a new key goes to
    the end. *)
Fixpoint dict_store (entries : list (PyObject * PyObject)) (key val : PyObject)
    : list (PyObject * PyObject) :=
  match entries with
  | [] => [(key, val)]
  | (k, v) :: rest =>
      if py_key_eq k key then (k, val) :: rest
      else (k, v) :: dict_store rest key val
  end.

(** [PyDict_SetItem]: the status and the dictionary afterwards.  An
    unhashable key is refused with [-1], and a TypeError is left in the
    error indicator. *)
Definition PyDict_SetItem (dict : list (PyObject * PyObject))
    (key val : PyObject) : Z * list (PyObject * PyObject) :=
  if py_hashable key then (0, dict_store dict key val) else (-1, dict).

(** [PyDict_GetItem] *)
Fixpoint PyDict_GetItem (dict : list (PyObject * PyObject)) (key : PyObject)
    : option PyObject :=
  match dict with
  | [] => None
  | (k, v) :: rest => if py_key_eq k key then Some v else PyDict_GetItem rest key
  end.

(** [PyDict_SetItemString]: the key is made from the C string first. *)
Definition PyDict_SetItemString (dict : list (PyObject * PyObject))
    (name : string) (val : PyObject) : Z * list (PyObject * PyObject) :=
  if s_isPython3 then
    match PyUnicode_FromString name with
    | Ok key => PyDict_SetItem dict key val
    | Err _ => (-1, dict)
    end
  else PyDict_SetItem dict (PyString_FromString name) val.

(** *** Arrays *)

Definition int_values (x : SEXP) : list Z :=
  match sx_val x with RInteger v => v | _ => [] end.

(** [PyObject* r_to_py_numpy(RObject x, bool convert)].  Which side owns
    the buffer is not represented. *)
Definition r_to_py_numpy (x : SEXP) (convert : bool) : result PyObject :=
  let dimensions :=
    if hasAttribute x "dim" then int_values (attr x "dim") else [LENGTH x] in
  match sx_val x with
  | RInteger v =>
      Ok (PyArray_New (if sizeof_long =? 4 then NPY_LONG else NPY_INT)
                      dimensions (map elem_num v))
  | RReal v => Ok (PyArray_New NPY_DOUBLE dimensions (map elem_num v))
  | RLogical v =>
      Ok (PyArray_New NPY_BOOL dimensions
                      (map (fun b => elem_num (if b =? 0 then 0 else 1)) v))
  | RComplex v =>
      Ok (PyArray_New NPY_CDOUBLE dimensions
                      (map (fun c => elem_cplx (cplx_r c) (cplx_i c)) v))
  | RString v =>
      do pData <- mapM (fun e => as_python_str e true) v;
      Ok (PyArray_New NPY_OBJECT dimensions (map elem_obj pData))
  | _ =>
      Err (Rcpp_stop
             ("Matrix type cannot be converted to python (only integer, "
              ++ "numeric, complex, logical, and character matrixes can be "
              ++ "converted")%string)
  end.

(** [requireNumPy()]: the text of the load error is not tracked. *)
Definition requireNumPy : result bool :=
  if negb haveNumPy
  then Err (Rcpp_stop "Required version of NumPy not available: ")
  else Ok true.

(** [as<PyObjectRef>(x).get()] *)
Definition PyObjectRef_get (x : SEXP) : result PyObject :=
  match sx_val x with
  | RPyObjectRef obj _ => Ok obj
  | _ => Err Rcpp_not_compatible
  end.

(** [x.convert()] *)
Definition PyObjectRef_convert (x : SEXP) : result bool :=
  match sx_val x with
  | RPyObjectRef _ convert => Ok convert
  | _ => Err Rcpp_not_compatible
  end.

(** [r_extptr_capsule] *)
Definition r_extptr_capsule (sexp : SEXP) : result PyObject :=
  match sx_val sexp with
  | RExternalPtr ptr =>
      if ptr =? 0 then Err (Rcpp_stop "Invalid pointer")
      else Ok (PyCapsule_New (r_extptr_capsule_ ptr sexp))
  | _ => Err (Rcpp_stop "Invalid pointer")
  end.

(** A length-1 vector is passed as a scalar, a longer one as a list. *)
Definition scalar_or_list {A : Type} (v : list A) (f : A -> PyObject)
    : result PyObject :=
  match v with
  | [value] => Ok (f value)
  | _ => Ok (PyList_New (map f v))
  end.

(** The loop that fills a dict from a named list:
    [PyDict_SetItemString(dict, name, r_to_py(elt))]. *)
Definition fill_dict (r_to_py : SEXP -> result PyObject)
    : list SEXP -> list CHARSXP -> list (PyObject * PyObject)
      -> result (list (PyObject * PyObject)) :=
  fix go (elts : list SEXP) (names : list CHARSXP)
         (dict : list (PyObject * PyObject)) :=
    match elts, names with
    | elt :: elts', name :: names' =>
        do item <- r_to_py elt;
        let '(res, dict') :=
          PyDict_SetItemString dict (Rf_translateChar name) item in
        if negb (res =? 0) then Err PythonException
        else go elts' names' dict'
    | _, _ => Ok dict
    end.

Definition string_values (x : SEXP) : list CHARSXP :=
  match sx_val x with RString v => v | _ => [] end.

(** [PyObject* r_to_py_cpp(RObject x, bool convert)], with
    [r_to_py] (R dispatch when the object bit is set) inlined at its
    recursive uses. *)
Fixpoint r_to_py_cpp (x : SEXP) (convert : bool) {struct x} : result PyObject :=
  let r_to_py :=
    fun y : SEXP =>
      if negb (OBJECT y) then r_to_py_cpp y convert else r_to_py_fn y convert in
  (* r_to_py(x.attr("py_function_name"), convert) *)
  let pyFunctionName : result PyObject :=
    (fix find (l : list (string * SEXP)) : result PyObject :=
       match l with
       | [] => Ok Py_None
       | (k, v) :: l' =>
           if String.eqb k "py_function_name" then r_to_py v else find l'
       end) (sx_attrib x) in
  (* NULL becomes python None *)
  if SEXPTYPE_eqb (TYPEOF x) NILSXP then Ok Py_None
  (* use py_object attribute if we have it *)
  else if hasAttribute x "py_object" then PyObjectRef_get (attr x "py_object")
  (* pass python objects straight through *)
  else if inherits x "python.builtin.object" then PyObjectRef_get x
  else
  (* convert arrays and matrixes to numpy *)
  do numpy <- (if hasAttribute x "dim" then requireNumPy else Ok false);
  if numpy then r_to_py_numpy x convert
  else
  match sx_val x with
  | RInteger v => scalar_or_list v PyInt_FromLong
  | RReal v => scalar_or_list v PyFloat_FromDouble
  | RComplex v =>
      scalar_or_list v (fun c => PyComplex_FromDoubles (cplx_r c) (cplx_i c))
  | RLogical v => scalar_or_list v PyBool_FromLong
  | RString v =>
      match v with
      | [s] => as_python_str s false
      | _ =>
          do items <- mapM (fun s => as_python_str s false) v;
          Ok (PyList_New items)
      end
  | RRaw raw => Ok (PyByteArray_FromStringAndSize raw)
  | RList v =>
      if hasAttribute x "names" then
        do dict <- fill_dict r_to_py v (string_values (attr x "names")) [];
        Ok (PyDict_New dict)
      else
        do items <- mapM r_to_py v;
        Ok (PyList_New items)
  | RClosure _ =>
      let capsule := PyCapsule_New (r_object_capsule x convert) in
      do name <- pyFunctionName;
      match make_python_function capsule name with
      | Ok wrapper => Ok wrapper
      | Err _ => Err PythonException
      end
  | RExternalPtr _ => r_extptr_capsule x
  | _ => Ok (py_capsule_new x)
  end.

(** [PyObject* r_to_py(RObject x, bool convert)] *)
Definition r_to_py (x : SEXP) (convert : bool) : result PyObject :=
  if negb (OBJECT x) then r_to_py_cpp x convert else r_to_py_fn x convert.

(** The error indicator after [PyDict_SetItem]. *)
Definition after_PyDict_SetItem (key : PyObject) (err : PyErr) : PyErr :=
  if py_hashable key then err else TypeError_raised.

(** The loop of [py_dict_impl]: the dictionary, and the error indicator
    with it, since the status of [PyDict_SetItem] is not looked at and
    nothing clears the error of a refused key.  The conversions are taken
    not to look at the indicator. *)
Fixpoint py_dict_fill (keys items : list SEXP) (convert : bool)
    (dict : list (PyObject * PyObject)) (err : PyErr)
    : result (list (PyObject * PyObject) * PyErr) :=
  match keys with
  | [] => Ok (dict, err)
  | k :: keys' =>
      do key <- r_to_py k convert;
      match items with
      | [] => Err Rcpp_index_out_of_bounds
      | i :: items' =>
          do val <- r_to_py i convert;
          py_dict_fill keys' items' convert
            (snd (PyDict_SetItem dict key val)) (after_PyDict_SetItem key err)
      end
  end.

(** [PyObjectRef py_dict_impl(const List& keys, const List& items, bool convert)];
    no error is pending when the function is entered. *)
Definition py_dict_impl (keys items : list SEXP) (convert : bool) : result SEXP :=
  do filled <- py_dict_fill keys items convert [] None;
  py_ref_with (snd filled) (PyDict_New (fst filled)) convert "".

(** [SEXP py_ref_to_r_with_convert(PyObjectRef x, bool convert)] *)
Definition py_ref_to_r_with_convert (x : SEXP) (convert : bool) : result SEXP :=
  do obj <- PyObjectRef_get x;
  py_to_r obj convert.

(** [SEXP py_ref_to_r(PyObjectRef x)] *)
Definition py_ref_to_r (x : SEXP) : result SEXP :=
  do convert <- PyObjectRef_convert x;
  py_ref_to_r_with_convert x convert.

(** *** Iteration

    What [PyIter_Next] hands out, call after call, until it returns NULL
    with or without an error pending. *)
Inductive iteration : Type :=
| iter_done
| iter_error
| iter_next (item : PyObject) (rest : iteration).

(** The [while (true)] loop of [py_iterate]. *)
Fixpoint py_iterate_loop (convert : bool) (it : iteration)
    (f : SEXP -> result SEXP) : result (list SEXP) :=
  match it with
  | iter_done => Ok []
  | iter_error => Err PythonException
  | iter_next item rest =>
      do param <- (if convert then py_to_r item convert
                   else Ok (py_ref item false ""));
      do value <- f param;
      do values <- py_iterate_loop convert rest f;
      Ok (value :: values)
  end.

(** [List py_iterate(PyObjectRef x, Function f)]; [iterator] is what
    [PyObject_GetIter(x)] returns, [None] standing for NULL. *)
Definition py_iterate (x : SEXP) (iterator : option iteration)
    (f : SEXP -> result SEXP) : result SEXP :=
  do convert <- PyObjectRef_convert x;
  match iterator with
  | None => Err PythonException
  | Some it =>
      do list <- py_iterate_loop convert it f;
      Ok (List_ list)
  end.

(** [SEXP py_iter_next(PyObjectRef iterator, RObject completed)] *)
Definition py_iter_next (iterator : SEXP) (next : iteration) (completed : SEXP)
    : result SEXP :=
  do convert <- PyObjectRef_convert iterator;
  match next with
  | iter_done => Ok completed
  | iter_error => Err PythonException
  | iter_next item _ =>
      if convert then py_to_r item true else Ok (py_ref item false "")
  end.

End ToPython.

(** ** [py_fetch_error] *)

Section FetchError.

Context {RT : Runtime}.

(** What [getattr] returns for a name found on the type only. *)
Definition method_wrapper : PyObject :=
  mkPyObject {| tp_exact := true; tp_call := true; tp_isinstance_dict := false;
                tp_attrs := ["__call__"];
                tp_mro := [mkPyClass (Some "builtins") "method-wrapper";
                           mkPyClass (Some "builtins") "object"] |}
             [] (VInstance []).

(** [PyObject_GetAttrString]; [None] is the NULL of a failed lookup. *)
Definition PyObject_GetAttrString (x : PyObject) (name : string)
    : option PyObject :=
  match assoc name (ob_attrs x) with
  | Some v => Some v
  | None =>
      if existsb (String.eqb name) (tp_attrs (ob_type x))
      then Some method_wrapper else None
  end.

Fixpoint assoc_set {A : Type} (name : string) (v : A) (l : list (string * A))
    : list (string * A) :=
  match l with
  | [] => [(name, v)]
  | (k, w) :: l' =>
      if String.eqb k name then (k, v) :: l' else (k, w) :: assoc_set name v l'
  end.

(** [PyObject_SetAttrString] on an object with an instance dictionary. *)
Definition PyObject_SetAttrString (x : PyObject) (name : string) (v : PyObject)
    : PyObject :=
  mkPyObject (ob_type x) (assoc_set name v (ob_attrs x)) (ob_val x).

Definition set_if_found (excValue : PyObject) (name : string)
    (found : option PyObject) : PyObject :=
  match found with
  | Some v => PyObject_SetAttrString excValue name v
  | None => excValue
  end.

Definition is_some {A : Type} (o : option A) : bool :=
  match o with Some _ => true | None => false end.

(** The error indicator after a lookup: [PyObject_GetAttrString] leaves an
    AttributeError in it when it fails and does not touch it when it
    succeeds; [PyObject_HasAttrString] is the same lookup, followed by
    [PyErr_Clear] when it fails. *)
Definition after_GetAttrString (x : PyObject) (name : string) (err : PyErr)
    : PyErr :=
  match PyObject_GetAttrString x name with
  | Some _ => err
  | None => AttributeError_raised
  end.

Definition after_HasAttrString (x : PyObject) (name : string) (err : PyErr)
    : PyErr :=
  if PyObject_HasAttrString x name then err else None.

(** The [while ((context = PyObject_GetAttrString(excValue_tmp,
    "__context__")))] loop: [excValue] and the error indicator when the
    loop is left.  The inner [fix] is the attribute lookup on
    [excValue_tmp]; a [__context__] found on the type only is a method
    object, which carries none of the three attributes and ends the walk
    with [excValue] as it is.  The lookup that ends the walk has failed.
    Nothing in the loop clears the indicator. *)
Fixpoint forward_r_trace (excValue excValue_tmp : PyObject) (err : PyErr)
    {struct excValue_tmp} : PyObject * PyErr :=
  (fix lookup (l : list (string * PyObject)) : PyObject * PyErr :=
     match l with
     | [] => (excValue, AttributeError_raised)
     | (k, context) :: l' =>
         if String.eqb k "__context__" then
           let r_call := PyObject_GetAttrString context "call" in
           let err := after_GetAttrString context "call" err in
           let excValue := set_if_found excValue "call" r_call in
           let r_trace := PyObject_GetAttrString context "trace" in
           let err := after_GetAttrString context "trace" err in
           let excValue := set_if_found excValue "trace" r_trace in
           if is_some r_call || is_some r_trace then (excValue, err)
           else forward_r_trace excValue context err
         else lookup l'
     end) (ob_attrs excValue_tmp).

(** The interpreter and session state the function reads and writes. *)
Record session : Type := mkSession {
  interrupts_pending : bool;
  python_interrupts_pending : bool;
  (* the error indicator as PyErr_Fetch and PyErr_NormalizeException leave
     it: the exception value and its traceback *)
  error_indicator : option (PyObject * option PyObject);
  py_last_exception : option SEXP;
  warnings : list string
}.

(** The R call stack at the point of the call, and the flush of the
    Python output buffers. *)
Record R_frames : Type := mkFrames {
  get_r_trace : bool -> SEXP;
  get_current_call : SEXP;
  flush_std_buffers : Z
}.

Definition flush_warning : string :=
  "Error encountered when flushing python buffers sys.stderr and sys.stdout".

(** [py_fetch_error] from [PyErr_Fetch] to the second
    [PyObject_SetAttrString]: the exception with its [call] and [trace],
    and the error indicator as the lookups leave it. *)
Definition fetched_exception (R : R_frames) (maybe_reuse_cached_r_trace : bool)
    (excValue : PyObject) (excTraceback : option PyObject)
    : PyObject * PyErr :=
  let err : PyErr := None in                    (* PyErr_Fetch *)
  let excValue :=
    match excTraceback with
    | Some tb =>
        if s_isPython3
        then PyObject_SetAttrString excValue "__traceback__" tb
        else excValue
    | None => excValue
    end in
  let has_call := PyObject_HasAttrString excValue "call" in
  let err := after_HasAttrString excValue "call" err in
  let '(excValue, err) :=
    if negb has_call then forward_r_trace excValue excValue err
    else (excValue, err) in
  (* make sure the exception object has some some attrs: call, trace *)
  let has_trace := PyObject_HasAttrString excValue "trace" in
  let err := after_HasAttrString excValue "trace" err in
  let excValue :=
    if negb has_trace then
      PyObject_SetAttrString excValue "trace"
        (py_capsule_new (get_r_trace R maybe_reuse_cached_r_trace))
    else excValue in
  let has_call := PyObject_HasAttrString excValue "call" in
  let err := after_HasAttrString excValue "call" err in
  let excValue :=
    if negb has_call then
      PyObject_SetAttrString excValue "call"
        (py_capsule_new (get_current_call R))
    else excValue in
  (excValue, err).

(** [py_fetch_error] after [py_ref]: the condition is published and the
    output buffers are flushed; the error indicator stays as it is. *)
Definition publish_condition (st : session) (R : R_frames) (cond : SEXP)
    (err : PyErr) : session :=
  mkSession (interrupts_pending st) false err (Some cond)
            (if flush_std_buffers R =? -1
             then warnings st ++ [flush_warning] else warnings st).

(** [SEXP py_fetch_error(bool maybe_reuse_cached_r_trace)].  When
    [py_ref] fails, [py_class_names] throws
    [PythonException(py_fetch_error())]: that inner call fetches the
    SystemError the failed call has left, whose chain carries no [call]
    and no [trace], and returns its condition, which the exception takes
    along. *)
Definition py_fetch_error (st : session) (R : R_frames)
    (maybe_reuse_cached_r_trace : bool) : session * result SEXP :=
  if python_interrupts_pending st then
    (mkSession false false None (py_last_exception st) (warnings st),
     Err InterruptedException)
  else
    match error_indicator st with
    | None =>
        (mkSession (interrupts_pending st) false None (py_last_exception st)
                   (warnings st),
         Err (Rcpp_stop "Unknown Python error."))
    | Some (excValue, excTraceback) =>
        let '(excValue, err) :=
          fetched_exception R maybe_reuse_cached_r_trace excValue
            excTraceback in
        match py_ref_with err excValue true "" with
        | Ok cond => (publish_condition st R cond err, Ok cond)
        | Err e =>
            let '(excValue, err) :=
              fetched_exception R false (SystemError_from err) None in
            (publish_condition st R (py_ref excValue true "") err, Err e)
        end
    end.

End FetchError.

(** ** Entry points on references: capsules, tuples, dictionaries

    The exported functions that take or return a [PyObjectRef].  Calls
    whose result depends on the class of the Python object
    ([PyObject_GetItem], [PyObject_SetItem], [PyObject_Size], the [keys]
    method and the iterator of an object that is not a list) are
    parameters.  A function that mutates a Python object returns the object
    as it is after the call. *)

Section Accessors.

Context {RT : Runtime}.

Variable PyObject_GetItem : PyObject -> PyObject -> option PyObject.
Variable PyObject_SetItem : PyObject -> PyObject -> PyObject -> option PyObject.
Variable PyObject_Size : PyObject -> Z.
Variable PyObject_CallMethod_keys : PyObject -> option PyObject.
Variable tp_iter : PyObject -> option iteration.

Definition PyTuple_Check (x : PyObject) : bool :=
  match ob_val x with VTuple _ => true | _ => false end.

(** The empty environment (an [ENVSXP], type 4, that holds no object). *)
Definition R_EmptyEnv : SEXP := mkSEXP (ROther 4 0) [].

(** [PyObjectRef py_capsule(SEXP x)], in an initialized session. *)
Definition py_capsule (x : SEXP) : SEXP :=
  py_ref (py_capsule_new x) false "".

(** [PyObjectRef r_to_py_impl(RObject object, bool convert)] *)
Definition r_to_py_impl (object : SEXP) (convert : bool) : result SEXP :=
  do p <- r_to_py_cpp object convert;
  Ok (py_ref p convert "").

(** [PyObjectRef py_tuple(const List& items, bool convert)];
    [PyTuple_SetItem] at an index below the size of a new tuple does not
    fail. *)
Definition py_tuple (items : list SEXP) (convert : bool) : result SEXP :=
  do elts <- mapM (fun item => r_to_py item convert) items;
  Ok (py_ref (PyTuple_New elts) convert "").

(** [int py_tuple_length(PyObjectRef tuple)] *)
Definition py_tuple_length (tuple : SEXP) : result Z :=
  do t <- PyObjectRef_get tuple;
  if negb (PyTuple_Check t) then Ok (to_int (PyObject_Size t))
  else Ok (to_int (Z.of_nat (List.length (PyTuple_items t)))).

(** [int py_dict_length(PyObjectRef dict)] *)
Definition py_dict_length (dict : SEXP) : result Z :=
  do d <- PyObjectRef_get dict;
  if negb (PyDict_Check d) then Ok (to_int (PyObject_Size d))
  else Ok (to_int (Z.of_nat (List.length (PyDict_entries d)))).

(** [PyObjectRef py_get_item_impl(PyObjectRef x, RObject key, bool silent)];
    the error indicator that the silent branch saves and restores is not
    represented. *)
Definition py_get_item_impl (x key : SEXP) (silent : bool) : result SEXP :=
  do convert <- PyObjectRef_convert x;
  do py_key <- r_to_py key convert;
  do obj <- PyObjectRef_get x;
  match PyObject_GetItem obj py_key with
  | None => if silent then Ok R_EmptyEnv else Err PythonException
  | Some item => Ok (py_ref item convert "")
  end.

(** [void py_set_item_impl(PyObjectRef x, RObject key, RObject val)] *)
Definition py_set_item_impl (x key val : SEXP) : result PyObject :=
  do convert <- PyObjectRef_convert x;
  do py_key <- r_to_py key convert;
  do py_val <- r_to_py val convert;
  do obj <- PyObjectRef_get x;
  match PyObject_SetItem obj py_key py_val with
  | None => Err PythonException
  | Some obj' => Ok obj'
  end.

(** [SEXP py_dict_get_item(PyObjectRef dict, RObject key)] *)
Definition py_dict_get_item (dict key : SEXP) : result SEXP :=
  do d <- PyObjectRef_get dict;
  if negb (PyDict_Check d) then py_get_item_impl dict key false
  else
    do convert <- PyObjectRef_convert dict;
    do pyKey <- r_to_py key convert;
    match PyDict_GetItem (PyDict_entries d) pyKey with
    | None => Ok (py_ref Py_None false "")
    | Some item => Ok (py_ref item convert "")
    end.

(** [void py_dict_set_item(PyObjectRef dict, RObject key, RObject val)];
    the status of [PyDict_SetItem] is not looked at, and the TypeError of
    a refused key stays in the error indicator. *)
Definition py_dict_set_item (dict key val : SEXP) : result PyObject :=
  do d <- PyObjectRef_get dict;
  if negb (PyDict_Check d) then py_set_item_impl dict key val
  else
    do convert <- PyObjectRef_convert dict;
    do py_key <- r_to_py key convert;
    do py_val <- r_to_py val convert;
    Ok (mkPyObject (ob_type d) (ob_attrs d)
          (VDict (snd (PyDict_SetItem (PyDict_entries d) py_key py_val)))).

(** [PyObject* py_dict_get_keys_impl(PyObject* dict)]: [PyDict_Keys] gives
    the list of the keys of a dict and NULL for anything else. *)
Definition py_dict_get_keys_impl (dict : PyObject) : result PyObject :=
  match ob_val dict with
  | VDict entries => Ok (PyList_New (map fst entries))
  | _ =>
      match PyObject_CallMethod_keys dict with
      | Some keys => Ok keys
      | None => Err PythonException
      end
  end.

(** [PyObject_GetIter]: a list hands out its items in order. *)
Definition PyObject_GetIter (x : PyObject) : option iteration :=
  match ob_val x with
  | VList items => Some (fold_right iter_next iter_done items)
  | _ => tp_iter x
  end.

(** The [for] loop of [py_dict_get_keys_as_str]: the bytes pushed on the
    [std::vector<std::string>]. *)
Fixpoint keys_as_str_loop (it : iteration) : result (list string) :=
  match it with
  | iter_done => Ok []
  | iter_error => Err PythonException
  | iter_next item rest =>
      do s <- is_python_str item;
      do key <- (if s then as_utf8_r_string item
                 else as_utf8_r_string (PyObject_Str item));
      do keys <- keys_as_str_loop rest;
      Ok (String_to_std_string key :: keys)
  end.

(** [CharacterVector py_dict_get_keys_as_str(PyObjectRef dict)] *)
Definition py_dict_get_keys_as_str (dict : SEXP) : result SEXP :=
  do d <- PyObjectRef_get dict;
  do py_keys <- py_dict_get_keys_impl d;
  match PyObject_GetIter py_keys with
  | None => Err PythonException
  | Some it =>
      do keys <- keys_as_str_loop it;
      Ok (wrap_strings keys)
  end.

End Accessors.

(** ** [py_get_formals]

    The signature of a callable as [inspect.signature] reports it, by what
    each C API call of the function returns; [None] stands for NULL. *)

Inductive Parameter_kind : Type :=
| POSITIONAL_ONLY | POSITIONAL_OR_KEYWORD | VAR_POSITIONAL | KEYWORD_ONLY
| VAR_KEYWORD.

Record parameter : Type := mkParameter {
  param_kind : option Parameter_kind;         (* getattr(param, "kind")       *)
  param_default : option (option PyObject);   (* getattr(param, "default");
                                                 [Some None] is
                                                 inspect.Parameter.empty      *)
  param_name : option string                  (* PyUnicode_AsUTF8(name)       *)
}.

Inductive signature_outcome : Type :=
| inspect_NULL          (* a lookup in the inspect module failed              *)
| signature_NULL        (* inspect.signature(callable) raised                 *)
| parameters_NULL       (* sig.parameters, its items method, the call or the
                           iterator is NULL                                   *)
| parameters_items (items : list parameter) (PyErr_Occurred : bool).
                        (* what PyIter_Next hands out, and whether an error
                           is pending when it stops                           *)

(** The symbol [R_MissingArg] (a [SYMSXP], type 1). *)
Definition R_MissingArg : SEXP := mkSEXP (ROther 1 0) [].

Definition is_VAR (kind : Parameter_kind) : bool :=
  match kind with VAR_KEYWORD | VAR_POSITIONAL => true | _ => false end.

Definition is_KEYWORD_ONLY (kind : Parameter_kind) : bool :=
  match kind with KEYWORD_ONLY => true | _ => false end.

Section Formals.

Context {RT : Runtime}.

(** The [while ((item = PyIter_Next(parameters_iterator)))] loop;
    [GrowList] appends a tagged cell to [r_args]. *)
Fixpoint formals_loop (items : list parameter) (has_dots : bool)
    (r_args : list (string * SEXP)) : result (list (string * SEXP)) :=
  match items with
  | [] => Ok r_args
  | item :: rest =>
      match param_kind item with
      | None => Err PythonException
      | Some kind =>
          if is_VAR kind then
            if negb has_dots
            then formals_loop rest true (r_args ++ [("...", R_MissingArg)])
            else formals_loop rest has_dots r_args
          else
            let grow := negb has_dots && is_KEYWORD_ONLY kind in
            let r_args :=
              if grow then r_args ++ [("...", R_MissingArg)] else r_args in
            let has_dots := if grow then true else has_dots in
            match param_default item with
            | None => Err PythonException
            | Some param_default =>
                do arg_default <-
                  match param_default with
                  | None => Ok R_MissingArg
                  | Some v => py_to_r v true
                  end;
                match param_name item with
                | None => Err PythonException
                | Some name_char =>
                    formals_loop rest has_dots
                      (r_args ++ [(name_char, arg_default)])
                end
            end
      end
  end.

(** [SEXP py_get_formals(PyObjectRef callable)]: the pairlist of formals,
    as the list of its tagged cells. *)
Definition py_get_formals (sig : signature_outcome)
    : result (list (string * SEXP)) :=
  match sig with
  | inspect_NULL => Err PythonException
  | signature_NULL => Ok [("...", R_MissingArg)]
  | parameters_NULL => Err PythonException
  | parameters_items items PyErr_Occurred =>
      do r_args <- formals_loop items false [];
      if PyErr_Occurred then Err PythonException else Ok r_args
  end.

End Formals.

(** ** [py_list_submodules] *)

(** Offset of the first occurrence of [pat] in [s]. *)
Fixpoint index_of_str (pat s : string) : option nat :=
  if starts_with pat s then Some O
  else match s with
       | EmptyString => None
       | String _ s' =>
           match index_of_str pat s' with
           | Some i => Some (S i)
           | None => None
           end
       end.

(** [s.find(pat)] *)
Definition std_find_str (s pat : string) : Z :=
  match index_of_str pat s with
  | Some i => Z.of_nat i
  | None => npos
  end.

Section Submodules.

Context {RT : Runtime}.

(** The [while (PyDict_Next(modulesDict, &pos, &key, &value))] loop. *)
Fixpoint submodules_loop (modulesDict : list (PyObject * PyObject))
    (prefix : string) : result (list string) :=
  match modulesDict with
  | [] => Ok []
  | (key, value) :: rest =>
      if PyString_Check key && negb (py_is_none value) then
        do name <- as_std_string key;
        if std_find_str name prefix =? 0 then
          do submodule <- std_substr name (size prefix) npos;
          do modules <- submodules_loop rest prefix;
          if std_find submodule "."%char 0 =? npos
          then Ok (submodule :: modules) else Ok modules
        else submodules_loop rest prefix
      else submodules_loop rest prefix
  end.

(** [CharacterVector py_list_submodules(const std::string& module)];
    [modulesDict] is [sys.modules]. *)
Definition py_list_submodules (modulesDict : list (PyObject * PyObject))
    (module : string) : result SEXP :=
  do modules <- submodules_loop modulesDict (module ++ ".");
  Ok (wrap_strings modules).

End Submodules.

(** ** A concrete session

    CPython 3 on an LP64 platform with NumPy loaded, with the simplest
    behaviour for what the runtimes provide; used to run the model on
    concrete values. *)

Definition example_str_text (x : PyObject) : string :=
  match ob_val x with
  | VNone => "None"
  | VBool true => "True"
  | VBool false => "False"
  | VLong n => fmt_d n
  | VUnicode s => s
  | _ => "<object>"
  end.

Definition example_hashable (x : PyObject) : bool :=
  match ob_val x with
  | VList _ | VDict _ | VByteArray _ | VArray _ _ _ => false
  | _ => true
  end.

Definition example_key_eq (a b : PyObject) : bool :=
  match ob_val a, ob_val b with
  | VNone, VNone => true
  | VBool x, VBool y => Bool.eqb x y
  | VLong x, VLong y => x =? y
  | VBool x, VLong y | VLong y, VBool x => (if x then 1 else 0) =? y
  | VUnicode x, VUnicode y => String.eqb x y
  | VBytes x, VBytes y => String.eqb x y
  | _, _ => false
  end.

Definition example_runtime : Runtime := {|
  npy_types := numpy_abi;
  s_isPython3 := true;
  s_numpy_loaded := true;
  sizeof_long := 8;
  utf8_decodes := fun _ => true;
  py_str_text := example_str_text;
  py_hashable := example_hashable;
  py_key_eq := example_key_eq;
  is_numpy_nan := fun _ => false;
  call_results_checked := true;
  PyArray_CastToType := fun _ _ data _ => Some data;
  PyArray_CastScalarToCtype := fun _ item _ => item;
  iconv_utf8 := fun b _ => b;
  iconv_native := fun b _ => b;
  is_ascii := fun _ => true;
  py_filter_classes := fun l => l;
  py_callable_as_function := fun pyFunc _ => mkSEXP (RClosure 0) [];
  r_to_py_fn := fun x _ => PyObjectRef_get x;
  make_python_function := fun capsule _ => Ok capsule
|}.

(** ** Vocabulary of the statements *)

(** How often an event occurs in a run. *)
Definition event_eqb (a b : dispatch_event) : bool :=
  match a, b with
  | sleep_for m, sleep_for n => m =? n
  | PySys_WriteStderr s, PySys_WriteStderr t => String.eqb s t
  | _, _ => false
  end.

Definition occurrences (e : dispatch_event) (ev : list dispatch_event) : Z :=
  Z.of_nat (List.length (filter (event_eqb e) ev)).

(** Every attempt to enqueue failed. *)
Definition all_failed (answers : list Z) : Prop :=
  Forall (fun a => a <> 0) answers.

(** [n] copies of a byte. *)
Fixpoint string_rep (n : nat) (c : ascii) : string :=
  match n with
  | O => EmptyString
  | S n' => String c (string_rep n' c)
  end.

Definition nl : string := String newline EmptyString.

(** The hint the package appends to every message. *)
Definition example_hint : string :=
  "Run `reticulate::py_last_error()` for details.".

(** [raise ValueError("x" * 70 + "\n" + "y" * 70)], as
    [traceback.format_exception_only] renders it. *)
Definition two_long_lines : list string :=
  [("ValueError: " ++ string_rep 70 "x" ++ nl ++ string_rep 70 "y" ++ nl)%string].

(** A one-line header of 1000 bytes followed by a detail line. *)
Definition long_header : string :=
  ("RuntimeError: " ++ string_rep 986 "x" ++ nl ++ "detail" ++ nl
   ++ example_hint)%string.

(** A dispatch path has a hard ceiling when some number of consecutive
    failed attempts always makes it give up. *)
Definition gives_up_after_ceiling
    (path : list Z -> dispatch_status * list dispatch_event) : Prop :=
  exists ceiling : nat,
    forall answers, all_failed answers ->
      (ceiling < List.length answers)%nat ->
      fst (path answers) = Abandoned.

(** The first two newline-terminated lines of a message, when it has
    them. *)
Definition first_two_lines (s : string) : option string :=
  match index_of newline s with
  | None => None
  | Some i =>
      match index_of newline (drop (S i) s) with
      | None => None
      | Some j => Some (take (S i + S j) s)
      end
  end.

(** The items an iteration hands out, and whether it ends on an error. *)
Fixpoint iteration_items (it : iteration) : list PyObject :=
  match it with
  | iter_done | iter_error => []
  | iter_next item rest => item :: iteration_items rest
  end.

Fixpoint iteration_failed (it : iteration) : bool :=
  match it with
  | iter_done => false
  | iter_error => true
  | iter_next _ rest => iteration_failed rest
  end.

(** The categories whose conversion builds a native R value. *)
Definition materialized (c : category) : bool :=
  match c with
  | cat_none | cat_scalar | cat_exact_list | cat_exact_tuple | cat_exact_dict
  | cat_array | cat_array_scalar | cat_subclassed_list | cat_mapping
  | cat_bytearray | cat_pandas_na => true
  | _ => false
  end.

(** A value of R's own vector and list types. *)
Definition native_R_value (r : SEXP) : bool :=
  match TYPEOF r with
  | NILSXP | LGLSXP | INTSXP | REALSXP | CPLXSXP | STRSXP | VECSXP | RAWSXP =>
      true
  | _ => false
  end.


(** The dict [{1: 10, "1": 20}]. *)
Definition example_dict {RT : Runtime} : PyObject :=
  PyDict_New [(PyInt_FromLong 1, PyInt_FromLong 10);
              (mkPyObject (builtin_type "str" ["__iter__"]) [] (VUnicode "1"),
               PyInt_FromLong 20)].

(** A vector that [r_to_py_cpp] treats by its type alone: its attributes
    neither carry a Python object nor make it a Python reference or an
    array. *)
Definition plain_vector (x : SEXP) : bool :=
  negb (hasAttribute x "py_object")
  && negb (inherits x "python.builtin.object")
  && negb (hasAttribute x "dim").

(** The bytes of a string reach Python as they are: it is in the encoding
    the running Python takes (UTF-8 for Python 3, native for Python 2) or
    plain ASCII, Python 3 can decode it, and it has no NUL. *)
Definition passes_unchanged {RT : Runtime} (c : CHARSXP) (b : string) : Prop :=
  c <> NA_STRING
  /\ char_bytes c = b
  /\ (if s_isPython3 then Rf_translateCharUTF8 c else Rf_translateChar c) = b
  /\ utf8_decodes b = true
  /\ index_of "000"%char b = None.

(** The integer kinds at least as wide as the native long, and the
    unsigned kinds from native int up. *)
Definition wide_integer_kinds {K : NPY_TYPES} : list Z :=
  [NPY_LONG; NPY_LONGLONG; NPY_UINT; NPY_ULONG; NPY_ULONGLONG].

(** [inner] is the nearest exception on the [__context__] chain of [exc]
    that carries a [call] or a [trace] attribute: every exception between
    the two carries neither. *)
Inductive nearest_annotated_context : PyObject -> PyObject -> Prop :=
| nearest_here (exc context : PyObject) :
    assoc "__context__" (ob_attrs exc) = Some context ->
    is_some (PyObject_GetAttrString context "call")
    || is_some (PyObject_GetAttrString context "trace") = true ->
    nearest_annotated_context exc context
| nearest_further (exc context inner : PyObject) :
    assoc "__context__" (ob_attrs exc) = Some context ->
    PyObject_GetAttrString context "call" = None ->
    PyObject_GetAttrString context "trace" = None ->
    nearest_annotated_context context inner ->
    nearest_annotated_context exc inner.

(** [A]: a [ValueError] that went through [py_fetch_error] before, so it
    carries the R call and trace of that time. *)
Definition example_inner_exception : PyObject :=
  mkPyObject (exception_type "ValueError")
    [("__context__", mkPyObject (builtin_type "NoneType" []) [] VNone);
     ("trace", PyCapsule_New (r_object_capsule (mkSEXP (RList []) []) false));
     ("call", PyCapsule_New (r_object_capsule (mkSEXP (ROther 6 1) []) false))]
    (VInstance []).

(** [B]: a [RuntimeError] raised while handling [A]. *)
Definition example_outer_exception : PyObject :=
  mkPyObject (exception_type "RuntimeError")
    [("__context__", example_inner_exception)]
    (VInstance []).

(** [M]: a [KeyError] with a [call] attribute of its own (a text), raised
    while handling [A]; and a [RuntimeError] raised while handling [M]. *)
Definition example_call_only_exception : PyObject :=
  mkPyObject (exception_type "KeyError")
    [("__context__", example_inner_exception);
     ("call", mkPyObject (builtin_type "str" ["__iter__"]) []
                (VUnicode "f(x)"))]
    (VInstance []).

Definition example_masked_exception : PyObject :=
  mkPyObject (exception_type "RuntimeError")
    [("__context__", example_call_only_exception)]
    (VInstance []).

(** A [KeyError] raised while handling [A] that has not been seen by
    [py_fetch_error], and a [RuntimeError] raised while handling it. *)
Definition example_unannotated_exception : PyObject :=
  mkPyObject (exception_type "KeyError")
    [("__context__", example_inner_exception)] (VInstance []).

Definition example_nested_exception : PyObject :=
  mkPyObject (exception_type "RuntimeError")
    [("__context__", example_unannotated_exception)] (VInstance []).

Definition example_frames : R_frames :=
  {| get_r_trace := fun _ => mkSEXP (RList []) [("fresh", R_NilValue)];
     get_current_call := mkSEXP (ROther 6 2) [];
     flush_std_buffers := 0 |}.

Definition example_session : session :=
  {| interrupts_pending := false;
     python_interrupts_pending := false;
     error_indicator := Some (example_outer_exception, None);
     py_last_exception := None;
     warnings := [] |}.

(** An R-object capsule, as [py_capsule_new] makes it. *)
Definition example_capsule : PyObject :=
  py_capsule_new (IntegerVector [1]).

(** A callable object that also answers [__iter__]. *)
Definition example_callable : PyObject :=
  mkPyObject {| tp_exact := false; tp_call := true; tp_isinstance_dict := false;
                tp_attrs := ["__call__"; "__iter__"];
                tp_mro := [mkPyClass (Some "builtins") "function";
                           mkPyClass (Some "builtins") "object"] |}
             [] (VInstance []).

(** ** Further vocabulary *)

(** A three-line message: a header, a detail line and a long last line. *)
Definition three_lines : list string :=
  [("ValueError: bad" ++ nl)%string; ("line two" ++ nl)%string;
   string_rep 100 "z"].

(** A message without any newline. *)
Definition one_long_line : list string := [string_rep 150 "z"].

(** No exception on the [__context__] chain of [exc] carries a [call] or a
    [trace]. *)
Inductive chain_unannotated {RT : Runtime} : PyObject -> Prop :=
| chain_ends (exc : PyObject) :
    assoc "__context__" (ob_attrs exc) = None ->
    chain_unannotated exc
| chain_goes_on (exc context : PyObject) :
    assoc "__context__" (ob_attrs exc) = Some context ->
    PyObject_GetAttrString context "call" = None ->
    PyObject_GetAttrString context "trace" = None ->
    chain_unannotated context ->
    chain_unannotated exc.

(** A [KeyError] raised while handling another, neither of which has been
    seen by [py_fetch_error]. *)
Definition example_plain_exception : PyObject :=
  mkPyObject (exception_type "KeyError")
    [("__context__",
      mkPyObject (exception_type "IndexError")
        [("__context__", mkPyObject (builtin_type "NoneType" []) [] VNone)]
        (VInstance []))]
    (VInstance []).

(** An exception whose context carries a trace but no call. *)
Definition example_trace_only_exception : PyObject :=
  mkPyObject (exception_type "RuntimeError")
    [("__context__",
      mkPyObject (exception_type "ValueError")
        [("trace",
          PyCapsule_New (r_object_capsule (mkSEXP (RList []) []) false))]
        (VInstance []))]
    (VInstance []).

Definition session_raising (exc : PyObject) : session :=
  {| interrupts_pending := false;
     python_interrupts_pending := false;
     error_indicator := Some (exc, None);
     py_last_exception := None;
     warnings := [] |}.

(** The exception with the traceback attached, as the first step of
    [py_fetch_error] leaves it. *)
Definition with_traceback {RT : Runtime} (excValue : PyObject)
    (excTraceback : option PyObject) : PyObject :=
  match excTraceback with
  | Some tb =>
      if s_isPython3 then PyObject_SetAttrString excValue "__traceback__" tb
      else excValue
  | None => excValue
  end.

(** The exception as the last two steps of [py_fetch_error] leave it. *)
Definition with_trace_and_call (R : R_frames) (reuse : bool) (exc : PyObject)
    : PyObject :=
  let exc :=
    if negb (PyObject_HasAttrString exc "trace") then
      PyObject_SetAttrString exc "trace" (py_capsule_new (get_r_trace R reuse))
    else exc in
  if negb (PyObject_HasAttrString exc "call") then
    PyObject_SetAttrString exc "call" (py_capsule_new (get_current_call R))
  else exc.

(** An atomic vector of length zero. *)
Definition empty_atomic_vector (v : RValue) : bool :=
  match v with
  | RLogical [] | RInteger [] | RReal [] | RComplex [] | RString [] => true
  | _ => false
  end.

(** A class filter that never removes the base class of Python
    references. *)
Definition filter_keeps_base_class {RT : Runtime} : Prop :=
  forall l, In "python.builtin.object" l ->
            In "python.builtin.object" (py_filter_classes l).

(** A generator object: it answers [__iter__] and [__next__]. *)
Definition example_generator : PyObject :=
  mkPyObject {| tp_exact := true; tp_call := false; tp_isinstance_dict := false;
                tp_attrs := ["__iter__"; "__next__"];
                tp_mro := [mkPyClass (Some "builtins") "generator";
                           mkPyClass (Some "builtins") "object"] |}
             [] (VInstance []).

(** An R array: a vector [v] whose [dim] attribute is the integer vector
    [dims], with as many elements as the dimensions say, and attributes
    that neither carry a Python object nor make it a Python reference. *)
Definition R_array (x : SEXP) (dims : list Z) : Prop :=
  hasAttribute x "py_object" = false
  /\ inherits x "python.builtin.object" = false
  /\ assoc "dim" (sx_attrib x) = Some (IntegerVector dims)
  /\ dims <> []
  /\ Forall (fun d => 0 <= d < 2 ^ 31) dims
  /\ fold_right Z.mul 1 dims = LENGTH x.

(** The 2 x 2 matrices [matrix(c(1.5, 2.5, 3.5, 4.5), 2)] (as bit patterns)
    and [matrix(1:4, 2)]. *)
Definition example_double_matrix : SEXP :=
  mkSEXP (RReal [4609434218613702656; 4612811918334230528;
                 4615063718147915776; 4616752568008179712])
         [("dim", IntegerVector [2; 2])].

Definition example_integer_matrix : SEXP :=
  mkSEXP (RInteger [1; 2; 3; 4]) [("dim", IntegerVector [2; 2])].

(** The same session on a platform whose [long] has four bytes; NumPy's
    cast from NPY_LONG to NPY_DOUBLE keeps the numbers. *)
Definition example_runtime_long4 : Runtime := {|
  npy_types := numpy_abi;
  s_isPython3 := true;
  s_numpy_loaded := true;
  sizeof_long := 4;
  utf8_decodes := fun _ => true;
  py_str_text := example_str_text;
  py_hashable := example_hashable;
  py_key_eq := example_key_eq;
  is_numpy_nan := fun _ => false;
  call_results_checked := true;
  PyArray_CastToType := fun _ _ data _ => Some data;
  PyArray_CastScalarToCtype := fun _ item _ => item;
  iconv_utf8 := fun b _ => b;
  iconv_native := fun b _ => b;
  is_ascii := fun _ => true;
  py_filter_classes := fun l => l;
  py_callable_as_function := fun pyFunc _ => mkSEXP (RClosure 0) [];
  r_to_py_fn := fun x _ => PyObjectRef_get x;
  make_python_function := fun capsule _ => Ok capsule
|}.

(** The reference [ref] as R sees it once the object it points to has
    become [obj]. *)
Definition same_reference (ref : SEXP) (obj : PyObject) : SEXP :=
  match sx_val ref with
  | RPyObjectRef _ convert => mkSEXP (RPyObjectRef obj convert) (sx_attrib ref)
  | _ => ref
  end.

(** Every element of the list converts to Python. *)
Definition all_convert {RT : Runtime} (l : list SEXP) (convert : bool) : Prop :=
  Forall (fun x => exists p, r_to_py x convert = Ok p) l.

(** CPython calls the examples do not reach. *)
Definition no_GetItem (x key : PyObject) : option PyObject := None.
Definition no_SetItem (x key val : PyObject) : option PyObject := None.
Definition no_keys_method (x : PyObject) : option PyObject := None.
Definition no_tp_iter (x : PyObject) : option iteration := None.
Definition no_Size (x : PyObject) : Z := -1.

(** A parameter before which [...] has to stand: [*args], [**kwargs] or a
    keyword-only parameter; and a parameter that [...] stands for. *)
Definition needs_dots (p : parameter) : bool :=
  match param_kind p with
  | Some kind => is_VAR kind || is_KEYWORD_ONLY kind
  | None => false
  end.

Definition variadic (p : parameter) : bool :=
  match param_kind p with
  | Some kind => is_VAR kind
  | None => false
  end.

Definition name_of (p : parameter) : string :=
  match param_name p with Some name => name | None => "" end.

(** The parameters up to the first one that needs [...], and the rest. *)
Fixpoint before_dots (items : list parameter) : list parameter :=
  match items with
  | [] => []
  | p :: rest => if needs_dots p then [] else p :: before_dots rest
  end.

Fixpoint from_dots (items : list parameter) : list parameter :=
  match items with
  | [] => []
  | p :: rest => if needs_dots p then items else from_dots rest
  end.

(** [def f(a, *args, key=1, **kwargs)] *)
Definition example_signature {RT : Runtime} : list parameter :=
  [mkParameter (Some POSITIONAL_OR_KEYWORD) (Some None) (Some "a");
   mkParameter (Some VAR_POSITIONAL) (Some None) (Some "args");
   mkParameter (Some KEYWORD_ONLY) (Some (Some (PyInt_FromLong 1)))
     (Some "key");
   mkParameter (Some VAR_KEYWORD) (Some None) (Some "kwargs")].

(** No key of the dictionary is a string of 2^63 bytes or more. *)
Definition keys_fit_size_t {RT : Runtime}
    (modulesDict : list (PyObject * PyObject)) : Prop :=
  Forall (fun kv => forall name, as_std_string (fst kv) = Ok name ->
                                 size name < 2 ^ 63) modulesDict.

(** A [sys.modules] with byte-string keys: [os], [os.path], [xml],
    [xml.etree], [xml.etree.ElementTree] and an [xml.missing] set to
    None. *)
Definition example_modules {RT : Runtime} : list (PyObject * PyObject) :=
  [(PyString_FromString "os", PyInt_FromLong 1);
   (PyString_FromString "os.path", PyInt_FromLong 2);
   (PyString_FromString "xml", PyInt_FromLong 3);
   (PyString_FromString "xml.etree", PyInt_FromLong 4);
   (PyString_FromString "xml.etree.ElementTree", PyInt_FromLong 5);
   (PyString_FromString "xml.missing", Py_None)].

(** What [py_iterate] hands to the R function for an item. *)
Definition iterate_param {RT : Runtime} (convert : bool) (item : PyObject)
    : result SEXP :=
  if convert then py_to_r item convert else Ok (py_ref item false "").

(** An iteration over [1] and ["a"], and one that fails after [1]. *)
Definition example_iteration {RT : Runtime} : iteration :=
  iter_next (PyInt_FromLong 1)
    (iter_next (mkPyObject (builtin_type "str" ["__iter__"]) [] (VUnicode "a"))
       iter_done).

Definition example_failing_iteration {RT : Runtime} : iteration :=
  iter_next (PyInt_FromLong 1) iter_error.

(** The text object Python 3 makes from a C string. *)
Definition text {RT : Runtime} (s : string) : PyObject :=
  mkPyObject (builtin_type "str" ["__iter__"]) [] (VUnicode s).

(** An element of a character vector that is NA or reaches Python 3
    unchanged. *)
Definition NA_or_unchanged {RT : Runtime} (c : CHARSXP) : Prop :=
  c = NA_STRING
  \/ (Rf_translateCharUTF8 c = char_bytes c
      /\ utf8_decodes (char_bytes c) = true).

(** What Python 3 keeps of an element: its bytes, marked UTF-8. *)
Definition as_text (c : CHARSXP) : CHARSXP := mkCharCE (char_bytes c) CE_UTF8.

(** The same, with NA kept. *)
Definition as_text_or_NA (c : CHARSXP) : CHARSXP :=
  match c with
  | NA_STRING => NA_STRING
  | _ => mkCharCE (char_bytes c) CE_UTF8
  end.

(** The character matrix [matrix(c("a", NA), 1)]. *)
Definition example_character_matrix : SEXP :=
  mkSEXP (RString [mkCharCE "a" CE_UTF8; NA_STRING])
         [("dim", IntegerVector [1; 2])].

(** Dictionary keys are text objects here, hashable and compared by their
    bytes. *)
Definition text_keys_by_bytes {RT : Runtime} : Prop :=
  (forall s, py_hashable (text s) = true)
  /\ (forall s t, py_key_eq (text s) (text t) = String.eqb s t).

(** A dictionary with text keys, from the list of its (bytes, value)
    pairs. *)
Definition text_keyed {RT : Runtime} (entries : list (string * PyObject))
    : list (PyObject * PyObject) :=
  map (fun e => (text (fst e), snd e)) entries.

(** [list(a = 1L, b = 2L, a = 3L)] *)
Definition example_named_list : SEXP :=
  mkSEXP (RList [IntegerVector [1]; IntegerVector [2]; IntegerVector [3]])
         [("names", CharacterVector [mkCharCE "a" CE_NATIVE;
                                     mkCharCE "b" CE_NATIVE;
                                     mkCharCE "a" CE_NATIVE])].

(** * Properties *)

(** ** Generic lemmas *)

Lemma bind_Ok {A B : Type} (r : result A) (k : A -> result B) (b : B) :
  bind r k = Ok b -> exists a, r = Ok a /\ k a = Ok b.
Proof.
  destruct r as [a | e]; simpl; intros H; [eauto | discriminate].
Qed.

Lemma mapM_Ok_length {A B : Type} (f : A -> result B) (l : list A) (bs : list B) :
  mapM f l = Ok bs -> List.length bs = List.length l.
Proof.
  revert bs; induction l as [| a l IH]; simpl; intros bs H.
  - injection H as <-; reflexivity.
  - apply bind_Ok in H as (b & _ & H).
    apply bind_Ok in H as (bs' & Hbs & H).
    injection H as <-; simpl; f_equal; auto.
Qed.

Lemma mapM_all_Ok {A B : Type} (f : A -> result B) (g : A -> B) (l : list A) :
  (forall a, In a l -> f a = Ok (g a)) -> mapM f l = Ok (map g l).
Proof.
  induction l as [| a l IH]; simpl; intros H; [reflexivity |].
  rewrite (H a) by auto; simpl.
  rewrite IH by auto; reflexivity.
Qed.

(** ** The narrowing table *)

Section NarrowingFacts.

Context {K : NPY_TYPES}.

Lemma case_of_In (labels : list Z) (typenum : Z) :
  case_of labels typenum = true <-> In typenum labels.
Proof.
  unfold case_of; rewrite existsb_exists; split.
  - intros (x & Hx & E); apply Z.eqb_eq in E; subst; exact Hx.
  - intros H; exists typenum; split; [exact H | apply Z.eqb_refl].
Qed.

Lemma case_of_not_In (labels : list Z) (typenum : Z) :
  case_of labels typenum = false <-> ~ In typenum labels.
Proof.
  rewrite <- case_of_In; destruct (case_of labels typenum); split; intros H;
    try reflexivity; try discriminate; try (intros E; discriminate).
  exfalso; apply H; reflexivity.
Qed.

(** Two labels at different places of the [switch] are different numbers. *)
Lemma labels_neq (i j : nat) (a b : Z) :
  NoDup case_labels ->
  nth_error case_labels i = Some a ->
  nth_error case_labels j = Some b ->
  i <> j -> a <> b.
Proof.
  intros ND Hi Hj Hij E; subst b.
  apply Hij.
  apply (proj1 (NoDup_nth_error case_labels) ND).
  - apply nth_error_Some; rewrite Hi; discriminate.
  - rewrite Hi, Hj; reflexivity.
Qed.

Lemma case_of_label_false (labels : list Z) (j : nat) (b : Z) :
  NoDup case_labels ->
  nth_error case_labels j = Some b ->
  (forall a, In a labels -> exists i, nth_error case_labels i = Some a /\ i <> j) ->
  case_of labels b = false.
Proof.
  intros ND Hj Hl; apply case_of_not_In; intros Hin.
  destruct (Hl b Hin) as (i & Hi & Hij).
  exact (labels_neq i j b b ND Hi Hj Hij eq_refl).
Qed.

End NarrowingFacts.

(** Finds the place of every label of a group in [case_labels]. *)
Ltac place_labels :=
  let a := fresh "a" in
  let H := fresh "H" in
  intros a H; simpl in H;
  repeat (destruct H as [H | H];
          [ subst a;
            first [ exists 0%nat; split; [reflexivity | discriminate]
                  | exists 1%nat; split; [reflexivity | discriminate]
                  | exists 2%nat; split; [reflexivity | discriminate]
                  | exists 3%nat; split; [reflexivity | discriminate]
                  | exists 4%nat; split; [reflexivity | discriminate]
                  | exists 5%nat; split; [reflexivity | discriminate]
                  | exists 6%nat; split; [reflexivity | discriminate]
                  | exists 7%nat; split; [reflexivity | discriminate]
                  | exists 8%nat; split; [reflexivity | discriminate]
                  | exists 9%nat; split; [reflexivity | discriminate]
                  | exists 10%nat; split; [reflexivity | discriminate]
                  | exists 11%nat; split; [reflexivity | discriminate]
                  | exists 12%nat; split; [reflexivity | discriminate]
                  | exists 13%nat; split; [reflexivity | discriminate]
                  | exists 14%nat; split; [reflexivity | discriminate]
                  | exists 15%nat; split; [reflexivity | discriminate]
                  | exists 16%nat; split; [reflexivity | discriminate]
                  | exists 17%nat; split; [reflexivity | discriminate]
                  | exists 18%nat; split; [reflexivity | discriminate] ]
          | ]);
  contradiction.

(** [case_of group label = false] for a label outside the group, its place
    given. *)
Ltac other_group ND j :=
  apply (case_of_label_false _ j); [exact ND | reflexivity | place_labels].

Section NarrowingTable.

Context {K : NPY_TYPES}.
Hypothesis labels_distinct : NoDup case_labels.

Lemma narrow_double_kinds (typenum : Z) :
  In typenum double_kinds -> narrow_array_typenum typenum = Ok NPY_DOUBLE.
Proof.
  intros H; unfold narrow_array_typenum.
  assert (L : case_of logical_kinds typenum = false).
  { simpl in H; decompose [or] H; try contradiction; subst typenum;
      [ other_group labels_distinct 6%nat | other_group labels_distinct 7%nat
      | other_group labels_distinct 8%nat | other_group labels_distinct 9%nat
      | other_group labels_distinct 10%nat | other_group labels_distinct 11%nat
      | other_group labels_distinct 12%nat | other_group labels_distinct 13%nat ]. }
  assert (I : case_of integer_kinds typenum = false).
  { simpl in H; decompose [or] H; try contradiction; subst typenum;
      [ other_group labels_distinct 6%nat | other_group labels_distinct 7%nat
      | other_group labels_distinct 8%nat | other_group labels_distinct 9%nat
      | other_group labels_distinct 10%nat | other_group labels_distinct 11%nat
      | other_group labels_distinct 12%nat | other_group labels_distinct 13%nat ]. }
  rewrite L, I, (proj2 (case_of_In double_kinds typenum) H); reflexivity.
Qed.

Lemma narrow_integer_kinds (typenum : Z) :
  In typenum integer_kinds -> narrow_array_typenum typenum = Ok NPY_LONG.
Proof.
  intros H; unfold narrow_array_typenum.
  assert (L : case_of logical_kinds typenum = false).
  { simpl in H; decompose [or] H; try contradiction; subst typenum;
      [ other_group labels_distinct 1%nat | other_group labels_distinct 2%nat
      | other_group labels_distinct 3%nat | other_group labels_distinct 4%nat
      | other_group labels_distinct 5%nat ]. }
  rewrite L, (proj2 (case_of_In integer_kinds typenum) H); reflexivity.
Qed.

Lemma narrow_structural_kinds (typenum : Z) :
  In typenum structural_kinds -> narrow_array_typenum typenum = Ok typenum.
Proof.
  intros H; unfold narrow_array_typenum.
  assert (N : forall g, incl g numeric_kinds -> case_of g typenum = false).
  { intros g Hg; apply case_of_not_In; intros Hin.
    apply Hg in Hin.
    unfold case_labels in labels_distinct.
    revert Hin H; generalize numeric_kinds structural_kinds labels_distinct.
    clear; intros l1 l2 ND H1 H2.
    induction l1 as [| x l1 IH]; [contradiction |].
    simpl in ND; inversion ND as [| ? ? Hx ND']; subst.
    destruct H1 as [-> | H1]; [| auto].
    apply Hx, in_or_app; right; exact H2. }
  rewrite (N logical_kinds), (N integer_kinds), (N double_kinds),
          (N complex_kinds), (proj2 (case_of_In structural_kinds typenum) H);
    [reflexivity | | | |]; unfold numeric_kinds.
  - do 3 apply incl_appr; apply incl_refl.
  - do 2 apply incl_appr; apply incl_appl, incl_refl.
  - apply incl_appr, incl_appl, incl_refl.
  - apply incl_appl, incl_refl.
Qed.

Lemma narrow_logical_kinds (typenum : Z) :
  In typenum logical_kinds -> narrow_array_typenum typenum = Ok NPY_BOOL.
Proof.
  intros H; unfold narrow_array_typenum.
  rewrite (proj2 (case_of_In logical_kinds typenum) H); reflexivity.
Qed.

Lemma narrow_complex_kinds (typenum : Z) :
  In typenum complex_kinds -> narrow_array_typenum typenum = Ok NPY_CDOUBLE.
Proof.
  intros H; unfold narrow_array_typenum.
  assert (L : case_of logical_kinds typenum = false).
  { simpl in H; decompose [or] H; try contradiction; subst typenum;
      [ other_group labels_distinct 14%nat | other_group labels_distinct 15%nat ]. }
  assert (I : case_of integer_kinds typenum = false).
  { simpl in H; decompose [or] H; try contradiction; subst typenum;
      [ other_group labels_distinct 14%nat | other_group labels_distinct 15%nat ]. }
  assert (D : case_of double_kinds typenum = false).
  { simpl in H; decompose [or] H; try contradiction; subst typenum;
      [ other_group labels_distinct 14%nat | other_group labels_distinct 15%nat ]. }
  rewrite L, I, D, (proj2 (case_of_In complex_kinds typenum) H); reflexivity.
Qed.

Lemma narrow_unsupported (typenum : Z) :
  ~ In typenum case_labels ->
  narrow_array_typenum typenum =
  Err (Rcpp_stop ("Conversion from numpy array type " ++ fmt_d typenum
                  ++ " is not supported")%string).
Proof.
  intros H; unfold narrow_array_typenum.
  assert (N : forall g, incl g case_labels -> case_of g typenum = false).
  { intros g Hg; apply case_of_not_In; intros Hin; apply H, Hg, Hin. }
  rewrite (N logical_kinds), (N integer_kinds), (N double_kinds),
          (N complex_kinds), (N structural_kinds);
    [reflexivity | | | | |]; unfold case_labels, numeric_kinds.
  - apply incl_appr, incl_refl.
  - apply incl_appl; do 3 apply incl_appr; apply incl_refl.
  - apply incl_appl; do 2 apply incl_appr; apply incl_appl, incl_refl.
  - apply incl_appl, incl_appr, incl_appl, incl_refl.
  - do 2 apply incl_appl; apply incl_refl.
Qed.

End NarrowingTable.

(** The numbering of NumPy's own header satisfies the hypothesis. *)
Lemma numpy_abi_distinct : NoDup (@case_labels numpy_abi).
Proof.
  unfold case_labels, numeric_kinds, logical_kinds, integer_kinds, double_kinds,
    complex_kinds, structural_kinds; simpl.
  repeat (constructor;
          [ simpl; intros H; repeat (destruct H as [H | H]; [discriminate H |]);
            exact H | ]).
  constructor.
Qed.

(** C1 -- Type narrowing coverage.  Every storage kind listed among the
    numeric cases of the table narrows to one of the four canonical kinds
    NPY_BOOL, NPY_LONG, NPY_DOUBLE, NPY_CDOUBLE; the three structural kinds
    NPY_STRING, NPY_UNICODE, NPY_OBJECT come back unchanged; any other
    number is refused with an error whose message carries that number. *)
Theorem narrow_array_typenum_coverage {K : NPY_TYPES} (typenum : Z) :
  NoDup case_labels ->
  (In typenum numeric_kinds ->
   exists kind, narrow_array_typenum typenum = Ok kind
                /\ In kind canonical_kinds)
  /\ (In typenum structural_kinds ->
      narrow_array_typenum typenum = Ok typenum)
  /\ (~ In typenum case_labels ->
      narrow_array_typenum typenum =
      Err (Rcpp_stop ("Conversion from numpy array type " ++ fmt_d typenum
                      ++ " is not supported")%string)).
Proof.
  intros ND; repeat split.
  - unfold numeric_kinds; intros H.
    apply in_app_or in H as [H | H];
      [| apply in_app_or in H as [H | H];
         [| apply in_app_or in H as [H | H]]].
    + exists NPY_BOOL; split; [apply narrow_logical_kinds, H | simpl; auto].
    + exists NPY_LONG; split; [apply (narrow_integer_kinds ND), H | simpl; auto].
    + exists NPY_DOUBLE; split; [apply (narrow_double_kinds ND), H | simpl; auto].
    + exists NPY_CDOUBLE; split;
        [apply (narrow_complex_kinds ND), H | simpl; auto].
  - apply (narrow_structural_kinds ND).
  - apply narrow_unsupported.
Qed.

Lemma narrow_array_typenum_coverage_witness :
  NoDup (@case_labels numpy_abi)
  /\ (exists kind, @narrow_array_typenum numpy_abi 9 = Ok kind
                   /\ In kind (@canonical_kinds numpy_abi))
  /\ @narrow_array_typenum numpy_abi 19 = Ok 19
  /\ @narrow_array_typenum numpy_abi 13 =
     Err (Rcpp_stop "Conversion from numpy array type 13 is not supported").
Proof.
  split; [exact numpy_abi_distinct |].
  destruct (@narrow_array_typenum_coverage numpy_abi 9 numpy_abi_distinct)
    as (N & _ & _).
  destruct (@narrow_array_typenum_coverage numpy_abi 19 numpy_abi_distinct)
    as (_ & S & _).
  destruct (@narrow_array_typenum_coverage numpy_abi 13 numpy_abi_distinct)
    as (_ & _ & U).
  split; [apply N; vm_compute; tauto |].
  split; [apply S; vm_compute; tauto |].
  apply U; vm_compute; intuition discriminate.
Defined.

(** ** The retry loops *)

Lemma occurrences_cons (e a : dispatch_event) (ev : list dispatch_event) :
  occurrences e (a :: ev) =
  (if event_eqb e a then 1 else 0) + occurrences e ev.
Proof.
  unfold occurrences; cbn [filter]; destruct (event_eqb e a);
    cbn [List.length]; rewrite ?Nat2Z.inj_succ; lia.
Qed.

(** Counts the events at the head of a run. *)
Ltac count_events :=
  cbn [fst snd]; rewrite ?occurrences_cons;
  repeat match goal with
         | |- context [event_eqb ?a ?b] =>
             let v := eval vm_compute in (event_eqb a b) in
             change (event_eqb a b) with v
         end;
  cbv iota.

Lemma occurrences_nil (e : dispatch_event) : occurrences e [] = 0.
Proof. reflexivity. Qed.

Lemma to_size_t_small (z : Z) : 0 <= z < 2 ^ 64 -> to_size_t z = z.
Proof. intros H; unfold to_size_t; apply Z.mod_small, H. Qed.

Lemma precious_remove_loop_failure (a : Z) (rest : list Z) (waited_ms : Z) :
  a <> 0 ->
  precious_remove_loop (a :: rest) waited_ms =
  if to_size_t (waited_ms + 100) mod 60000 =? 0 then
    let '(st, ev) := precious_remove_loop rest (to_size_t (waited_ms + 100)) in
    (st, sleep_for 100 :: PySys_WriteStderr finalizer_waiting_msg :: ev)
  else if 120000 <? to_size_t (waited_ms + 100) then
    (Abandoned, [sleep_for 100; PySys_WriteStderr finalizer_error_msg])
  else
    let '(st, ev) := precious_remove_loop rest (to_size_t (waited_ms + 100)) in
    (st, sleep_for 100 :: ev).
Proof.
  intros Ha; cbn [precious_remove_loop].
  rewrite (proj2 (Z.eqb_neq a 0) Ha); reflexivity.
Qed.

Lemma call_on_main_thread_loop_failure (a : Z) (rest : list Z) (waited_ms : Z) :
  a <> 0 ->
  call_on_main_thread_loop (a :: rest) waited_ms =
  let '(st, ev) :=
    call_on_main_thread_loop rest (to_size_t (waited_ms + 100)) in
  if to_size_t (waited_ms + 100) mod 60000 =? 0 then
    (st, sleep_for 100 :: PySys_WriteStderr call_waiting_msg :: ev)
  else
    (st, sleep_for 100 :: ev).
Proof.
  intros Ha; cbn [call_on_main_thread_loop].
  rewrite (proj2 (Z.eqb_neq a 0) Ha); reflexivity.
Qed.

(** While the wait stays within two minutes the finalizer loop keeps
    retrying: one sleep per failure, one warning per full minute. *)
Lemma precious_remove_loop_retrying (answers : list Z) :
  all_failed answers ->
  forall k, 0 <= k -> k + Z.of_nat (List.length answers) <= 1200 ->
  let run := precious_remove_loop answers (100 * k) in
  fst run = Retrying
  /\ occurrences (sleep_for 100) (snd run) = Z.of_nat (List.length answers)
  /\ occurrences (PySys_WriteStderr finalizer_waiting_msg) (snd run)
     = (k + Z.of_nat (List.length answers)) / 600 - k / 600
  /\ occurrences (PySys_WriteStderr finalizer_error_msg) (snd run) = 0.
Proof.
  induction 1 as [| a answers Ha Hall IH]; intros k Hk Hn; cbn zeta.
  - simpl; repeat split; try reflexivity.
    rewrite Z.add_0_r, Z.sub_diag; reflexivity.
  - simpl List.length in *; rewrite Nat2Z.inj_succ in *.
    rewrite (precious_remove_loop_failure a answers _ Ha).
    replace (100 * k + 100) with (100 * (k + 1)) by lia.
    rewrite to_size_t_small by lia.
    specialize (IH (k + 1) ltac:(lia) ltac:(lia)); cbn zeta in IH.
    destruct (precious_remove_loop answers (100 * (k + 1))) as [st ev].
    cbn [fst snd] in IH; destruct IH as (-> & Hs & Hw & He).
    destruct (Z.eqb_spec ((100 * (k + 1)) mod 60000) 0) as [E | E].
    + count_events; rewrite ?occurrences_nil.
      repeat split; try lia.
      rewrite Hw; Z.div_mod_to_equations; lia.
    + destruct (Z.ltb_spec 120000 (100 * (k + 1))) as [L | L]; [lia |].
      count_events; rewrite ?occurrences_nil.
      repeat split; try lia.
      rewrite Hw; Z.div_mod_to_equations; lia.
Qed.

(** The failure that takes the wait past two minutes ends the loop. *)
Lemma precious_remove_loop_abandons (answers : list Z) :
  all_failed answers ->
  forall k, 0 <= k <= 1200 -> 1200 < k + Z.of_nat (List.length answers) ->
  let run := precious_remove_loop answers (100 * k) in
  fst run = Abandoned
  /\ occurrences (sleep_for 100) (snd run) = 1201 - k
  /\ occurrences (PySys_WriteStderr finalizer_waiting_msg) (snd run)
     = 2 - k / 600
  /\ occurrences (PySys_WriteStderr finalizer_error_msg) (snd run) = 1.
Proof.
  induction 1 as [| a answers Ha Hall IH]; intros k Hk Hn; cbn zeta.
  - simpl in Hn; lia.
  - simpl List.length in *; rewrite Nat2Z.inj_succ in *.
    rewrite (precious_remove_loop_failure a answers _ Ha).
    replace (100 * k + 100) with (100 * (k + 1)) by lia.
    rewrite to_size_t_small by lia.
    destruct (Z.eqb_spec ((100 * (k + 1)) mod 60000) 0) as [E | E].
    + assert (k + 1 <= 1200) by (Z.div_mod_to_equations; lia).
      specialize (IH (k + 1) ltac:(lia) ltac:(lia)); cbn zeta in IH.
      destruct (precious_remove_loop answers (100 * (k + 1))) as [st ev].
      cbn [fst snd] in IH; destruct IH as (-> & Hs & Hw & He).
      count_events; rewrite ?occurrences_nil.
      repeat split; try lia.
      rewrite Hw; Z.div_mod_to_equations; lia.
    + destruct (Z.ltb_spec 120000 (100 * (k + 1))) as [L | L].
      * assert (k = 1200) by lia; subst k.
        count_events; rewrite ?occurrences_nil.
        repeat split; try lia.
      * specialize (IH (k + 1) ltac:(lia) ltac:(lia)); cbn zeta in IH.
        destruct (precious_remove_loop answers (100 * (k + 1))) as [st ev].
        cbn [fst snd] in IH; destruct IH as (-> & Hs & Hw & He).
        count_events; rewrite ?occurrences_nil.
        repeat split; try lia.
        rewrite Hw; Z.div_mod_to_equations; lia.
Qed.

(** A success within the two minutes schedules the finalizer. *)
Lemma precious_remove_loop_schedules (answers rest : list Z) :
  all_failed answers ->
  forall k, 0 <= k -> k + Z.of_nat (List.length answers) <= 1200 ->
  fst (precious_remove_loop (answers ++ 0 :: rest) (100 * k)) = Scheduled.
Proof.
  induction 1 as [| a answers Ha Hall IH]; intros k Hk Hn.
  - reflexivity.
  - simpl List.length in *; rewrite Nat2Z.inj_succ in *.
    rewrite <- app_comm_cons, (precious_remove_loop_failure a _ _ Ha).
    replace (100 * k + 100) with (100 * (k + 1)) by lia.
    rewrite to_size_t_small by lia.
    specialize (IH (k + 1) ltac:(lia) ltac:(lia)).
    destruct (precious_remove_loop (answers ++ 0 :: rest) (100 * (k + 1)))
      as [st ev].
    cbn [fst snd] in IH; subst st.
    destruct (Z.eqb_spec ((100 * (k + 1)) mod 60000) 0) as [E | E];
      [reflexivity |].
    destruct (Z.ltb_spec 120000 (100 * (k + 1))) as [L | L];
      [lia | reflexivity].
Qed.

(** The entry point never leaves its loop on a failure, whatever the time
    waited, and writes nothing but the waiting message. *)
Lemma call_on_main_thread_loop_retrying (answers : list Z) :
  all_failed answers ->
  forall waited_ms,
  let run := call_on_main_thread_loop answers waited_ms in
  fst run = Retrying
  /\ occurrences (sleep_for 100) (snd run) = Z.of_nat (List.length answers)
  /\ forall msg, msg <> call_waiting_msg ->
       occurrences (PySys_WriteStderr msg) (snd run) = 0.
Proof.
  induction 1 as [| a answers Ha Hall IH]; intros waited; cbn zeta.
  - simpl; repeat split; reflexivity.
  - simpl List.length; rewrite Nat2Z.inj_succ.
    rewrite (call_on_main_thread_loop_failure a answers _ Ha).
    specialize (IH (to_size_t (waited + 100))); cbn zeta in IH.
    destruct (call_on_main_thread_loop answers (to_size_t (waited + 100)))
      as [st ev].
    cbn [fst snd] in IH; destruct IH as (-> & Hs & Hm).
    destruct (to_size_t (waited + 100) mod 60000 =? 0);
      cbn [fst snd]; repeat split; try reflexivity;
      try (count_events; lia).
    + intros msg Hmsg; rewrite !occurrences_cons; cbn [event_eqb].
      rewrite (proj2 (String.eqb_neq msg call_waiting_msg) Hmsg).
      rewrite (Hm msg Hmsg); reflexivity.
    + intros msg Hmsg; rewrite !occurrences_cons; cbn [event_eqb].
      rewrite (Hm msg Hmsg); reflexivity.
Qed.

Lemma call_on_main_thread_loop_warnings (answers : list Z) :
  all_failed answers ->
  forall k, 0 <= k ->
  100 * (k + Z.of_nat (List.length answers)) < 2 ^ 64 ->
  occurrences (PySys_WriteStderr call_waiting_msg)
              (snd (call_on_main_thread_loop answers (100 * k)))
  = (k + Z.of_nat (List.length answers)) / 600 - k / 600.
Proof.
  induction 1 as [| a answers Ha Hall IH]; intros k Hk Hn.
  - simpl; rewrite Z.add_0_r, Z.sub_diag; reflexivity.
  - simpl List.length in *; rewrite Nat2Z.inj_succ in *.
    rewrite (call_on_main_thread_loop_failure a answers _ Ha).
    replace (100 * k + 100) with (100 * (k + 1)) by lia.
    rewrite to_size_t_small by lia.
    specialize (IH (k + 1) ltac:(lia) ltac:(lia)).
    destruct (call_on_main_thread_loop answers (100 * (k + 1))) as [st ev].
    cbn [fst snd] in IH.
    destruct (Z.eqb_spec ((100 * (k + 1)) mod 60000) 0) as [E | E];
      count_events; rewrite IH; Z.div_mod_to_equations; lia.
Qed.

Lemma call_on_main_thread_loop_schedules (answers rest : list Z) :
  all_failed answers ->
  forall waited_ms,
  fst (call_on_main_thread_loop (answers ++ 0 :: rest) waited_ms) = Scheduled.
Proof.
  induction 1 as [| a answers Ha Hall IH]; intros waited.
  - reflexivity.
  - rewrite <- app_comm_cons, (call_on_main_thread_loop_failure a _ _ Ha).
    specialize (IH (to_size_t (waited + 100))).
    destruct (call_on_main_thread_loop (answers ++ 0 :: rest)
                (to_size_t (waited + 100))) as [st ev].
    cbn [fst snd] in IH; subst st.
    destruct (to_size_t (waited + 100) mod 60000 =? 0); reflexivity.
Qed.

Lemma all_failed_repeat (n : nat) : all_failed (repeat (-1) n).
Proof.
  induction n as [| n IH]; simpl; constructor; [discriminate | exact IH].
Qed.

(** C8, as the claim states it, fails on the entry point: no number of
    failed attempts makes [call_python_function_on_main_thread] give up. *)
Lemma entry_point_has_no_ceiling :
  ~ gives_up_after_ceiling call_python_function_on_main_thread.
Proof.
  intros (ceiling & H).
  specialize (H (repeat (-1) (S ceiling)) (all_failed_repeat (S ceiling))).
  rewrite repeat_length in H; specialize (H (Nat.lt_succ_diag_r ceiling)).
  unfold call_python_function_on_main_thread in H.
  destruct (call_on_main_thread_loop_retrying (repeat (-1) (S ceiling))
              (all_failed_repeat (S ceiling)) 0) as (R & _).
  cbn zeta in R; rewrite R in H; discriminate.
Qed.

(** C8, amended.  On a failed enqueue both paths sleep 100 ms and retry,
    and write a waiting message once per minute waited.  The finalizer
    path ([Rcpp_precious_remove_main_thread] off the main thread) goes on
    for 1200 failures, schedules the call if an attempt within them
    succeeds, and on the 1201st failure (120100 ms waited) writes an error
    and returns: it has a hard ceiling.  The entry point
    ([call_python_function_on_main_thread]) never gives up: it retries
    after every failure, writes nothing but the waiting message, and
    schedules the call at the first success however late. *)
Theorem dispatcher_retry_policy (answers rest : list Z) :
  all_failed answers ->
  let n := Z.of_nat (List.length answers) in
  let finalizer := Rcpp_precious_remove_main_thread false answers in
  let entry := call_python_function_on_main_thread answers in
  (n <= 1200 ->
     fst finalizer = Retrying
     /\ occurrences (sleep_for 100) (snd finalizer) = n
     /\ occurrences (PySys_WriteStderr finalizer_waiting_msg) (snd finalizer)
        = n / 600
     /\ occurrences (PySys_WriteStderr finalizer_error_msg) (snd finalizer) = 0
     /\ fst (Rcpp_precious_remove_main_thread false (answers ++ 0 :: rest))
        = Scheduled)
  /\ (1200 < n ->
     fst finalizer = Abandoned
     /\ occurrences (sleep_for 100) (snd finalizer) = 1201
     /\ occurrences (PySys_WriteStderr finalizer_waiting_msg) (snd finalizer)
        = 2
     /\ occurrences (PySys_WriteStderr finalizer_error_msg) (snd finalizer) = 1)
  /\ gives_up_after_ceiling (Rcpp_precious_remove_main_thread false)
  /\ fst entry = Retrying
  /\ occurrences (sleep_for 100) (snd entry) = n
  /\ (forall msg, msg <> call_waiting_msg ->
        occurrences (PySys_WriteStderr msg) (snd entry) = 0)
  /\ (100 * n < 2 ^ 64 ->
        occurrences (PySys_WriteStderr call_waiting_msg) (snd entry) = n / 600)
  /\ fst (call_python_function_on_main_thread (answers ++ 0 :: rest))
     = Scheduled.
Proof.
  intros F n finalizer entry; subst n finalizer entry.
  unfold Rcpp_precious_remove_main_thread, call_python_function_on_main_thread.
  cbv iota.
  split; [| split; [| split]].
  - intros Hn.
    pose proof (precious_remove_loop_retrying answers F 0 ltac:(lia) ltac:(lia))
      as H.
    pose proof (precious_remove_loop_schedules answers rest F 0
                  ltac:(lia) ltac:(lia)) as S.
    cbn zeta in H; change (100 * 0) with 0 in H, S.
    rewrite Z.add_0_l in H; change (0 / 600) with 0 in H.
    rewrite Z.sub_0_r in H.
    destruct H as (H1 & H2 & H3 & H4); auto.
  - intros Hn.
    pose proof (precious_remove_loop_abandons answers F 0 ltac:(lia) ltac:(lia))
      as H.
    cbn zeta in H; change (100 * 0) with 0 in H.
    exact H.
  - exists 1200%nat; intros l Fl Hl.
    pose proof (precious_remove_loop_abandons l Fl 0 ltac:(lia) ltac:(lia))
      as H.
    cbn zeta in H; change (100 * 0) with 0 in H.
    apply H.
  - pose proof (call_on_main_thread_loop_retrying answers F 0) as H.
    cbn zeta in H; destruct H as (H1 & H2 & H3).
    repeat split; auto.
    + intros Hn.
      pose proof (call_on_main_thread_loop_warnings answers F 0
                    ltac:(lia) ltac:(lia)) as W.
      change (100 * 0) with 0 in W.
      rewrite Z.add_0_l in W; change (0 / 600) with 0 in W.
      rewrite Z.sub_0_r in W; exact W.
    + apply call_on_main_thread_loop_schedules, F.
Qed.

Lemma dispatcher_retry_policy_witness :
  all_failed [-1; -1]
  /\ fst (Rcpp_precious_remove_main_thread false [-1; -1]) = Retrying
  /\ fst (call_python_function_on_main_thread [-1; -1]) = Retrying
  /\ fst (call_python_function_on_main_thread ([-1; -1] ++ [0])) = Scheduled.
Proof.
  assert (F : all_failed [-1; -1]) by (repeat constructor; discriminate).
  split; [exact F |].
  destruct (dispatcher_retry_policy [-1; -1] [] F)
    as (A & _ & _ & B & _ & _ & _ & C).
  split; [apply A; simpl; lia |].
  split; [exact B | exact C].
Defined.

(** ** Message truncation *)

Lemma size_nonneg (s : string) : 0 <= size s.
Proof. unfold size; lia. Qed.

Lemma size_append (a b : string) : size (a ++ b) = size a + size b.
Proof.
  unfold size; induction a as [| c a IH]; simpl String.length.
  - reflexivity.
  - rewrite !Nat2Z.inj_succ; simpl in IH; lia.
Qed.

Lemma take_drop (n : nat) (s : string) : (take n s ++ drop n s)%string = s.
Proof.
  revert s; induction n as [| n IH]; intros [| c s]; simpl; try reflexivity.
  f_equal; apply IH.
Qed.

Lemma length_take (n : nat) (s : string) :
  (n <= String.length s)%nat -> String.length (take n s) = n.
Proof.
  revert s; induction n as [| n IH]; intros [| c s]; simpl; intros H;
    try reflexivity; try lia.
  f_equal; apply IH; lia.
Qed.

Lemma length_drop (n : nat) (s : string) :
  String.length (drop n s) = (String.length s - n)%nat.
Proof.
  revert s; induction n as [| n IH]; intros [| c s]; simpl; try reflexivity.
  apply IH.
Qed.

Lemma take_all (n : nat) (s : string) :
  (String.length s <= n)%nat -> take n s = s.
Proof.
  revert s; induction n as [| n IH]; intros [| c s]; simpl; intros H;
    try reflexivity; try lia.
  f_equal; apply IH; lia.
Qed.

Lemma drop_append (n : nat) (a b : string) :
  (n <= String.length a)%nat -> drop n (a ++ b) = (drop n a ++ b)%string.
Proof.
  revert a; induction n as [| n IH]; intros [| c a]; simpl; intros H;
    try reflexivity; try lia.
  apply IH; lia.
Qed.

Lemma drop_take (m n : nat) (s : string) :
  drop m (take (m + n) s) = take n (drop m s).
Proof.
  revert s; induction m as [| m IH]; intros s; simpl.
  - reflexivity.
  - destruct s as [| c s]; simpl; [destruct n; reflexivity | apply IH].
Qed.

Lemma index_of_bound (c : ascii) (s : string) (i : nat) :
  index_of c s = Some i -> (i < String.length s)%nat.
Proof.
  revert i; induction s as [| c' s IH]; simpl; intros i H; [discriminate |].
  destruct (Ascii.eqb c' c).
  - injection H as <-; lia.
  - destruct (index_of c s) as [k |]; [| discriminate].
    injection H as <-; specialize (IH k eq_refl); lia.
Qed.

Lemma index_of_append (c : ascii) (a b : string) (i : nat) :
  index_of c a = Some i -> index_of c (a ++ b) = Some i.
Proof.
  revert i; induction a as [| c' a IH]; simpl; intros i H; [discriminate |].
  destruct (Ascii.eqb c' c); [exact H |].
  destruct (index_of c a) as [k |]; [| discriminate].
  rewrite (IH k eq_refl); exact H.
Qed.

Lemma index_of_take (c : ascii) (s : string) (i n : nat) :
  index_of c s = Some i -> (i < n)%nat -> index_of c (take n s) = Some i.
Proof.
  revert i n; induction s as [| c' s IH]; simpl; intros i n H Hn;
    [discriminate |].
  destruct n as [| n]; [lia |]; simpl.
  destruct (Ascii.eqb c' c); [exact H |].
  destruct (index_of c s) as [k |]; [| discriminate].
  injection H as <-.
  rewrite (IH k n eq_refl) by lia; reflexivity.
Qed.

Lemma to_int_small (z : Z) : - 2 ^ 31 <= z < 2 ^ 31 -> to_int z = z.
Proof.
  intros H; unfold to_int.
  rewrite Z.mod_small by lia; lia.
Qed.

Lemma to_int_npos : to_int npos = -1.
Proof. reflexivity. Qed.

Lemma std_find_found (s : string) (c : ascii) (pos i : nat) :
  (pos <= String.length s)%nat ->
  index_of c (drop pos s) = Some i ->
  std_find s c (Z.of_nat pos) = Z.of_nat pos + Z.of_nat i.
Proof.
  intros Hp Hi; unfold std_find, size.
  destruct (Z.ltb_spec (Z.of_nat (String.length s)) (Z.of_nat pos)); [lia |].
  rewrite Nat2Z.id, Hi; reflexivity.
Qed.

Lemma std_find_missing (s : string) (c : ascii) (pos : nat) :
  index_of c (drop pos s) = None -> std_find s c (Z.of_nat pos) = npos.
Proof.
  intros Hi; unfold std_find.
  destruct (size s <? Z.of_nat pos); [reflexivity |].
  rewrite Nat2Z.id, Hi; reflexivity.
Qed.

Lemma std_find_first (s : string) (c : ascii) (i : nat) :
  index_of c s = Some i -> std_find s c 0 = Z.of_nat i.
Proof.
  intros Hi.
  apply (std_find_found s c 0 i); [lia | exact Hi].
Qed.

Lemma std_find_none (s : string) (c : ascii) :
  index_of c s = None -> std_find s c 0 = npos.
Proof.
  intros Hi; apply (std_find_missing s c 0); exact Hi.
Qed.

Lemma std_substr_prefix (s : string) (n : nat) :
  (n <= String.length s)%nat -> std_substr s 0 (Z.of_nat n) = Ok (take n s).
Proof.
  intros H; unfold std_substr, size.
  destruct (Z.ltb_spec (Z.of_nat (String.length s)) 0); [lia |].
  rewrite Z.sub_0_r, Z.min_l by lia.
  rewrite Nat2Z.id; reflexivity.
Qed.

Lemma std_substr_suffix (s : string) (pos : nat) :
  (pos <= String.length s)%nat ->
  Z.of_nat (String.length s) < 2 ^ 63 ->
  std_substr s (Z.of_nat pos) npos = Ok (drop pos s).
Proof.
  intros H Hs; unfold std_substr, size.
  destruct (Z.ltb_spec (Z.of_nat (String.length s)) (Z.of_nat pos)); [lia |].
  rewrite Z.min_r by (unfold npos; lia).
  rewrite Nat2Z.id, take_all; [reflexivity |].
  rewrite length_drop, <- Nat2Z.inj_sub, Nat2Z.id by lia; lia.
Qed.

Lemma std_substr_beyond (s : string) (pos count : Z) :
  size s < pos -> std_substr s pos count = Err std_out_of_range.
Proof.
  intros H; unfold std_substr.
  destruct (Z.ltb_spec (size s) pos); [reflexivity | lia].
Qed.

(** The head the source cuts is the first two lines, when the message has
    them, and empty otherwise. *)
Lemma head_is_first_two_lines (error head : string) :
  size error < 2 ^ 31 ->
  first_two_lines error = Some head ->
  let first_line_end_pos := to_int (std_find error newline 0) in
  let second_line_start_pos :=
    to_int (std_find error newline (to_size_t (first_line_end_pos + 1))) in
  std_substr error 0 (to_size_t (second_line_start_pos + 1)) = Ok head
  /\ (String.length head <= String.length error)%nat.
Proof.
  intros Hs H; unfold first_two_lines in H.
  destruct (index_of newline error) as [i |] eqn:Hi; [| discriminate].
  destruct (index_of newline (drop (S i) error)) as [j |] eqn:Hj;
    [| discriminate].
  assert (E : head = take (S i + S j) error) by congruence.
  subst head; clear H.
  pose proof (index_of_bound _ _ _ Hi) as Bi.
  pose proof (index_of_bound _ _ _ Hj) as Bj.
  rewrite length_drop in Bj.
  unfold size in Hs; cbv zeta.
  rewrite (std_find_first error newline i) by exact Hi.
  rewrite (to_int_small (Z.of_nat i)) by lia.
  rewrite (to_size_t_small (Z.of_nat i + 1)) by lia.
  replace (Z.of_nat i + 1) with (Z.of_nat (S i)) by lia.
  rewrite (std_find_found error newline (S i) j) by (auto; lia).
  rewrite to_int_small by lia.
  rewrite to_size_t_small by lia.
  replace (Z.of_nat (S i) + Z.of_nat j + 1) with (Z.of_nat (S i + S j)) by lia.
  rewrite std_substr_prefix by lia.
  rewrite length_take by lia.
  split; [reflexivity | lia].
Qed.

Lemma head_is_empty (error : string) :
  size error < 2 ^ 31 ->
  first_two_lines error = None ->
  let first_line_end_pos := to_int (std_find error newline 0) in
  let second_line_start_pos :=
    to_int (std_find error newline (to_size_t (first_line_end_pos + 1))) in
  std_substr error 0 (to_size_t (second_line_start_pos + 1)) = Ok "".
Proof.
  intros Hs H; unfold first_two_lines in H; cbv zeta.
  assert (E : forall pos, std_substr error 0 (to_size_t (to_int npos + 1)) = Ok ""
              -> std_find error newline pos = npos
              -> std_substr error 0
                   (to_size_t (to_int (std_find error newline pos) + 1)) = Ok "").
  { intros pos E ->; exact E. }
  assert (Z0 : std_substr error 0 (to_size_t (to_int npos + 1)) = Ok "").
  { rewrite to_int_npos; change (to_size_t (-1 + 1)) with (Z.of_nat 0).
    rewrite std_substr_prefix by lia; reflexivity. }
  unfold size in Hs.
  destruct (index_of newline error) as [i |] eqn:Hi.
  - destruct (index_of newline (drop (S i) error)) as [j |] eqn:Hj;
      [discriminate |].
    pose proof (index_of_bound _ _ _ Hi) as Bi.
    rewrite (std_find_first error newline i) by exact Hi.
    rewrite (to_int_small (Z.of_nat i)) by lia.
    rewrite (to_size_t_small (Z.of_nat i + 1)) by lia.
    replace (Z.of_nat i + 1) with (Z.of_nat (S i)) by lia.
    apply E; [exact Z0 | apply std_find_missing, Hj].
  - rewrite (std_find_none error newline) by exact Hi.
    rewrite to_int_npos; change (to_size_t (-1 + 1)) with 0.
    apply E; [exact Z0 | apply std_find_none, Hi].
Qed.

(** Where the tail starts, in plain arithmetic. *)
Lemma tail_start_value (error head : string) (max_msg_len : Z) :
  0 <= max_msg_len < size error -> size error < 2 ^ 31 ->
  size head <= size error ->
  tail_start (to_int (to_size_t (size error - max_msg_len))) head
  = size error - max_msg_len + size head + 37.
Proof.
  intros Hc Hs Hh; unfold tail_start.
  rewrite (to_size_t_small (size error - max_msg_len)) by lia.
  rewrite to_int_small by lia.
  rewrite (to_size_t_small (size error - max_msg_len)) by lia.
  change (size trunc) with 17.
  pose proof (size_nonneg head).
  rewrite to_size_t_small by lia; lia.
Qed.

Lemma take_append_exact (a b : string) :
  take (String.length a) (a ++ b) = a.
Proof.
  induction a as [| c a IH]; simpl; [destruct b; reflexivity |].
  f_equal; exact IH.
Qed.

Lemma first_two_lines_prefix (error head rest : string) :
  first_two_lines error = Some head ->
  first_two_lines (head ++ rest) = Some head.
Proof.
  unfold first_two_lines; intros H.
  destruct (index_of newline error) as [i |] eqn:Hi; [| discriminate].
  destruct (index_of newline (drop (S i) error)) as [j |] eqn:Hj;
    [| discriminate].
  assert (E : head = take (S i + S j) error) by congruence; clear H.
  pose proof (index_of_bound _ _ _ Hi) as Bi.
  pose proof (index_of_bound _ _ _ Hj) as Bj.
  rewrite length_drop in Bj.
  assert (L : String.length head = (S i + S j)%nat).
  { subst head; apply length_take; lia. }
  assert (Hi' : index_of newline head = Some i).
  { subst head; apply index_of_take; [exact Hi | lia]. }
  rewrite (index_of_append _ _ rest _ Hi').
  rewrite drop_append by lia.
  assert (Hj' : index_of newline (drop (S i) head) = Some j).
  { subst head; rewrite drop_take; apply index_of_take; [exact Hj | lia]. }
  rewrite (index_of_append _ _ rest _ Hj').
  rewrite <- L, take_append_exact; reflexivity.
Qed.

(** When the first two lines and the 37 bytes kept for the marker and for
    R's own prefix fit under the cap, the message is cut in the middle:
    the two lines, the marker, and a suffix of the message, [C - 20] bytes
    in all. *)
Lemma truncate_middle_fits (error head : string) (max_msg_len : Z) :
  0 <= max_msg_len < size error -> size error < 2 ^ 31 ->
  first_two_lines error = Some head ->
  size head + 37 <= max_msg_len ->
  exists tail,
    truncate_middle error max_msg_len = Ok (head ++ trunc ++ tail)%string
    /\ size (head ++ trunc ++ tail) = max_msg_len - 20
    /\ (exists skipped, error = (skipped ++ tail)%string)
    /\ first_two_lines (head ++ trunc ++ tail) = Some head.
Proof.
  intros Hc Hs Hl Hh.
  destruct (head_is_first_two_lines error head Hs Hl) as (Hhead & Hlen).
  cbv zeta in Hhead.
  assert (Hsize : size head <= size error) by (unfold size; lia).
  pose proof (size_nonneg head) as Hpos.
  set (p := Z.to_nat (size error - max_msg_len + size head + 37)).
  exists (drop p error).
  unfold truncate_middle; cbv zeta.
  rewrite Hhead; cbn [bind].
  rewrite (tail_start_value error head max_msg_len Hc Hs Hsize).
  replace (size error - max_msg_len + size head + 37) with (Z.of_nat p)
    by (subst p; rewrite Z2Nat.id; lia).
  assert (Hp : (p <= String.length error)%nat).
  { subst p; unfold size in *; lia. }
  rewrite std_substr_suffix by (unfold size in *; lia).
  cbn [bind]; split; [reflexivity |].
  split.
  - rewrite !size_append; change (size trunc) with 17.
    unfold size at 2; rewrite length_drop.
    subst p; unfold size in *; lia.
  - split; [exists (take p error); symmetry; apply take_drop |].
    apply first_two_lines_prefix with (error := error); exact Hl.
Qed.

(** When they do not fit, the start of the tail lies past the end of the
    message and [substr] throws. *)
Lemma truncate_middle_throws (error head : string) (max_msg_len : Z) :
  0 <= max_msg_len < size error -> size error < 2 ^ 31 ->
  first_two_lines error = Some head ->
  max_msg_len < size head + 37 ->
  size error
    < tail_start (to_int (to_size_t (size error - max_msg_len))) head
  /\ truncate_middle error max_msg_len = Err std_out_of_range.
Proof.
  intros Hc Hs Hl Hh.
  destruct (head_is_first_two_lines error head Hs Hl) as (Hhead & Hlen).
  cbv zeta in Hhead.
  assert (Hsize : size head <= size error) by (unfold size; lia).
  assert (T : size error
              < tail_start (to_int (to_size_t (size error - max_msg_len))) head).
  { rewrite (tail_start_value error head max_msg_len Hc Hs Hsize); lia. }
  split; [exact T |].
  unfold truncate_middle; cbv zeta.
  rewrite Hhead; cbn [bind].
  rewrite std_substr_beyond by exact T; reflexivity.
Qed.

(** A message with fewer than two newlines loses its head altogether. *)
Lemma truncate_middle_headless (error : string) (max_msg_len : Z) :
  37 <= max_msg_len < size error -> size error < 2 ^ 31 ->
  first_two_lines error = None ->
  truncate_middle error max_msg_len
  = Ok (trunc ++ drop (Z.to_nat (size error - max_msg_len + 37)) error)%string.
Proof.
  intros Hc Hs Hl.
  pose proof (head_is_empty error Hs Hl) as Hhead; cbv zeta in Hhead.
  unfold truncate_middle; cbv zeta.
  rewrite Hhead; cbn [bind].
  rewrite (tail_start_value error "" max_msg_len) by (unfold size in *; simpl; lia).
  change (size "") with 0; rewrite Z.add_0_r.
  set (p := Z.to_nat (size error - max_msg_len + 37)).
  replace (size error - max_msg_len + 37) with (Z.of_nat p)
    by (subst p; rewrite Z2Nat.id; lia).
  rewrite std_substr_suffix by (subst p; unfold size in *; lia).
  reflexivity.
Qed.

(** C2 -- the truncation scenario, at a message whose first two lines are
    longer than the cap allows: [raise ValueError("x" * 70 + "\n" + "y" *
    70)] under [options(warning.length = 100)].  The message is 200 bytes
    long, and instead of a message of at most 100 bytes that starts with
    the two lines the function throws [std::out_of_range]. *)
Theorem truncation_throws_on_long_lines :
  size (String.concat "" two_long_lines ++ example_hint) = 200
  /\ first_two_lines (String.concat "" two_long_lines ++ example_hint)
     = Some (String.concat "" two_long_lines)
  /\ conditionMessage_from_py_exception
       (tb_formatted two_long_lines) example_hint 100
     = Err std_out_of_range.
Proof.
  vm_compute; repeat split; reflexivity.
Qed.

(** C9 -- the start index of the tail, at a message whose first line alone
    fills the default cap of 1000 bytes: the index is 1099 while the
    message has 1054 bytes, so [error.substr] is called out of bounds. *)
Theorem tail_start_out_of_bounds :
  1000 < size long_header
  /\ first_two_lines long_header = Some (take 1008 long_header)
  /\ tail_start (size long_header - 1000) (take 1008 long_header) = 1099
  /\ size long_header = 1054
  /\ std_substr long_header
       (tail_start (size long_header - 1000) (take 1008 long_header)) npos
     = Err std_out_of_range
  /\ truncate_middle long_header 1000 = Err std_out_of_range.
Proof.
  vm_compute; repeat split; reflexivity.
Qed.

(** ** Classification *)

Section ClassificationFacts.

Context {RT : Runtime}.

Lemma py_to_r_eq (x : PyObject) (convert : bool) :
  py_to_r x convert =
  py_to_r_chain x convert (converted_items x convert)
    (converted_entries x convert) (converted_objects x convert).
Proof. destruct x; reflexivity. Qed.

(** [py_to_r] converts a value as the first category of the source's
    order whose test it passes. *)
Lemma py_to_r_by_category (x : PyObject) (convert : bool) :
  py_to_r x convert =
  do c <- classify precedence x; convert_as c x convert.
Proof.
  rewrite py_to_r_eq; unfold py_to_r_chain, precedence.
  cbn [classify category_test bind].
  destruct (py_is_none x); [reflexivity |].
  destruct (r_scalar_type x) as [t | e] eqn:E; [| reflexivity].
  cbn [bind].
  destruct (negb (SEXPTYPE_eqb t NILSXP));
    [cbn [bind convert_as]; rewrite E; reflexivity |].
  destruct (PyList_CheckExact x); [reflexivity |].
  destruct (PyTuple_CheckExact x && negb (PyObject_HasAttrString x "_fields"));
    [reflexivity |].
  destruct (PyDict_CheckExact x); [reflexivity |].
  destruct (isPyArray x); [reflexivity |].
  destruct (isPyArrayScalar x); [reflexivity |].
  destruct (PyList_Check x); [reflexivity |].
  destruct (PyObject_IsInstance_dict x); [reflexivity |].
  destruct (py_is_callable x); [reflexivity |].
  destruct (PyObject_HasAttrString x "__iter__"
            && (PyObject_HasAttrString x "next"
                || PyObject_HasAttrString x "__next__")); [reflexivity |].
  destruct (PyByteArray_Check x); [reflexivity |].
  destruct (is_pandas_na x); [reflexivity |].
  destruct (is_r_object_capsule x); reflexivity.
Qed.

(** A category is reached only when every test before it has failed. *)
Lemma classify_structural_after_exact (x : PyObject) (c : category) :
  classify precedence x = Ok c -> structural c = true ->
  Forall (fun passed => passed = false) (exact_type_tests x).
Proof.
  unfold precedence, exact_type_tests; cbn [classify category_test bind].
  destruct (py_is_none x); [intros H; injection H as <-; discriminate |].
  destruct (r_scalar_type x) as [t | e]; [| discriminate].
  cbn [bind].
  destruct (negb (SEXPTYPE_eqb t NILSXP));
    [intros H; injection H as <-; discriminate |].
  destruct (PyList_CheckExact x);
    [intros H; injection H as <-; discriminate |].
  destruct (PyTuple_CheckExact x && negb (PyObject_HasAttrString x "_fields"));
    [intros H; injection H as <-; discriminate |].
  destruct (PyDict_CheckExact x);
    [intros H; injection H as <-; discriminate |].
  intros _ _; repeat constructor.
Qed.

End ClassificationFacts.

(** C4, as the claim states it, fails on an R-object capsule: the order the
    claim lists ends "pandas-NA, then opaque passthrough" and would wrap
    the capsule, while [py_to_r] unwraps it to the R value it holds. *)
Lemma capsule_is_not_passed_through :
  (do c <- @classify example_runtime precedence_listed example_capsule;
   @convert_as example_runtime c example_capsule true)
  = Ok (@py_ref example_runtime example_capsule true "")
  /\ @py_to_r example_runtime example_capsule true = Ok (IntegerVector [1])
  /\ @py_to_r example_runtime example_capsule true
     <> (do c <- @classify example_runtime precedence_listed example_capsule;
         @convert_as example_runtime c example_capsule true).
Proof.
  repeat split; try reflexivity.
  vm_compute; discriminate.
Qed.

(** C4, amended.  [py_to_r] classifies a Python value by the first test
    that succeeds in the order None, scalar, exact list, exact tuple
    without [_fields], exact dict, NumPy array, NumPy array scalar,
    subclassed list, mapping-protocol object, callable, iterator,
    bytearray, pandas NA, R-object capsule (unwrapped to the R value it
    holds), opaque passthrough, and converts it as that category; a value
    whose scalar test raises (a NumPy scalar of an unsupported kind) is
    not classified, the error propagates.  A value classified by one of
    the structural tests (mapping, callable, iterator) has failed the
    three exact-type tests. *)
Theorem py_to_r_precedence {RT : Runtime} (x : PyObject) (convert : bool) :
  py_to_r x convert = (do c <- classify precedence x; convert_as c x convert)
  /\ (forall c, classify precedence x = Ok c -> structural c = true ->
        Forall (fun passed => passed = false) (exact_type_tests x)).
Proof.
  split; [apply py_to_r_by_category | apply classify_structural_after_exact].
Qed.

Lemma py_to_r_precedence_witness :
  @classify example_runtime precedence example_callable = Ok cat_callable
  /\ structural cat_callable = true
  /\ Forall (fun passed => passed = false)
            (exact_type_tests example_callable).
Proof.
  split; [reflexivity |].
  split; [reflexivity |].
  apply (proj2 (@py_to_r_precedence example_runtime example_callable true)
               cat_callable); reflexivity.
Defined.

(** ** The [convert] flag *)

(** Takes apart a successful run of a branch. *)
Ltac invert_Ok :=
  repeat match goal with
         | H : bind ?r _ = Ok _ |- _ =>
             let a := fresh "a" in
             let E := fresh "E" in
             apply bind_Ok in H as (a & E & H)
         | H : Ok _ = Ok _ |- _ => injection H as <-
         | H : Err _ = Ok _ |- _ => discriminate H
         | H : (if ?b then _ else _) = Ok _ |- _ => destruct b
         | H : match ?v with _ => _ end = Ok _ |- _ => destruct v
         end.

Section ConvertFlag.

Context {RT : Runtime}.

Lemma native_not_wrapper (r : SEXP) (x : PyObject) :
  native_R_value r = true -> ~ is_opaque_wrapper r x.
Proof.
  unfold native_R_value, TYPEOF; intros H (convert & E).
  rewrite E in H; discriminate.
Qed.

(** Every materialized category yields a native R value, whatever the
    flag. *)
Lemma materialized_is_native (x : PyObject) (c : category) (convert : bool)
    (r : SEXP) :
  materialized c = true -> convert_as c x convert = Ok r ->
  native_R_value r = true.
Proof.
  intros M H; destruct c; try discriminate M; clear M;
    unfold convert_as, list_to_r, sequence_to_r, entries_to_r, array_to_r,
      py_array_scalar_to_r, bytearray_to_r, py_scalar_to_r in H;
    cbv zeta in H; invert_Ok; reflexivity.
Qed.

Lemma py_iterate_loop_no_convert (it : iteration) (f : SEXP -> result SEXP) :
  py_iterate_loop false it f =
  do values <- mapM f (map (fun item => py_ref item false "")
                           (iteration_items it));
  if iteration_failed it then Err PythonException else Ok values.
Proof.
  induction it as [| | item rest IH]; cbn [py_iterate_loop iteration_items
    iteration_failed map mapM bind]; try reflexivity.
  destruct (f (py_ref item false "")) as [value | e]; [| reflexivity].
  cbn [bind]; rewrite IH.
  destruct (mapM f (map (fun item => py_ref item false "")
                        (iteration_items rest))) as [values | e];
    [| reflexivity].
  cbn [bind]; destruct (iteration_failed rest); reflexivity.
Qed.

End ConvertFlag.

(** C5, as the claim states it, fails on an integer: with [convert =
    false] the conversion entry point still returns the R integer vector,
    not a reference to the Python object. *)
Lemma convert_false_still_materializes :
  @py_ref_to_r_with_convert example_runtime
    (@py_ref example_runtime (PyInt_FromLong 3) false "") false
  = Ok (IntegerVector [3])
  /\ @py_to_r example_runtime (PyInt_FromLong 3) false = Ok (IntegerVector [3])
  /\ ~ is_opaque_wrapper (IntegerVector [3]) (PyInt_FromLong 3).
Proof.
  repeat split; try reflexivity.
  intros (convert & E); discriminate E.
Qed.

(** C5, amended.  [py_to_r] and [py_ref_to_r_with_convert] do not look at
    [convert] to decide whether to convert: with [convert = false] a None,
    scalar, list, tuple, dict, mapping, array, array scalar, bytearray or
    pandas NA still becomes a native R value.  The passthrough is applied
    by the callers that hold a reference with [convert = false]:
    [py_iterate] and [py_iter_next] hand each item on as [py_ref(item,
    false)], an opaque reference to the item, without calling [py_to_r]. *)
Theorem convert_false_is_applied_by_callers {RT : Runtime} :
  (forall x c r,
      classify precedence x = Ok c -> materialized c = true ->
      py_to_r x false = Ok r ->
      native_R_value r = true /\ ~ is_opaque_wrapper r x)
  /\ (forall x obj,
        PyObjectRef_get x = Ok obj ->
        py_ref_to_r_with_convert x false = py_to_r obj false)
  /\ (forall x it f,
        PyObjectRef_convert x = Ok false ->
        py_iterate x (Some it) f =
        do values <- mapM f (map (fun item => py_ref item false "")
                                 (iteration_items it));
        if iteration_failed it then Err PythonException
        else Ok (List_ values))
  /\ (forall iterator item rest completed,
        PyObjectRef_convert iterator = Ok false ->
        py_iter_next iterator (iter_next item rest) completed
        = Ok (py_ref item false ""))
  /\ (forall item, is_opaque_wrapper (py_ref item false "") item).
Proof.
  repeat split.
  - rewrite py_to_r_by_category in H1; rewrite H in H1; cbn [bind] in H1.
    exact (materialized_is_native x c false r H0 H1).
  - apply native_not_wrapper.
    rewrite py_to_r_by_category in H1; rewrite H in H1; cbn [bind] in H1.
    exact (materialized_is_native x c false r H0 H1).
  - intros x obj H; unfold py_ref_to_r_with_convert; rewrite H; reflexivity.
  - intros x it f H; unfold py_iterate; rewrite H; cbn [bind].
    rewrite py_iterate_loop_no_convert.
    destruct (mapM f (map (fun item => py_ref item false "")
                          (iteration_items it))) as [values | e];
      [| reflexivity].
    cbn [bind]; destruct (iteration_failed it); reflexivity.
  - intros iterator item rest completed H; unfold py_iter_next.
    rewrite H; reflexivity.
  - intros item; exists false; reflexivity.
Qed.

Lemma convert_false_is_applied_by_callers_witness :
  @classify example_runtime precedence (PyInt_FromLong 3) = Ok cat_scalar
  /\ native_R_value (IntegerVector [3]) = true
  /\ @py_iterate example_runtime
       (@py_ref example_runtime (PyList_New [PyInt_FromLong 3]) false "")
       (Some (iter_next (PyInt_FromLong 3) iter_done)) (fun param => Ok param)
     = Ok (List_ [@py_ref example_runtime (PyInt_FromLong 3) false ""]).
Proof.
  destruct (@convert_false_is_applied_by_callers example_runtime)
    as (A & _ & B & _).
  split; [reflexivity |].
  split.
  - apply (A (PyInt_FromLong 3) cat_scalar (IntegerVector [3]));
      reflexivity.
  - rewrite B; reflexivity.
Defined.

(** ** Dictionaries *)

Section DictFacts.

Context {RT : Runtime}.

Lemma r_scalar_type_dict (x : PyObject) :
  PyDict_Check x = true -> r_scalar_type x = Ok NILSXP.
Proof.
  destruct x as [ty attrs v]; unfold PyDict_Check; cbn [ob_val].
  destruct v; try discriminate; intros _.
  unfold r_scalar_type, is_python_str, is_numpy_str, isPyArrayScalar.
  cbn; destruct haveNumPy; cbn; rewrite ?andb_false_r; reflexivity.
Qed.

Lemma py_to_r_exact_dict (x : PyObject) (convert : bool) :
  PyDict_CheckExact x = true ->
  py_to_r x convert = entries_to_r (converted_entries x convert).
Proof.
  intros H; rewrite py_to_r_eq; unfold py_to_r_chain.
  assert (D : PyDict_Check x = true).
  { unfold PyDict_CheckExact in H; apply andb_prop in H; tauto. }
  rewrite (r_scalar_type_dict x D); cbn [bind SEXPTYPE_eqb negb].
  rewrite H.
  destruct x as [ty attrs v]; unfold PyDict_Check in D; cbn [ob_val] in D.
  destruct v; try discriminate D; reflexivity.
Qed.

Lemma converted_entries_names (entries : list (PyObject * PyObject))
    (convert : bool) (list : list (string * SEXP)) :
  mapM (fun kv : PyObject * PyObject =>
          do name <- key_name (fst kv);
          do value <- py_to_r (snd kv) convert;
          Ok (name, value)) entries = Ok list ->
  mapM key_name (map fst entries) = Ok (map fst list)
  /\ mapM (fun v => py_to_r v convert) (map snd entries) = Ok (map snd list).
Proof.
  revert list; induction entries as [| [k v] entries IH]; intros list H.
  - injection H as <-; split; reflexivity.
  - cbn [mapM] in H.
    apply bind_Ok in H as (p & Hp & H).
    apply bind_Ok in H as (l & Hl & H); injection H as <-.
    apply bind_Ok in Hp as (n & Hn & Hp).
    apply bind_Ok in Hp as (val & Hv & Hp); injection Hp as <-.
    destruct (IH _ Hl) as (N & V).
    cbn [map mapM fst snd] in *.
    rewrite Hn, Hv, N, V; split; reflexivity.
Qed.


Lemma key_name_of_string (key : PyObject) (s : string) :
  is_python_str key = Ok true -> as_std_string key = Ok s ->
  key_name key = Ok (c_str s).
Proof.
  intros H E; unfold key_name, as_utf8_r_string; rewrite H; cbn [bind].
  rewrite E; reflexivity.
Qed.




(** A key that equals itself is found where [dict_store] put it. *)
Lemma PyDict_GetItem_dict_store (dict : list (PyObject * PyObject))
    (key val : PyObject) :
  py_key_eq key key = true ->
  PyDict_GetItem (dict_store dict key val) key = Some val.
Proof.
  intros E; induction dict as [| [k v] dict IH];
    cbn [dict_store PyDict_GetItem].
  - rewrite E; reflexivity.
  - destruct (py_key_eq k key) eqn:K; cbn [PyDict_GetItem]; rewrite K;
      [reflexivity | exact IH].
Qed.

Lemma dict_store_length (dict : list (PyObject * PyObject))
    (key val : PyObject) :
  List.length (dict_store dict key val)
  = match PyDict_GetItem dict key with
    | Some _ => List.length dict
    | None => S (List.length dict)
    end.
Proof.
  induction dict as [| [k v] dict IH]; cbn [dict_store PyDict_GetItem];
    [reflexivity |].
  destruct (py_key_eq k key); [reflexivity |].
  cbn [List.length]; rewrite IH.
  destruct (PyDict_GetItem dict key); reflexivity.
Qed.





End DictFacts.



(** ** Scalars there and back *)

Section RoundTrip.

Context {RT : Runtime}.

Lemma r_to_py_cpp_plain (v : RValue) (a : list (string * SEXP))
    (convert : bool) :
  plain_vector (mkSEXP v a) = true ->
  v <> RNil ->
  r_to_py_cpp (mkSEXP v a) convert =
  match v with
  | RInteger v => scalar_or_list v PyInt_FromLong
  | RReal v => scalar_or_list v PyFloat_FromDouble
  | RComplex v =>
      scalar_or_list v (fun c => PyComplex_FromDoubles (cplx_r c) (cplx_i c))
  | RLogical v => scalar_or_list v PyBool_FromLong
  | RString [s] => as_python_str s false
  | _ => r_to_py_cpp (mkSEXP v a) convert
  end.
Proof.
  unfold plain_vector; intros P N.
  apply andb_prop in P as (P & D); apply andb_prop in P as (O & I).
  apply negb_true_iff in D, O, I.
  destruct v as [| l | l | l | l | l | | | | | |]; try reflexivity;
    try (cbn [r_to_py_cpp TYPEOF sx_val SEXPTYPE_eqb]; rewrite O, I, D;
         reflexivity).
  destruct l as [| s [| s' l]]; try reflexivity.
  cbn [r_to_py_cpp TYPEOF sx_val SEXPTYPE_eqb]; rewrite O, I, D; reflexivity.
Qed.

Lemma py_to_r_scalar (x : PyObject) (convert : bool) (t : SEXPTYPE) :
  py_is_none x = false -> r_scalar_type x = Ok t ->
  SEXPTYPE_eqb t NILSXP = false ->
  py_to_r x convert = py_scalar_to_r t x.
Proof.
  intros N T S; rewrite py_to_r_eq; unfold py_to_r_chain.
  rewrite N, T; cbn [bind]; rewrite S; reflexivity.
Qed.

Lemma long_holds_int (v : Z) :
  4 <= sizeof_long -> - 2 ^ 31 <= v < 2 ^ 31 ->
  (- 2 ^ (8 * sizeof_long - 1) <=? v) && (v <? 2 ^ (8 * sizeof_long - 1))
  = true.
Proof.
  intros S V.
  assert (P : 2 ^ 31 <= 2 ^ (8 * sizeof_long - 1))
    by (apply Z.pow_le_mono_r; lia).
  apply andb_true_intro; split; [apply Z.leb_le | apply Z.ltb_lt]; lia.
Qed.

End RoundTrip.

(** C3, as the claim states it, fails on the logical NA: it reaches Python
    as [True] and comes back as [TRUE]. *)
Lemma logical_NA_comes_back_TRUE :
  @r_to_py_cpp example_runtime (LogicalVector [NA_LOGICAL]) true = Ok Py_True
  /\ @py_to_r example_runtime Py_True true = Ok (LogicalVector [1])
  /\ LogicalVector [1] <> LogicalVector [NA_LOGICAL].
Proof.
  repeat split; try reflexivity.
  vm_compute; discriminate.
Qed.

(** C3, amended.  A length-1 R vector with plain attributes converts to a
    Python scalar, never a list, and converting that scalar back gives
    the length-1 vector of the same value (without the attributes), for:
    a logical [TRUE] or [FALSE], any integer (NA included), any double
    and any complex (bit for bit), and a string that is not NA and whose
    bytes pass to Python unchanged. *)
Theorem scalar_round_trip {RT : Runtime} (a : list (string * SEXP))
    (convert convert' : bool) :
  4 <= sizeof_long ->
  (forall v, plain_vector (mkSEXP (RLogical [v]) a) = true ->
     v = 0 \/ v = 1 ->
     exists p, r_to_py_cpp (mkSEXP (RLogical [v]) a) convert = Ok p
               /\ r_scalar_type p = Ok LGLSXP
               /\ py_to_r p convert' = Ok (LogicalVector [v]))
  /\ (forall v, plain_vector (mkSEXP (RInteger [v]) a) = true ->
        - 2 ^ 31 <= v < 2 ^ 31 ->
        exists p, r_to_py_cpp (mkSEXP (RInteger [v]) a) convert = Ok p
                  /\ r_scalar_type p = Ok INTSXP
                  /\ py_to_r p convert' = Ok (IntegerVector [v]))
  /\ (forall d, plain_vector (mkSEXP (RReal [d]) a) = true ->
        exists p, r_to_py_cpp (mkSEXP (RReal [d]) a) convert = Ok p
                  /\ r_scalar_type p = Ok REALSXP
                  /\ py_to_r p convert' = Ok (NumericVector [d]))
  /\ (forall c, plain_vector (mkSEXP (RComplex [c]) a) = true ->
        exists p, r_to_py_cpp (mkSEXP (RComplex [c]) a) convert = Ok p
                  /\ r_scalar_type p = Ok CPLXSXP
                  /\ py_to_r p convert' = Ok (ComplexVector [c]))
  /\ (forall s b, plain_vector (mkSEXP (RString [s]) a) = true ->
        passes_unchanged s b ->
        exists p, r_to_py_cpp (mkSEXP (RString [s]) a) convert = Ok p
                  /\ r_scalar_type p = Ok STRSXP
                  /\ py_to_r p convert'
                     = Ok (CharacterVector [mkCharCE b CE_UTF8])).
Proof.
  intros S.
  split; [| split; [| split; [| split]]].
  - intros v P V.
    rewrite r_to_py_cpp_plain by (exact P || discriminate).
    exists (PyBool_FromLong v); split; [reflexivity |].
    destruct V as [-> | ->]; split; reflexivity.
  - intros v P V.
    rewrite r_to_py_cpp_plain by (exact P || discriminate).
    exists (PyInt_FromLong v); split; [reflexivity |].
    split; [reflexivity |].
    rewrite (py_to_r_scalar _ _ INTSXP) by reflexivity.
    unfold py_scalar_to_r, PyInt_AsLong, PyInt_FromLong; cbn [ob_val].
    rewrite (long_holds_int v S V), to_int_small by exact V; reflexivity.
  - intros d P.
    rewrite r_to_py_cpp_plain by (exact P || discriminate).
    exists (PyFloat_FromDouble d); repeat split.
  - intros c P.
    rewrite r_to_py_cpp_plain by (exact P || discriminate).
    exists (PyComplex_FromDoubles (cplx_r c) (cplx_i c)); repeat split.
    destruct c; reflexivity.
  - intros s b P (N & B & T & U & Z).
    rewrite r_to_py_cpp_plain by (exact P || discriminate).
    unfold as_python_str; cbn [andb].
    destruct s_isPython3 eqn:Py.
    + rewrite T; unfold PyUnicode_FromString; rewrite U.
      eexists; split; [reflexivity |].
      split; [reflexivity |].
      rewrite (py_to_r_scalar _ _ STRSXP) by reflexivity.
      reflexivity.
    + rewrite T.
      eexists; split; [reflexivity |].
      assert (R : r_scalar_type (PyString_FromString b) = Ok STRSXP).
      { unfold r_scalar_type, is_python_str, has_null_bytes.
        cbn [PyBool_Check PyInt_Check PyLong_Check PyFloat_Check
             PyComplex_Check PyUnicode_Check PyString_Check PyString_FromString
             ob_val orb].
        rewrite Py, Z; reflexivity. }
      split; [exact R |].
      rewrite (py_to_r_scalar _ _ STRSXP) by (reflexivity || exact R).
      unfold py_scalar_to_r, as_utf8_r_string, as_std_string, isPyArrayScalar.
      cbn [PyUnicode_Check PyString_FromString ob_val orb].
      destruct (negb haveNumPy); reflexivity.
Qed.

Lemma scalar_round_trip_witness :
  4 <= @sizeof_long example_runtime
  /\ (exists p, @r_to_py_cpp example_runtime (IntegerVector [NA_INTEGER]) true
                = Ok p
                /\ @r_scalar_type example_runtime p = Ok INTSXP
                /\ @py_to_r example_runtime p true
                   = Ok (IntegerVector [NA_INTEGER]))
  /\ (exists p, @r_to_py_cpp example_runtime
                  (CharacterVector [mkCharCE "abc" CE_UTF8]) true = Ok p
                /\ @r_scalar_type example_runtime p = Ok STRSXP
                /\ @py_to_r example_runtime p true
                   = Ok (CharacterVector [mkCharCE "abc" CE_UTF8])).
Proof.
  assert (S : 4 <= @sizeof_long example_runtime) by (simpl; lia).
  destruct (@scalar_round_trip example_runtime [] true true S)
    as (_ & I & _ & _ & C).
  split; [exact S |].
  split.
  - apply I; [reflexivity | unfold NA_INTEGER; lia].
  - apply (C (mkCharCE "abc" CE_UTF8) "abc"); [reflexivity |].
    repeat split; discriminate.
Defined.

(** ** Integer arrays *)

Section IntegerArrays.

Context {RT : Runtime}.
Hypothesis labels_distinct : NoDup case_labels.
Hypothesis numpy_loaded : s_numpy_loaded = true.

Lemma wide_is_double (t : Z) :
  In t wide_integer_kinds -> narrow_array_typenum t = Ok NPY_DOUBLE.
Proof.
  intros H; apply (narrow_double_kinds labels_distinct).
  simpl in H; simpl; tauto.
Qed.

Lemma narrow_to_long (t : Z) :
  narrow_array_typenum t = Ok NPY_LONG <-> In t integer_kinds.
Proof.
  split; [| apply (narrow_integer_kinds labels_distinct)].
  unfold narrow_array_typenum.
  destruct (case_of logical_kinds t).
  { intros H; injection H as H; exfalso; revert H.
    apply (labels_neq 0 9); try reflexivity; [exact labels_distinct | lia]. }
  destruct (case_of integer_kinds t) eqn:I; [intros _; apply case_of_In, I |].
  destruct (case_of double_kinds t).
  { intros H; injection H as H; exfalso; revert H.
    apply (labels_neq 13 9); try reflexivity; [exact labels_distinct | lia]. }
  destruct (case_of complex_kinds t).
  { intros H; injection H as H; exfalso; revert H.
    apply (labels_neq 15 9); try reflexivity; [exact labels_distinct | lia]. }
  destruct (case_of structural_kinds t) eqn:S; [| discriminate].
  intros H; injection H as ->.
  assert (F : case_of structural_kinds NPY_LONG = false)
    by other_group labels_distinct 9%nat.
  rewrite F in S; discriminate.
Qed.

(** A numeric array passes every test before [isPyArray]. *)
Lemma py_to_r_numeric_array (ty : PyTypeObject)
    (attrs : list (string * PyObject)) (t : Z) (dims : list Z)
    (data : list npy_item) (convert : bool) (k : Z) :
  narrow_array_typenum t = Ok k ->
  k <> NPY_STRING -> k <> NPY_UNICODE ->
  let x := mkPyObject ty attrs (VArray t dims data) in
  py_to_r x convert = array_to_r x (converted_objects x convert).
Proof.
  intros N S U x; rewrite py_to_r_eq; unfold py_to_r_chain.
  assert (R : r_scalar_type x = Ok NILSXP).
  { unfold r_scalar_type, is_python_str, is_numpy_str; subst x.
    cbn [PyBool_Check PyInt_Check PyLong_Check PyFloat_Check PyComplex_Check
         PyUnicode_Check PyString_Check ob_val orb andb].
    rewrite andb_false_r.
    destruct (isPyArrayScalar (mkPyObject ty attrs (VArray t dims data)));
      [| reflexivity].
    cbn [negb descr_type_num ob_val]; rewrite N; cbn [bind].
    rewrite (proj2 (Z.eqb_neq k NPY_STRING) S),
            (proj2 (Z.eqb_neq k NPY_UNICODE) U); reflexivity. }
  rewrite R; cbn [bind SEXPTYPE_eqb negb].
  subst x; unfold isPyArray, haveNumPy; rewrite numpy_loaded; reflexivity.
Qed.

Lemma wide_array_is_double (ty : PyTypeObject)
    (attrs : list (string * PyObject)) (t : Z) (dims : list Z)
    (data pData : list npy_item) (convert : bool) :
  In t wide_integer_kinds ->
  PyArray_CastToType t dims data NPY_DOUBLE = Some pData ->
  py_to_r (mkPyObject ty attrs (VArray t dims data)) convert
  = Ok (Rf_allocArray
          (RReal (map read_num
                      (firstn (Z.to_nat (fold_right Z.mul 1 dims)) pData)))
          (dimsVector_of dims)).
Proof.
  intros W C.
  assert (B : NPY_DOUBLE <> NPY_BOOL)
    by (apply (labels_neq 13 0); try reflexivity;
        [exact labels_distinct | lia]).
  assert (L : NPY_DOUBLE <> NPY_LONG)
    by (apply (labels_neq 13 9); try reflexivity;
        [exact labels_distinct | lia]).
  assert (S : NPY_DOUBLE <> NPY_STRING)
    by (apply (labels_neq 13 16); try reflexivity;
        [exact labels_distinct | lia]).
  assert (U : NPY_DOUBLE <> NPY_UNICODE)
    by (apply (labels_neq 13 17); try reflexivity;
        [exact labels_distinct | lia]).
  rewrite (py_to_r_numeric_array ty attrs t dims data convert NPY_DOUBLE
             (wide_is_double t W) S U).
  unfold array_to_r, PyArray_TYPE, PyArray_DIMS, PyArray_DATA, PyArray_SIZE;
    cbn [ob_val].
  rewrite (wide_is_double t W); cbn [bind].
  rewrite (proj2 (Z.eqb_neq _ _) B), (proj2 (Z.eqb_neq _ _) L), Z.eqb_refl.
  cbn [orb]; rewrite C; reflexivity.
Qed.

Lemma narrow_array_is_integer (ty : PyTypeObject)
    (attrs : list (string * PyObject)) (t : Z) (dims : list Z)
    (data pData : list npy_item) (convert : bool) :
  In t integer_kinds ->
  PyArray_CastToType t dims data NPY_LONG = Some pData ->
  py_to_r (mkPyObject ty attrs (VArray t dims data)) convert
  = Ok (Rf_allocArray
          (RInteger (map (fun e => to_int (read_num e))
                         (firstn (Z.to_nat (fold_right Z.mul 1 dims)) pData)))
          (dimsVector_of dims)).
Proof.
  intros W C.
  assert (B : NPY_LONG <> NPY_BOOL)
    by (apply (labels_neq 9 0); try reflexivity;
        [exact labels_distinct | lia]).
  assert (S : NPY_LONG <> NPY_STRING)
    by (apply (labels_neq 9 16); try reflexivity;
        [exact labels_distinct | lia]).
  assert (U : NPY_LONG <> NPY_UNICODE)
    by (apply (labels_neq 9 17); try reflexivity;
        [exact labels_distinct | lia]).
  rewrite (py_to_r_numeric_array ty attrs t dims data convert NPY_LONG
             (narrow_integer_kinds labels_distinct t W) S U).
  unfold array_to_r, PyArray_TYPE, PyArray_DIMS, PyArray_DATA, PyArray_SIZE;
    cbn [ob_val].
  rewrite (narrow_integer_kinds labels_distinct t W); cbn [bind].
  rewrite (proj2 (Z.eqb_neq _ _) B), Z.eqb_refl.
  cbn [orb]; rewrite C; reflexivity.
Qed.

End IntegerArrays.

(** C10 -- integer arrays.  The kinds NPY_LONG, NPY_LONGLONG, NPY_UINT,
    NPY_ULONG and NPY_ULONGLONG narrow to NPY_DOUBLE, and an array of one
    of them converts to an R array of doubles; the kinds that narrow to
    NPY_LONG are exactly NPY_BYTE, NPY_UBYTE, NPY_SHORT, NPY_USHORT and
    NPY_INT, and an array of one of them converts to an R array of
    integers.  (NumPy is loaded and the cast succeeds.) *)
Theorem wide_integer_arrays_become_double {RT : Runtime} :
  NoDup case_labels -> s_numpy_loaded = true ->
  (forall t, In t wide_integer_kinds ->
             narrow_array_typenum t = Ok NPY_DOUBLE)
  /\ (forall t, narrow_array_typenum t = Ok NPY_LONG <-> In t integer_kinds)
  /\ (forall ty attrs t dims data pData convert r,
        In t wide_integer_kinds ->
        PyArray_CastToType t dims data NPY_DOUBLE = Some pData ->
        py_to_r (mkPyObject ty attrs (VArray t dims data)) convert = Ok r ->
        TYPEOF r = REALSXP
        /\ r = Rf_allocArray
                 (RReal (map read_num
                             (firstn (Z.to_nat (fold_right Z.mul 1 dims))
                                     pData)))
                 (dimsVector_of dims))
  /\ (forall ty attrs t dims data pData convert,
        In t wide_integer_kinds ->
        PyArray_CastToType t dims data NPY_DOUBLE = Some pData ->
        exists r,
          py_to_r (mkPyObject ty attrs (VArray t dims data)) convert = Ok r)
  /\ (forall ty attrs t dims data pData convert,
        In t integer_kinds ->
        PyArray_CastToType t dims data NPY_LONG = Some pData ->
        exists r,
          py_to_r (mkPyObject ty attrs (VArray t dims data)) convert = Ok r
          /\ TYPEOF r = INTSXP).
Proof.
  intros ND NP.
  split; [apply (wide_is_double ND) |].
  split; [apply (narrow_to_long ND) |].
  split; [| split].
  - intros ty attrs t dims data pData convert r W C H.
    rewrite (wide_array_is_double ND NP ty attrs t dims data pData convert W C)
      in H.
    injection H as <-; split; reflexivity.
  - intros ty attrs t dims data pData convert W C.
    eexists; apply (wide_array_is_double ND NP ty attrs t dims data pData
                      convert W C).
  - intros ty attrs t dims data pData convert W C.
    eexists; split;
      [apply (narrow_array_is_integer ND NP ty attrs t dims data pData
                convert W C) | reflexivity].
Qed.

Lemma wide_integer_arrays_become_double_witness :
  NoDup (@case_labels (@npy_types example_runtime))
  /\ @s_numpy_loaded example_runtime = true
  /\ @narrow_array_typenum numpy_abi 7 = Ok 12
  /\ (exists r,
        @py_to_r example_runtime
          (PyArray_New 7 [2] [elem_num 1; elem_num 2]) true
        = Ok r)
  /\ (exists r,
        @py_to_r example_runtime
          (PyArray_New 5 [2] [elem_num 1; elem_num 2]) true
        = Ok r /\ TYPEOF r = INTSXP).
Proof.
  destruct (@wide_integer_arrays_become_double example_runtime
              numpy_abi_distinct eq_refl) as (A & _ & _ & B & C).
  split; [exact numpy_abi_distinct |].
  split; [reflexivity |].
  split; [apply (A 7); vm_compute; tauto |].
  split.
  - apply (B _ _ 7 [2] [elem_num 1; elem_num 2] [elem_num 1; elem_num 2] true);
      [vm_compute; tauto | reflexivity].
  - apply (C _ _ 5 [2] [elem_num 1; elem_num 2] [elem_num 1; elem_num 2] true);
      [vm_compute; tauto | reflexivity].
Defined.

(** ** Exception chains *)

Lemma assoc_set_same {A : Type} (name : string) (v : A) (l : list (string * A)) :
  assoc name (assoc_set name v l) = Some v.
Proof.
  induction l as [| [k w] l IH]; cbn [assoc_set assoc].
  - rewrite String.eqb_refl; reflexivity.
  - destruct (String.eqb k name) eqn:E; cbn [assoc]; rewrite E;
      [reflexivity | exact IH].
Qed.

Lemma assoc_set_other {A : Type} (name other : string) (v : A)
    (l : list (string * A)) :
  name <> other -> assoc other (assoc_set name v l) = assoc other l.
Proof.
  intros N; induction l as [| [k w] l IH]; cbn [assoc_set assoc].
  - rewrite (proj2 (String.eqb_neq name other) N); reflexivity.
  - destruct (String.eqb k name) eqn:E; cbn [assoc].
    + apply String.eqb_eq in E; subst k.
      rewrite (proj2 (String.eqb_neq name other) N); reflexivity.
    + rewrite IH; reflexivity.
Qed.

Lemma GetAttr_SetAttr_same (x v : PyObject) (name : string) :
  PyObject_GetAttrString (PyObject_SetAttrString x name v) name = Some v.
Proof.
  unfold PyObject_GetAttrString, PyObject_SetAttrString; cbn [ob_attrs].
  rewrite assoc_set_same; reflexivity.
Qed.

Lemma GetAttr_SetAttr_other (x v : PyObject) (name other : string) :
  name <> other ->
  PyObject_GetAttrString (PyObject_SetAttrString x name v) other
  = PyObject_GetAttrString x other.
Proof.
  intros N; unfold PyObject_GetAttrString, PyObject_SetAttrString.
  cbn [ob_attrs ob_type]; rewrite (assoc_set_other name other v _ N).
  reflexivity.
Qed.

Lemma HasAttr_SetAttr_same (x v : PyObject) (name : string) :
  PyObject_HasAttrString (PyObject_SetAttrString x name v) name = true.
Proof.
  unfold PyObject_HasAttrString, PyObject_SetAttrString; cbn [ob_attrs].
  rewrite assoc_set_same; reflexivity.
Qed.

Lemma HasAttr_SetAttr_other (x v : PyObject) (name other : string) :
  name <> other ->
  PyObject_HasAttrString (PyObject_SetAttrString x name v) other
  = PyObject_HasAttrString x other.
Proof.
  intros N; unfold PyObject_HasAttrString, PyObject_SetAttrString.
  cbn [ob_attrs ob_type]; rewrite (assoc_set_other name other v _ N).
  reflexivity.
Qed.

(** The two lookups agree. *)
Lemma HasAttr_GetAttr (x : PyObject) (name : string) :
  PyObject_HasAttrString x name = is_some (PyObject_GetAttrString x name).
Proof.
  unfold PyObject_HasAttrString, PyObject_GetAttrString.
  destruct (assoc name (ob_attrs x)); [reflexivity |].
  destruct (existsb (String.eqb name) (tp_attrs (ob_type x))); reflexivity.
Qed.

(** One turn of the loop. *)
Lemma forward_r_trace_eq (excValue excValue_tmp : PyObject) (err : PyErr) :
  forward_r_trace excValue excValue_tmp err =
  match assoc "__context__" (ob_attrs excValue_tmp) with
  | None => (excValue, AttributeError_raised)
  | Some context =>
      let r_call := PyObject_GetAttrString context "call" in
      let r_trace := PyObject_GetAttrString context "trace" in
      let err :=
        after_GetAttrString context "trace"
          (after_GetAttrString context "call" err) in
      if is_some r_call || is_some r_trace
      then (set_if_found (set_if_found excValue "call" r_call) "trace" r_trace,
            err)
      else forward_r_trace excValue context err
  end.
Proof.
  destruct excValue_tmp as [ty attrs v]; cbn [ob_attrs].
  induction attrs as [| [k context] attrs IH]; [reflexivity |].
  cbn [assoc].
  destruct (String.eqb k "__context__") eqn:E.
  - cbn [forward_r_trace ob_attrs]; rewrite E; cbv zeta.
    destruct (PyObject_GetAttrString context "call"),
             (PyObject_GetAttrString context "trace"); reflexivity.
  - rewrite <- IH; cbn [forward_r_trace ob_attrs]; rewrite E; reflexivity.
Qed.

(** The loop copies from the nearest annotated exception. *)
Lemma forward_r_trace_nearest (excValue excValue_tmp inner : PyObject)
    (err : PyErr) :
  nearest_annotated_context excValue_tmp inner ->
  fst (forward_r_trace excValue excValue_tmp err) =
  set_if_found
    (set_if_found excValue "call" (PyObject_GetAttrString inner "call"))
    "trace" (PyObject_GetAttrString inner "trace").
Proof.
  intros N; revert err.
  induction N as [exc context C A | exc context inner C Hc Ht _ IH];
    intros err; rewrite forward_r_trace_eq, C; cbv zeta.
  - rewrite A; reflexivity.
  - rewrite Hc, Ht; cbn [is_some orb]; apply IH.
Qed.

(** When the context of the exception carries both attributes, no lookup
    of the loop fails. *)
Lemma forward_r_trace_context (excValue excValue_tmp context : PyObject)
    (r_call r_trace : PyObject) (err : PyErr) :
  assoc "__context__" (ob_attrs excValue_tmp) = Some context ->
  PyObject_GetAttrString context "call" = Some r_call ->
  PyObject_GetAttrString context "trace" = Some r_trace ->
  forward_r_trace excValue excValue_tmp err
  = (PyObject_SetAttrString (PyObject_SetAttrString excValue "call" r_call)
       "trace" r_trace, err).
Proof.
  intros C Hc Ht; rewrite forward_r_trace_eq, C; cbv zeta.
  unfold after_GetAttrString; rewrite Hc, Ht; reflexivity.
Qed.

(** A lookup that has failed stays in the indicator to the end of the
    loop. *)
Lemma forward_r_trace_keeps_error (excValue excValue_tmp inner : PyObject) :
  nearest_annotated_context excValue_tmp inner ->
  snd (forward_r_trace excValue excValue_tmp AttributeError_raised)
  = AttributeError_raised.
Proof.
  induction 1 as [exc context C A | exc context inner C Hc Ht _ IH];
    rewrite forward_r_trace_eq, C; cbv zeta.
  - rewrite A; cbn [snd]; unfold after_GetAttrString.
    destruct (PyObject_GetAttrString context "call"),
             (PyObject_GetAttrString context "trace"); reflexivity.
  - rewrite Hc, Ht; cbn [is_some orb]; unfold after_GetAttrString.
    rewrite Hc, Ht; exact IH.
Qed.

Lemma nearest_annotated_context_same_link (exc exc' inner : PyObject) :
  assoc "__context__" (ob_attrs exc') = assoc "__context__" (ob_attrs exc) ->
  nearest_annotated_context exc inner ->
  nearest_annotated_context exc' inner.
Proof.
  intros E H; inversion H as [? ? C A | ? context ? C Hc Ht N]; subst.
  - apply nearest_here; [rewrite E; exact C | exact A].
  - apply (nearest_further exc' context inner);
      [rewrite E; exact C | exact Hc | exact Ht | exact N].
Qed.

Section FetchSteps.

Context {RT : Runtime}.

Lemma with_traceback_HasAttr (excValue : PyObject)
    (excTraceback : option PyObject) (name : string) :
  "__traceback__" <> name ->
  PyObject_HasAttrString (with_traceback excValue excTraceback) name
  = PyObject_HasAttrString excValue name.
Proof.
  intros N; unfold with_traceback.
  destruct excTraceback as [tb |]; [| reflexivity].
  destruct s_isPython3; [| reflexivity].
  apply HasAttr_SetAttr_other, N.
Qed.

Lemma with_traceback_GetAttr (excValue : PyObject)
    (excTraceback : option PyObject) (name : string) :
  "__traceback__" <> name ->
  PyObject_GetAttrString (with_traceback excValue excTraceback) name
  = PyObject_GetAttrString excValue name.
Proof.
  intros N; unfold with_traceback.
  destruct excTraceback as [tb |]; [| reflexivity].
  destruct s_isPython3; [| reflexivity].
  apply GetAttr_SetAttr_other, N.
Qed.

Lemma with_traceback_context (excValue : PyObject)
    (excTraceback : option PyObject) :
  assoc "__context__" (ob_attrs (with_traceback excValue excTraceback))
  = assoc "__context__" (ob_attrs excValue).
Proof.
  unfold with_traceback.
  destruct excTraceback as [tb |]; [| reflexivity].
  destruct s_isPython3; [| reflexivity].
  unfold PyObject_SetAttrString; cbn [ob_attrs].
  apply assoc_set_other; discriminate.
Qed.

(** [fetched_exception], by the outcome of the walk along the chain. *)
Lemma fetched_exception_eq (R : R_frames) (reuse : bool)
    (excValue : PyObject) (excTraceback : option PyObject) :
  let exc0 := with_traceback excValue excTraceback in
  let walk := if negb (PyObject_HasAttrString exc0 "call")
              then forward_r_trace exc0 exc0 None else (exc0, None) in
  fetched_exception R reuse excValue excTraceback
  = (with_trace_and_call R reuse (fst walk),
     if PyObject_HasAttrString (fst walk) "trace"
        && PyObject_HasAttrString (fst walk) "call"
     then snd walk else None).
Proof.
  cbv zeta; unfold fetched_exception, with_traceback.
  set (exc0 := match excTraceback with
               | Some tb =>
                   if s_isPython3
                   then PyObject_SetAttrString excValue "__traceback__" tb
                   else excValue
               | None => excValue
               end).
  assert (E : after_HasAttrString exc0 "call" None = None)
    by (unfold after_HasAttrString; destruct (PyObject_HasAttrString _ _);
        reflexivity).
  rewrite E; clear E.
  assert (G : forall exc1 err1,
            (let has_trace := PyObject_HasAttrString exc1 "trace" in
             let err := after_HasAttrString exc1 "trace" err1 in
             let excValue :=
               if negb has_trace then
                 PyObject_SetAttrString exc1 "trace"
                   (py_capsule_new (get_r_trace R reuse))
               else exc1 in
             let has_call := PyObject_HasAttrString excValue "call" in
             let err := after_HasAttrString excValue "call" err in
             let excValue :=
               if negb has_call then
                 PyObject_SetAttrString excValue "call"
                   (py_capsule_new (get_current_call R))
               else excValue in
             (excValue, err))
            = (with_trace_and_call R reuse exc1,
               if PyObject_HasAttrString exc1 "trace"
                  && PyObject_HasAttrString exc1 "call"
               then err1 else None)).
  { intros exc1 err1; cbv zeta.
    unfold with_trace_and_call, after_HasAttrString.
    destruct (PyObject_HasAttrString exc1 "trace") eqn:T; cbn [negb andb].
    - destruct (PyObject_HasAttrString exc1 "call"); reflexivity.
    - rewrite HasAttr_SetAttr_other by discriminate.
      destruct (PyObject_HasAttrString exc1 "call"); reflexivity. }
  destruct (PyObject_HasAttrString exc0 "call"); cbn [negb].
  - apply (G exc0 None).
  - destruct (forward_r_trace exc0 exc0 None) as [exc1 err1].
    apply (G exc1 err1).
Qed.

(** The branch of [py_fetch_error] that returns. *)
Lemma py_fetch_error_fetched (st : session) (R : R_frames) (reuse : bool)
    (excValue : PyObject) (excTraceback : option PyObject)
    (exc : PyObject) :
  python_interrupts_pending st = false ->
  error_indicator st = Some (excValue, excTraceback) ->
  fetched_exception R reuse excValue excTraceback = (exc, None) ->
  py_fetch_error st R reuse
  = (mkSession (interrupts_pending st) false None
       (Some (py_ref exc true ""))
       (if flush_std_buffers R =? -1
        then warnings st ++ [flush_warning] else warnings st),
     Ok (py_ref exc true "")).
Proof.
  intros I E F; unfold py_fetch_error; rewrite I, E, F; reflexivity.
Qed.

End FetchSteps.

(** C7, as the claim states it, fails when an exception nearer on the chain
    carries a [call] of its own: the chain of the fetched exception
    contains an exception with the recorded call and trace, and the
    condition carries neither of the two, but the nearer [call] and a
    trace captured at the fetch. *)
Lemma nearer_attribute_ends_the_walk :
  PyObject_HasAttrString example_masked_exception "call" = false
  /\ assoc "__context__" (ob_attrs example_masked_exception)
     = Some example_call_only_exception
  /\ assoc "__context__" (ob_attrs example_call_only_exception)
     = Some example_inner_exception
  /\ is_some (PyObject_GetAttrString example_inner_exception "call") = true
  /\ is_some (PyObject_GetAttrString example_inner_exception "trace") = true
  /\ exists exc,
       snd (@py_fetch_error example_runtime
              (session_raising example_masked_exception) example_frames false)
       = Ok (@py_ref example_runtime exc true "")
       /\ PyObject_GetAttrString exc "call"
          = PyObject_GetAttrString example_call_only_exception "call"
       /\ PyObject_GetAttrString exc "trace"
          = Some (py_capsule_new (get_r_trace example_frames false))
       /\ PyObject_GetAttrString exc "call"
          <> PyObject_GetAttrString example_inner_exception "call"
       /\ PyObject_GetAttrString exc "trace"
          <> PyObject_GetAttrString example_inner_exception "trace".
Proof.
  repeat (split; [reflexivity |]).
  eexists; split; [reflexivity |].
  repeat split; try reflexivity; vm_compute; discriminate.
Qed.

(** C7, amended.  When the fetched exception has no [call] attribute and
    the nearest exception on its [__context__] chain that carries a [call]
    or a [trace] carries both, the two are set on the fetched exception:
    every condition [py_fetch_error] returns wraps this exception and is
    published as the last exception.  When that exception is the
    [__context__] of the fetched one, [py_fetch_error] does return the
    condition, and leaves no error behind. *)
Theorem exception_chain_forwarding {RT : Runtime} (st : session)
    (R : R_frames) (maybe_reuse_cached_r_trace : bool)
    (excValue inner r_call r_trace : PyObject)
    (excTraceback : option PyObject) :
  python_interrupts_pending st = false ->
  error_indicator st = Some (excValue, excTraceback) ->
  PyObject_HasAttrString excValue "call" = false ->
  nearest_annotated_context excValue inner ->
  PyObject_GetAttrString inner "call" = Some r_call ->
  PyObject_GetAttrString inner "trace" = Some r_trace ->
  exists exc,
    exc = PyObject_SetAttrString
            (PyObject_SetAttrString (with_traceback excValue excTraceback)
               "call" r_call)
            "trace" r_trace
    /\ PyObject_GetAttrString exc "call" = Some r_call
    /\ PyObject_GetAttrString exc "trace" = Some r_trace
    /\ (forall cond,
          snd (py_fetch_error st R maybe_reuse_cached_r_trace) = Ok cond ->
          cond = py_ref exc true ""
          /\ py_last_exception
               (fst (py_fetch_error st R maybe_reuse_cached_r_trace))
             = Some cond)
    /\ (assoc "__context__" (ob_attrs excValue) = Some inner ->
        snd (py_fetch_error st R maybe_reuse_cached_r_trace)
        = Ok (py_ref exc true "")
        /\ py_last_exception
             (fst (py_fetch_error st R maybe_reuse_cached_r_trace))
           = Some (py_ref exc true "")
        /\ error_indicator
             (fst (py_fetch_error st R maybe_reuse_cached_r_trace))
           = None).
Proof.
  intros I E C N Hc Ht.
  set (exc0 := with_traceback excValue excTraceback).
  set (exc1 := PyObject_SetAttrString
                 (PyObject_SetAttrString exc0 "call" r_call) "trace" r_trace).
  assert (C0 : PyObject_HasAttrString exc0 "call" = false)
    by (subst exc0; rewrite with_traceback_HasAttr by discriminate; exact C).
  assert (N0 : nearest_annotated_context exc0 inner).
  { apply (nearest_annotated_context_same_link excValue); [| exact N].
    apply with_traceback_context. }
  assert (T1 : PyObject_HasAttrString exc1 "trace" = true)
    by apply HasAttr_SetAttr_same.
  assert (C1 : PyObject_HasAttrString exc1 "call" = true).
  { subst exc1; rewrite HasAttr_SetAttr_other by discriminate.
    apply HasAttr_SetAttr_same. }
  assert (A1 : with_trace_and_call R maybe_reuse_cached_r_trace exc1 = exc1).
  { unfold with_trace_and_call; rewrite T1; cbn [negb]; rewrite C1.
    reflexivity. }
  assert (W : fst (forward_r_trace exc0 exc0 None) = exc1).
  { rewrite (forward_r_trace_nearest exc0 exc0 inner None N0), Hc, Ht.
    reflexivity. }
  exists exc1; split; [reflexivity |].
  split; [subst exc1; rewrite GetAttr_SetAttr_other by discriminate;
          apply GetAttr_SetAttr_same |].
  split; [apply GetAttr_SetAttr_same |].
  split.
  - assert (F : fst (fetched_exception R maybe_reuse_cached_r_trace excValue
                       excTraceback) = exc1).
    { rewrite fetched_exception_eq; cbv zeta; fold exc0.
      rewrite C0; cbn [negb fst]; rewrite W; exact A1. }
    unfold py_fetch_error; rewrite I, E.
    destruct (fetched_exception R maybe_reuse_cached_r_trace excValue
                excTraceback) as [exc err].
    cbn [fst] in F; subst exc.
    destruct (py_ref_with err exc1 true "") as [cond0 |] eqn:P.
    + cbn [fst snd py_last_exception publish_condition].
      intros cond H; assert (Ec : cond0 = cond) by congruence; subst cond0.
      split; [| reflexivity].
      unfold py_ref_with in P.
      destruct err; [destruct call_results_checked; [discriminate P |] |];
        congruence.
    + destruct (fetched_exception R false (SystemError_from err) None).
      cbn [snd]; discriminate.
  - intros X.
    assert (X0 : assoc "__context__" (ob_attrs exc0) = Some inner)
      by (subst exc0; rewrite with_traceback_context; exact X).
    assert (F : fetched_exception R maybe_reuse_cached_r_trace excValue
                  excTraceback = (exc1, None)).
    { rewrite fetched_exception_eq; cbv zeta; fold exc0.
      rewrite C0; cbn [negb].
      rewrite (forward_r_trace_context exc0 exc0 inner r_call r_trace None
                 X0 Hc Ht).
      cbn [fst snd]; fold exc1; rewrite T1, C1, A1; reflexivity. }
    rewrite (py_fetch_error_fetched st R maybe_reuse_cached_r_trace excValue
               excTraceback exc1 I E F).
    repeat split.
Qed.

Lemma exception_chain_forwarding_witness :
  exists exc,
    snd (@py_fetch_error example_runtime example_session example_frames false)
    = Ok (@py_ref example_runtime exc true "")
    /\ py_last_exception
         (fst (@py_fetch_error example_runtime example_session example_frames
                 false)) = Some (@py_ref example_runtime exc true "")
    /\ ob_type exc = ob_type example_outer_exception
    /\ PyObject_GetAttrString exc "call"
       = Some (PyCapsule_New
                 (r_object_capsule (mkSEXP (ROther 6 1) []) false))
    /\ PyObject_GetAttrString exc "trace"
       = Some (PyCapsule_New
                 (r_object_capsule (mkSEXP (RList []) []) false)).
Proof.
  destruct (@exception_chain_forwarding example_runtime example_session
              example_frames false example_outer_exception
              example_inner_exception
              (PyCapsule_New (r_object_capsule (mkSEXP (ROther 6 1) []) false))
              (PyCapsule_New (r_object_capsule (mkSEXP (RList []) []) false))
              None eq_refl eq_refl eq_refl
              (nearest_here example_outer_exception example_inner_exception
                 eq_refl eq_refl)
              eq_refl eq_refl)
    as (exc & -> & Hc & Ht & _ & H).
  destruct (H eq_refl) as (S & L & _).
  eexists; split; [exact S |].
  split; [exact L |].
  split; [reflexivity |].
  split; [exact Hc | exact Ht].
Defined.

(** X25 -- a context that carries a trace but no call.  When the fetched
    exception has no [call] attribute and the nearest exception on its
    [__context__] chain that carries a [call] or a [trace] carries a
    [trace] only, the trace is copied onto the fetched exception and the
    call is captured at the fetch: the condition wraps the fetched
    exception with the trace of that context and a capsule of the current
    R call, and no error is left behind, however far down the chain the
    context is. *)
Lemma exception_chain_trace_only {RT : Runtime} (st : session)
    (R : R_frames) (maybe_reuse_cached_r_trace : bool)
    (excValue inner r_trace : PyObject) (excTraceback : option PyObject) :
  python_interrupts_pending st = false ->
  error_indicator st = Some (excValue, excTraceback) ->
  PyObject_HasAttrString excValue "call" = false ->
  nearest_annotated_context excValue inner ->
  PyObject_GetAttrString inner "call" = None ->
  PyObject_GetAttrString inner "trace" = Some r_trace ->
  exists exc,
    exc = PyObject_SetAttrString
            (PyObject_SetAttrString (with_traceback excValue excTraceback)
               "trace" r_trace)
            "call" (py_capsule_new (get_current_call R))
    /\ snd (py_fetch_error st R maybe_reuse_cached_r_trace)
       = Ok (py_ref exc true "")
    /\ py_last_exception (fst (py_fetch_error st R maybe_reuse_cached_r_trace))
       = Some (py_ref exc true "")
    /\ error_indicator (fst (py_fetch_error st R maybe_reuse_cached_r_trace))
       = None
    /\ PyObject_GetAttrString exc "call"
       = Some (py_capsule_new (get_current_call R))
    /\ PyObject_GetAttrString exc "trace" = Some r_trace.
Proof.
  intros I E C N Hc Ht.
  set (exc0 := with_traceback excValue excTraceback).
  set (exc1 := PyObject_SetAttrString exc0 "trace" r_trace).
  assert (C0 : PyObject_HasAttrString exc0 "call" = false)
    by (subst exc0; rewrite with_traceback_HasAttr by discriminate; exact C).
  assert (N0 : nearest_annotated_context exc0 inner).
  { apply (nearest_annotated_context_same_link excValue); [| exact N].
    apply with_traceback_context. }
  assert (T1 : PyObject_HasAttrString exc1 "trace" = true)
    by apply HasAttr_SetAttr_same.
  assert (C1 : PyObject_HasAttrString exc1 "call" = false).
  { subst exc1; rewrite HasAttr_SetAttr_other by discriminate; exact C0. }
  assert (F : fetched_exception R maybe_reuse_cached_r_trace excValue
                excTraceback
              = (PyObject_SetAttrString exc1 "call"
                   (py_capsule_new (get_current_call R)), None)).
  { rewrite fetched_exception_eq; cbv zeta; fold exc0.
    rewrite C0; cbn [negb].
    rewrite (forward_r_trace_nearest exc0 exc0 inner None N0), Hc, Ht.
    cbn [set_if_found]; fold exc1; rewrite T1, C1; cbn [andb].
    unfold with_trace_and_call; rewrite T1; cbn [negb]; rewrite C1.
    reflexivity. }
  rewrite (py_fetch_error_fetched st R maybe_reuse_cached_r_trace excValue
             excTraceback _ I E F).
  eexists; split; [reflexivity |].
  cbn [fst snd py_last_exception error_indicator].
  repeat split.
  - apply GetAttr_SetAttr_same.
  - rewrite GetAttr_SetAttr_other by discriminate.
    subst exc1; apply GetAttr_SetAttr_same.
Qed.

Lemma exception_chain_trace_only_witness :
  exists exc,
    snd (@py_fetch_error example_runtime
           (mkSession false false
              (Some (example_trace_only_exception,
                     Some (mkPyObject (builtin_type "traceback" []) []
                             (VInstance []))))
              None [])
           example_frames false)
    = Ok (@py_ref example_runtime exc true "")
    /\ ob_type exc = ob_type example_trace_only_exception
    /\ PyObject_GetAttrString exc "call"
       = Some (py_capsule_new (get_current_call example_frames))
    /\ PyObject_GetAttrString exc "trace"
       = Some (PyCapsule_New (r_object_capsule (mkSEXP (RList []) []) false)).
Proof.
  destruct (@exception_chain_trace_only example_runtime
              (mkSession false false
                 (Some (example_trace_only_exception,
                        Some (mkPyObject (builtin_type "traceback" []) []
                                (VInstance []))))
                 None [])
              example_frames false example_trace_only_exception
              (mkPyObject (exception_type "ValueError")
                 [("trace",
                   PyCapsule_New
                     (r_object_capsule (mkSEXP (RList []) []) false))]
                 (VInstance []))
              (PyCapsule_New (r_object_capsule (mkSEXP (RList []) []) false))
              (Some (mkPyObject (builtin_type "traceback" []) []
                       (VInstance [])))
              eq_refl eq_refl eq_refl
              (nearest_here example_trace_only_exception
                 (mkPyObject (exception_type "ValueError")
                    [("trace",
                      PyCapsule_New
                        (r_object_capsule (mkSEXP (RList []) []) false))]
                    (VInstance []))
                 eq_refl eq_refl)
              eq_refl eq_refl)
    as (exc & -> & S & _ & _ & Hc & Ht).
  eexists; split; [exact S |].
  split; [reflexivity |].
  split; [exact Hc | exact Ht].
Defined.

(** * Further properties *)

(** ** Truncation, for every message *)

(** With a cap under 37 bytes and no head to keep, the tail would start
    past the end of the message. *)
Lemma truncate_middle_short_cap (error : string) (max_msg_len : Z) :
  0 <= max_msg_len < 37 -> max_msg_len < size error -> size error < 2 ^ 31 ->
  first_two_lines error = None ->
  truncate_middle error max_msg_len = Err std_out_of_range.
Proof.
  intros Hc Hm Hs Hl.
  pose proof (head_is_empty error Hs Hl) as Hhead; cbv zeta in Hhead.
  unfold truncate_middle; cbv zeta.
  rewrite Hhead; cbn [bind].
  rewrite std_substr_beyond; [reflexivity |].
  rewrite (tail_start_value error "" max_msg_len)
    by (unfold size in *; simpl; lia).
  change (size "") with 0; lia.
Qed.

Lemma conditionMessage_over_cap (lines : list string) (hint : string)
    (warning_length : Z) :
  0 <= warning_length < size (String.concat "" lines ++ hint) ->
  size (String.concat "" lines ++ hint) < 2 ^ 31 ->
  conditionMessage_from_py_exception (tb_formatted lines) hint warning_length
  = truncate_middle (String.concat "" lines ++ hint) warning_length.
Proof.
  intros Hc Hs; unfold conditionMessage_from_py_exception; cbv zeta.
  rewrite to_size_t_small by lia.
  destruct (Z.ltb_spec warning_length (size (String.concat "" lines ++ hint)));
    [reflexivity | lia].
Qed.

(** X1 -- [conditionMessage_from_py_exception], a message longer than the
    cap that has two newline-terminated lines.  When the two lines and 37
    more bytes fit under the cap, the result is the two lines, the marker
    and a suffix of the message, [warning_length - 20] bytes in all; when
    they do not fit, the function throws [std::out_of_range]. *)
Theorem conditionMessage_cut_in_the_middle (lines : list string)
    (hint head : string) (warning_length : Z) :
  0 <= warning_length < size (String.concat "" lines ++ hint) ->
  size (String.concat "" lines ++ hint) < 2 ^ 31 ->
  first_two_lines (String.concat "" lines ++ hint) = Some head ->
  (size head + 37 <= warning_length ->
   exists tail,
     conditionMessage_from_py_exception (tb_formatted lines) hint
       warning_length = Ok (head ++ trunc ++ tail)%string
     /\ size (head ++ trunc ++ tail) = warning_length - 20
     /\ exists skipped,
          (String.concat "" lines ++ hint)%string = (skipped ++ tail)%string)
  /\ (warning_length < size head + 37 ->
      conditionMessage_from_py_exception (tb_formatted lines) hint
        warning_length = Err std_out_of_range).
Proof.
  intros Hc Hs Hl.
  rewrite (conditionMessage_over_cap lines hint warning_length Hc Hs).
  split; intros Hh.
  - destruct (truncate_middle_fits _ head warning_length Hc Hs Hl Hh)
      as (tail & T & S & K & _).
    exists tail; repeat split; assumption.
  - apply (truncate_middle_throws _ head warning_length Hc Hs Hl Hh).
Qed.

Lemma conditionMessage_cut_in_the_middle_witness :
  exists tail,
    conditionMessage_from_py_exception (tb_formatted three_lines) example_hint
      100
    = Ok (("ValueError: bad" ++ nl ++ "line two" ++ nl) ++ trunc ++ tail)%string
    /\ size (("ValueError: bad" ++ nl ++ "line two" ++ nl) ++ trunc ++ tail)
       = 100 - 20
    /\ exists skipped,
         (String.concat "" three_lines ++ example_hint)%string
         = (skipped ++ tail)%string.
Proof.
  assert (E : size (String.concat "" three_lines ++ example_hint) = 171)
    by (vm_compute; reflexivity).
  apply (proj1 (conditionMessage_cut_in_the_middle three_lines example_hint
                  ("ValueError: bad" ++ nl ++ "line two" ++ nl) 100
                  ltac:(rewrite E; lia) ltac:(rewrite E; lia) eq_refl)).
  vm_compute; discriminate.
Defined.

(** X2 -- [conditionMessage_from_py_exception], a message longer than the
    cap with fewer than two newlines: nothing of its beginning is kept.
    The result is the marker followed by the last [warning_length - 37]
    bytes of the message, [warning_length - 20] bytes in all. *)
Theorem conditionMessage_without_two_lines (lines : list string)
    (hint : string) (warning_length : Z) :
  37 <= warning_length < size (String.concat "" lines ++ hint) ->
  size (String.concat "" lines ++ hint) < 2 ^ 31 ->
  first_two_lines (String.concat "" lines ++ hint) = None ->
  exists tail,
    conditionMessage_from_py_exception (tb_formatted lines) hint warning_length
    = Ok (trunc ++ tail)%string
    /\ size tail = warning_length - 37
    /\ size (trunc ++ tail) = warning_length - 20
    /\ exists skipped,
         (String.concat "" lines ++ hint)%string = (skipped ++ tail)%string.
Proof.
  intros Hc Hs Hl.
  rewrite (conditionMessage_over_cap lines hint warning_length)
    by (try exact Hs; lia).
  rewrite (truncate_middle_headless _ warning_length Hc Hs Hl).
  set (error := (String.concat "" lines ++ hint)%string) in *.
  set (p := Z.to_nat (size error - warning_length + 37)).
  assert (T : size (drop p error) = warning_length - 37).
  { unfold size; rewrite length_drop; subst p; unfold size in *; lia. }
  exists (drop p error); split; [reflexivity |].
  split; [exact T |].
  split; [rewrite size_append, T; change (size trunc) with 17; lia |].
  exists (take p error); symmetry; apply take_drop.
Qed.

Lemma conditionMessage_without_two_lines_witness :
  exists tail,
    conditionMessage_from_py_exception (tb_formatted one_long_line)
      example_hint 100
    = Ok (trunc ++ tail)%string
    /\ size tail = 100 - 37
    /\ size (trunc ++ tail) = 100 - 20
    /\ exists skipped,
         (String.concat "" one_long_line ++ example_hint)%string
         = (skipped ++ tail)%string.
Proof.
  assert (E : size (String.concat "" one_long_line ++ example_hint) = 196)
    by (vm_compute; reflexivity).
  apply (conditionMessage_without_two_lines one_long_line example_hint 100
           ltac:(rewrite E; lia) ltac:(rewrite E; lia) eq_refl).
Defined.

(** X3 -- [conditionMessage_from_py_exception] never returns a message
    longer than the cap: for formatted lines and a cap that is a
    non-negative [int], a returned message has at most [warning_length]
    bytes. *)
Theorem conditionMessage_fits_the_cap (lines : list string) (hint msg : string)
    (warning_length : Z) :
  0 <= warning_length < 2 ^ 31 ->
  size (String.concat "" lines ++ hint) < 2 ^ 31 ->
  conditionMessage_from_py_exception (tb_formatted lines) hint warning_length
  = Ok msg ->
  size msg <= warning_length.
Proof.
  intros Hw Hs.
  destruct (Z.ltb_spec warning_length (size (String.concat "" lines ++ hint)))
    as [Hlt | Hge].
  - rewrite (conditionMessage_over_cap lines hint warning_length)
      by (try exact Hs; lia).
    set (error := (String.concat "" lines ++ hint)%string) in *.
    destruct (first_two_lines error) as [head |] eqn:Hl.
    + destruct (Z.le_gt_cases (size head + 37) warning_length) as [Hh | Hh].
      * destruct (truncate_middle_fits error head warning_length
                    ltac:(lia) Hs Hl Hh) as (tail & T & S & _).
        rewrite T; intros M.
        assert (E : (head ++ trunc ++ tail)%string = msg) by congruence.
        rewrite <- E; lia.
      * rewrite (proj2 (truncate_middle_throws error head warning_length
                          ltac:(lia) Hs Hl Hh)); discriminate.
    + destruct (Z.le_gt_cases 37 warning_length) as [Hh | Hh].
      * rewrite (truncate_middle_headless error warning_length
                   ltac:(lia) Hs Hl).
        intros M.
        assert (E : (trunc ++ drop (Z.to_nat (size error - warning_length + 37))
                                  error)%string = msg) by congruence.
        rewrite <- E, size_append; change (size trunc) with 17.
        unfold size at 1; rewrite length_drop; unfold size in *; lia.
      * rewrite (truncate_middle_short_cap error warning_length)
          by (try assumption; lia).
        discriminate.
  - unfold conditionMessage_from_py_exception; cbv zeta.
    rewrite to_size_t_small by lia.
    destruct (Z.ltb_spec warning_length
                (size (String.concat "" lines ++ hint))); [lia |].
    intros M.
    assert (E : (String.concat "" lines ++ hint)%string = msg) by congruence.
    rewrite <- E; exact Hge.
Qed.

Lemma conditionMessage_fits_the_cap_witness :
  conditionMessage_from_py_exception (tb_formatted one_long_line) example_hint
    100
  = Ok (trunc ++ drop 133 (String.concat "" one_long_line ++ example_hint))%string
  /\ size (trunc ++ drop 133 (String.concat "" one_long_line ++ example_hint))
     <= 100.
Proof.
  assert (H : conditionMessage_from_py_exception (tb_formatted one_long_line)
                example_hint 100
              = Ok (trunc ++ drop 133 (String.concat "" one_long_line
                                        ++ example_hint))%string)
    by (vm_compute; reflexivity).
  split; [exact H |].
  apply (conditionMessage_fits_the_cap one_long_line example_hint _ 100);
    [lia | vm_compute; reflexivity | exact H].
Defined.

(** ** Narrowing, applied twice *)

(** [a =? b = false] for the labels at two places of the [switch]. *)
Ltac kinds_neq ND i j :=
  apply (labels_neq i j); try reflexivity; [exact ND | discriminate].

Ltac kinds_differ ND i j := apply Z.eqb_neq; kinds_neq ND i j.

(** X4 -- [narrow_array_typenum] is not idempotent.  Every kind it returns
    is returned unchanged when narrowed again, except NPY_LONG: the kind
    the small integer kinds narrow to is itself narrowed to NPY_DOUBLE. *)
Theorem narrowing_twice {K : NPY_TYPES} (t k : Z) :
  NoDup case_labels ->
  narrow_array_typenum t = Ok k ->
  narrow_array_typenum k = Ok (if k =? NPY_LONG then NPY_DOUBLE else k).
Proof.
  intros ND; unfold narrow_array_typenum at 1.
  destruct (case_of logical_kinds t).
  { intros H; injection H as <-.
    assert (E : (NPY_BOOL =? NPY_LONG) = false) by kinds_differ ND 0%nat 9%nat.
    rewrite E; apply narrow_logical_kinds; simpl; auto. }
  destruct (case_of integer_kinds t).
  { intros H; injection H as <-.
    rewrite Z.eqb_refl; apply (narrow_double_kinds ND); simpl; auto 10. }
  destruct (case_of double_kinds t).
  { intros H; injection H as <-.
    assert (E : (NPY_DOUBLE =? NPY_LONG) = false) by kinds_differ ND 13%nat 9%nat.
    rewrite E; apply (narrow_double_kinds ND); simpl; auto 10. }
  destruct (case_of complex_kinds t).
  { intros H; injection H as <-.
    assert (E : (NPY_CDOUBLE =? NPY_LONG) = false)
      by kinds_differ ND 15%nat 9%nat.
    rewrite E; apply (narrow_complex_kinds ND); simpl; auto. }
  destruct (case_of structural_kinds t) eqn:S; [| discriminate].
  intros H; injection H as <-.
  apply case_of_In in S.
  assert (E : (t =? NPY_LONG) = false).
  { apply Z.eqb_neq; intros ->.
    assert (F : case_of structural_kinds NPY_LONG = false)
      by other_group ND 9%nat.
    apply case_of_not_In in F; exact (F S). }
  rewrite E; apply (narrow_structural_kinds ND), S.
Qed.

Lemma narrowing_twice_witness :
  @narrow_array_typenum numpy_abi 5 = Ok 7
  /\ @narrow_array_typenum numpy_abi 7 = Ok 12.
Proof.
  split; [reflexivity |].
  apply (@narrowing_twice numpy_abi 5 7 numpy_abi_distinct eq_refl).
Defined.

(** ** NumPy scalars *)

Section ArrayScalars.

Context {RT : Runtime}.
Hypothesis labels_distinct : NoDup case_labels.
Hypothesis numpy_loaded : s_numpy_loaded = true.

Variables (ty : PyTypeObject) (attrs : list (string * PyObject)).
Variables (t : Z) (item : npy_item) (convert : bool).

(** A NumPy scalar of a kind that does not narrow to a string kind passes
    every test before [isPyArrayScalar]. *)
Lemma py_to_r_array_scalar (k : Z) :
  narrow_array_typenum t = Ok k ->
  k <> NPY_STRING -> k <> NPY_UNICODE ->
  py_to_r (mkPyObject ty attrs (VArrayScalar t item)) convert
  = py_array_scalar_to_r (mkPyObject ty attrs (VArrayScalar t item)).
Proof.
  intros N S U; rewrite py_to_r_eq; unfold py_to_r_chain.
  assert (A : isPyArrayScalar (mkPyObject ty attrs (VArrayScalar t item))
              = true).
  { unfold isPyArrayScalar, haveNumPy; rewrite numpy_loaded; reflexivity. }
  assert (R : r_scalar_type (mkPyObject ty attrs (VArrayScalar t item))
              = Ok NILSXP).
  { unfold r_scalar_type, is_python_str, is_numpy_str.
    cbn [PyBool_Check PyInt_Check PyLong_Check PyFloat_Check PyComplex_Check
         PyUnicode_Check PyString_Check ob_val orb andb].
    rewrite andb_false_r, A.
    cbn [negb descr_type_num ob_val]; rewrite N; cbn [bind].
    rewrite (proj2 (Z.eqb_neq k NPY_STRING) S),
            (proj2 (Z.eqb_neq k NPY_UNICODE) U); reflexivity. }
  rewrite R; cbn [bind SEXPTYPE_eqb negb py_is_none ob_val].
  rewrite A.
  unfold isPyArray, haveNumPy; rewrite numpy_loaded; reflexivity.
Qed.

End ArrayScalars.

(** X5 -- NumPy scalars in [py_to_r].  With NumPy loaded, a NumPy scalar
    whose kind is listed in the narrowing table as logical, small integer,
    double (this includes NPY_LONG and NPY_LONGLONG) or complex converts to
    a length-1 logical, integer, double or complex vector without
    attributes; a scalar of kind NPY_OBJECT raises "Unsupported array
    conversion from <kind>"; a scalar of a kind outside the table raises
    the error of [narrow_array_typenum]. *)
Theorem numpy_scalar_to_r {RT : Runtime} (ty : PyTypeObject)
    (attrs : list (string * PyObject)) (t : Z) (item : npy_item)
    (convert : bool) :
  NoDup case_labels -> s_numpy_loaded = true ->
  (In t logical_kinds ->
   exists v, py_to_r (mkPyObject ty attrs (VArrayScalar t item)) convert
             = Ok (LogicalVector [v]))
  /\ (In t integer_kinds ->
      exists v, py_to_r (mkPyObject ty attrs (VArrayScalar t item)) convert
                = Ok (IntegerVector [v]))
  /\ (In t double_kinds ->
      exists v, py_to_r (mkPyObject ty attrs (VArrayScalar t item)) convert
                = Ok (NumericVector [v]))
  /\ (In t complex_kinds ->
      exists v, py_to_r (mkPyObject ty attrs (VArrayScalar t item)) convert
                = Ok (ComplexVector [v]))
  /\ (t = NPY_OBJECT ->
      py_to_r (mkPyObject ty attrs (VArrayScalar t item)) convert
      = Err (Rcpp_stop ("Unsupported array conversion from " ++ fmt_d t)%string))
  /\ (~ In t case_labels ->
      py_to_r (mkPyObject ty attrs (VArrayScalar t item)) convert
      = Err (Rcpp_stop ("Conversion from numpy array type " ++ fmt_d t
                        ++ " is not supported")%string)).
Proof.
  intros ND NP.
  assert (BL : (NPY_BOOL =? NPY_LONG) = false) by kinds_differ ND 0%nat 9%nat.
  assert (LB : (NPY_LONG =? NPY_BOOL) = false) by kinds_differ ND 9%nat 0%nat.
  assert (DB : (NPY_DOUBLE =? NPY_BOOL) = false) by kinds_differ ND 13%nat 0%nat.
  assert (DL : (NPY_DOUBLE =? NPY_LONG) = false) by kinds_differ ND 13%nat 9%nat.
  assert (CB : (NPY_CDOUBLE =? NPY_BOOL) = false)
    by kinds_differ ND 15%nat 0%nat.
  assert (CL : (NPY_CDOUBLE =? NPY_LONG) = false)
    by kinds_differ ND 15%nat 9%nat.
  assert (CD : (NPY_CDOUBLE =? NPY_DOUBLE) = false)
    by kinds_differ ND 15%nat 13%nat.
  assert (OB : (NPY_OBJECT =? NPY_BOOL) = false) by kinds_differ ND 18%nat 0%nat.
  assert (OL : (NPY_OBJECT =? NPY_LONG) = false) by kinds_differ ND 18%nat 9%nat.
  assert (OD : (NPY_OBJECT =? NPY_DOUBLE) = false)
    by kinds_differ ND 18%nat 13%nat.
  assert (OC : (NPY_OBJECT =? NPY_CDOUBLE) = false)
    by kinds_differ ND 18%nat 15%nat.
  split; [| split; [| split; [| split; [| split]]]].
  - intros H.
    rewrite (py_to_r_array_scalar NP ty attrs t item convert NPY_BOOL)
      by first [ apply narrow_logical_kinds, H | kinds_neq ND 0%nat 16%nat
                  | kinds_neq ND 0%nat 17%nat ].
    unfold py_array_scalar_to_r; cbn [descr_type_num ob_val].
    rewrite (narrow_logical_kinds t H); cbn [bind]; rewrite Z.eqb_refl.
    eexists; reflexivity.
  - intros H.
    rewrite (py_to_r_array_scalar NP ty attrs t item convert NPY_LONG)
      by first [ apply (narrow_integer_kinds ND), H | kinds_neq ND 9%nat 16%nat
                  | kinds_neq ND 9%nat 17%nat ].
    unfold py_array_scalar_to_r; cbn [descr_type_num ob_val].
    rewrite (narrow_integer_kinds ND t H); cbn [bind].
    rewrite LB, Z.eqb_refl; eexists; reflexivity.
  - intros H.
    rewrite (py_to_r_array_scalar NP ty attrs t item convert NPY_DOUBLE)
      by first [ apply (narrow_double_kinds ND), H | kinds_neq ND 13%nat 16%nat
                  | kinds_neq ND 13%nat 17%nat ].
    unfold py_array_scalar_to_r; cbn [descr_type_num ob_val].
    rewrite (narrow_double_kinds ND t H); cbn [bind].
    rewrite DB, DL, Z.eqb_refl; eexists; reflexivity.
  - intros H.
    rewrite (py_to_r_array_scalar NP ty attrs t item convert NPY_CDOUBLE)
      by first [ apply (narrow_complex_kinds ND), H | kinds_neq ND 15%nat 16%nat
                  | kinds_neq ND 15%nat 17%nat ].
    unfold py_array_scalar_to_r; cbn [descr_type_num ob_val].
    rewrite (narrow_complex_kinds ND t H); cbn [bind].
    rewrite CB, CL, CD, Z.eqb_refl; eexists; reflexivity.
  - intros ->.
    assert (N : narrow_array_typenum NPY_OBJECT = Ok NPY_OBJECT)
      by (apply (narrow_structural_kinds ND); simpl; auto).
    rewrite (py_to_r_array_scalar NP ty attrs NPY_OBJECT item convert
               NPY_OBJECT)
      by first [ exact N | kinds_neq ND 18%nat 16%nat
                  | kinds_neq ND 18%nat 17%nat ].
    unfold py_array_scalar_to_r; cbn [descr_type_num ob_val].
    rewrite N; cbn [bind]; rewrite OB, OL, OD, OC; reflexivity.
  - intros H.
    rewrite py_to_r_eq; unfold py_to_r_chain.
    cbn [py_is_none ob_val].
    unfold r_scalar_type, is_python_str, is_numpy_str, isPyArrayScalar,
      haveNumPy.
    cbn [PyBool_Check PyInt_Check PyLong_Check PyFloat_Check PyComplex_Check
         PyUnicode_Check PyString_Check ob_val orb andb].
    rewrite andb_false_r, NP.
    cbn [negb descr_type_num ob_val].
    rewrite (narrow_unsupported t H); reflexivity.
Qed.

Lemma numpy_scalar_to_r_witness :
  (exists v, @py_to_r example_runtime
               (mkPyObject (builtin_type "int64" []) [] (VArrayScalar 7 (elem_num 5)))
               true = Ok (NumericVector [v]))
  /\ @py_to_r example_runtime
       (mkPyObject (builtin_type "object_" []) [] (VArrayScalar 17 (elem_num 0)))
       true = Err (Rcpp_stop "Unsupported array conversion from 17").
Proof.
  destruct (@numpy_scalar_to_r example_runtime (builtin_type "int64" []) []
              7 (elem_num 5) true numpy_abi_distinct eq_refl)
    as (_ & _ & D & _).
  destruct (@numpy_scalar_to_r example_runtime (builtin_type "object_" []) []
              17 (elem_num 0) true numpy_abi_distinct eq_refl)
    as (_ & _ & _ & _ & O & _).
  split; [apply D; vm_compute; tauto | apply O; reflexivity].
Defined.

(** ** What [py_fetch_error] guarantees *)

Section FetchFacts.

Context {RT : Runtime}.

Lemma with_trace_and_call_has_both (R : R_frames) (reuse : bool)
    (exc : PyObject) :
  PyObject_HasAttrString (with_trace_and_call R reuse exc) "call" = true
  /\ PyObject_HasAttrString (with_trace_and_call R reuse exc) "trace" = true.
Proof.
  unfold with_trace_and_call.
  set (exc1 := if negb (PyObject_HasAttrString exc "trace")
               then PyObject_SetAttrString exc "trace"
                      (py_capsule_new (get_r_trace R reuse))
               else exc).
  assert (T : PyObject_HasAttrString exc1 "trace" = true).
  { subst exc1; destruct (PyObject_HasAttrString exc "trace") eqn:E;
      cbn [negb]; [exact E | apply HasAttr_SetAttr_same]. }
  destruct (PyObject_HasAttrString exc1 "call") eqn:C; cbn [negb].
  - split; [exact C | exact T].
  - split; [apply HasAttr_SetAttr_same |].
    rewrite HasAttr_SetAttr_other by discriminate; exact T.
Qed.

Lemma with_trace_and_call_annotated (R : R_frames) (reuse : bool)
    (exc : PyObject) :
  PyObject_HasAttrString exc "call" = true ->
  PyObject_HasAttrString exc "trace" = true ->
  with_trace_and_call R reuse exc = exc.
Proof.
  intros C T; unfold with_trace_and_call; rewrite T; cbn [negb].
  rewrite C; reflexivity.
Qed.

Lemma with_trace_and_call_same_object (R : R_frames) (reuse : bool)
    (exc : PyObject) :
  ob_type (with_trace_and_call R reuse exc) = ob_type exc
  /\ ob_val (with_trace_and_call R reuse exc) = ob_val exc.
Proof.
  unfold with_trace_and_call.
  destruct (negb (PyObject_HasAttrString exc "trace"));
    match goal with
    | |- context [if negb ?b then _ else _] => destruct (negb b)
    end; split; reflexivity.
Qed.

(** A chain without annotations leaves the exception as it is, and the
    failed lookups in the indicator. *)
Lemma forward_r_trace_unannotated (excValue excValue_tmp : PyObject)
    (err : PyErr) :
  chain_unannotated excValue_tmp ->
  forward_r_trace excValue excValue_tmp err
  = (excValue, AttributeError_raised).
Proof.
  intros U; revert err.
  induction U as [exc C | exc context C Hc Ht _ IH]; intros err;
    rewrite forward_r_trace_eq, C; [reflexivity |].
  cbv zeta; rewrite Hc, Ht; cbn [is_some orb]; apply IH.
Qed.

Lemma chain_unannotated_same_link (exc exc' : PyObject) :
  assoc "__context__" (ob_attrs exc') = assoc "__context__" (ob_attrs exc) ->
  chain_unannotated exc -> chain_unannotated exc'.
Proof.
  intros E H; inversion H as [? C | ? context C Hc Ht N]; subst.
  - apply chain_ends; rewrite E; exact C.
  - apply (chain_goes_on exc' context);
      [rewrite E; exact C | exact Hc | exact Ht | exact N].
Qed.

(** Whatever the chain, the walk only sets [call] and [trace] on the
    fetched exception, and leaves in the indicator what it found there or
    a failed lookup. *)
Lemma forward_r_trace_invariant :
  forall (excValue_tmp excValue : PyObject) (err : PyErr),
    (exists c t,
        fst (forward_r_trace excValue excValue_tmp err)
        = set_if_found (set_if_found excValue "call" c) "trace" t)
    /\ (snd (forward_r_trace excValue excValue_tmp err) = err
        \/ snd (forward_r_trace excValue excValue_tmp err)
           = AttributeError_raised).
Proof.
  fix IH 1.
  intros [ty attrs v] excValue err.
  cbn [forward_r_trace ob_attrs].
  induction attrs as [| [k context] attrs IHl].
  - split; [exists None, None; reflexivity | right; reflexivity].
  - destruct (String.eqb k "__context__"); [| exact IHl].
    cbv zeta.
    destruct (is_some (PyObject_GetAttrString context "call")
              || is_some (PyObject_GetAttrString context "trace")) eqn:A.
    + split; [eexists; eexists; reflexivity |].
      cbn [snd]; unfold after_GetAttrString.
      destruct (PyObject_GetAttrString context "call"),
               (PyObject_GetAttrString context "trace"); auto.
    + apply orb_false_elim in A as (Hc & Ht).
      destruct (PyObject_GetAttrString context "call") eqn:Gc;
        [discriminate |].
      destruct (PyObject_GetAttrString context "trace") eqn:Gt;
        [discriminate |].
      cbn [set_if_found].
      assert (F : after_GetAttrString context "trace"
                    (after_GetAttrString context "call" err)
                  = AttributeError_raised)
        by (unfold after_GetAttrString; rewrite Gc, Gt; reflexivity).
      rewrite F.
      destruct (IH context excValue AttributeError_raised) as (S & [E | E]);
        (split; [exact S | right; exact E]).
Qed.

Lemma set_if_found_same_object (x : PyObject) (name : string)
    (found : option PyObject) :
  ob_type (set_if_found x name found) = ob_type x
  /\ ob_val (set_if_found x name found) = ob_val x.
Proof. destruct found; split; reflexivity. Qed.

(** The exception [py_fetch_error] wraps is the fetched one, with more
    attributes; the indicator holds nothing or a failed lookup. *)
Lemma fetched_exception_invariant (R : R_frames) (reuse : bool)
    (excValue : PyObject) (excTraceback : option PyObject) :
  ob_type (fst (fetched_exception R reuse excValue excTraceback))
  = ob_type excValue
  /\ ob_val (fst (fetched_exception R reuse excValue excTraceback))
     = ob_val excValue
  /\ PyObject_HasAttrString
       (fst (fetched_exception R reuse excValue excTraceback)) "call" = true
  /\ PyObject_HasAttrString
       (fst (fetched_exception R reuse excValue excTraceback)) "trace" = true
  /\ (snd (fetched_exception R reuse excValue excTraceback) = None
      \/ snd (fetched_exception R reuse excValue excTraceback)
         = AttributeError_raised).
Proof.
  rewrite fetched_exception_eq; cbv zeta; cbn [fst snd].
  set (exc0 := with_traceback excValue excTraceback).
  assert (O0 : ob_type exc0 = ob_type excValue
               /\ ob_val exc0 = ob_val excValue).
  { subst exc0; unfold with_traceback.
    destruct excTraceback; [destruct s_isPython3 |]; split; reflexivity. }
  set (walk := if negb (PyObject_HasAttrString exc0 "call")
               then forward_r_trace exc0 exc0 None else (exc0, None)).
  assert (W : (ob_type (fst walk) = ob_type excValue
               /\ ob_val (fst walk) = ob_val excValue)
              /\ (snd walk = None \/ snd walk = AttributeError_raised)).
  { subst walk; destruct (negb (PyObject_HasAttrString exc0 "call"));
      [| split; [exact O0 | left; reflexivity]].
    destruct (forward_r_trace_invariant exc0 exc0 None)
      as ((c & t & S) & E).
    rewrite S; split; [| exact E].
    destruct (set_if_found_same_object
                (set_if_found exc0 "call" c) "trace" t) as (-> & ->).
    destruct (set_if_found_same_object exc0 "call" c) as (-> & ->).
    exact O0. }
  destruct W as ((Wt & Wv) & We).
  destruct (with_trace_and_call_has_both R reuse (fst walk)) as (C & T).
  split; [| split; [| split; [exact C | split; [exact T |]]]].
  - rewrite <- Wt; apply with_trace_and_call_same_object.
  - rewrite <- Wv; apply with_trace_and_call_same_object.
  - destruct (PyObject_HasAttrString (fst walk) "trace"
              && PyObject_HasAttrString (fst walk) "call");
      [exact We | left; reflexivity].
Qed.

(** The fetch inside [py_class_names]: the SystemError is new, the only
    exception on its chain is the failed lookup, and nothing is pending
    when it is wrapped. *)
Lemma fetched_SystemError (R : R_frames) :
  fetched_exception R false (SystemError_from AttributeError_raised) None
  = (with_trace_and_call R false (SystemError_from AttributeError_raised),
     None).
Proof.
  reflexivity.
Qed.

(** The branch of [py_fetch_error] that throws from [py_ref]. *)
Lemma py_fetch_error_pending (st : session) (R : R_frames) (reuse : bool)
    (excValue : PyObject) (excTraceback : option PyObject)
    (exc : PyObject) :
  python_interrupts_pending st = false ->
  error_indicator st = Some (excValue, excTraceback) ->
  fetched_exception R reuse excValue excTraceback
  = (exc, AttributeError_raised) ->
  py_fetch_error st R reuse
  = if call_results_checked then
      (mkSession (interrupts_pending st) false None
         (Some (py_ref (with_trace_and_call R false
                          (SystemError_from AttributeError_raised)) true ""))
         (if flush_std_buffers R =? -1
          then warnings st ++ [flush_warning] else warnings st),
       Err PythonException)
    else
      (mkSession (interrupts_pending st) false AttributeError_raised
         (Some (py_ref exc true ""))
         (if flush_std_buffers R =? -1
          then warnings st ++ [flush_warning] else warnings st),
       Ok (py_ref exc true "")).
Proof.
  intros I E F; unfold py_fetch_error; rewrite I, E, F.
  unfold py_ref_with, AttributeError_raised at 1.
  destruct call_results_checked; [| reflexivity].
  fold AttributeError_raised; rewrite fetched_SystemError; reflexivity.
Qed.

(** A condition [py_fetch_error] returns wraps an exception that has a
    call and a trace. *)
Lemma returned_condition_is_annotated (st : session) (R : R_frames)
    (reuse : bool) (cond : SEXP) :
  snd (py_fetch_error st R reuse) = Ok cond ->
  exists exc,
    cond = py_ref exc true ""
    /\ PyObject_HasAttrString exc "call" = true
    /\ PyObject_HasAttrString exc "trace" = true.
Proof.
  unfold py_fetch_error.
  destruct (python_interrupts_pending st); [discriminate |].
  destruct (error_indicator st) as [[excValue excTraceback] |];
    [| discriminate].
  destruct (fetched_exception_invariant R reuse excValue excTraceback)
    as (_ & _ & C & T & _).
  destruct (fetched_exception R reuse excValue excTraceback) as [exc err].
  cbn [fst] in C, T.
  unfold py_ref_with.
  destruct err; [destruct call_results_checked |]; cbn [snd];
    try (destruct (fetched_exception R false _ None); discriminate);
    intros H; exists exc; (split; [congruence | split; assumption]).
Qed.

End FetchFacts.

(** X6 -- what a call of [py_fetch_error] leaves behind.  The
    Python-interrupt flag is cleared.  The function throws the interrupt
    exception exactly when a Python interrupt was pending, and stops with
    "Unknown Python error." exactly when none was pending and no error was
    set.  A condition it returns is published as the last exception and
    wraps, with [convert = true], the fetched exception object, which then
    has both a [call] and a [trace] attribute; under an interpreter that
    checks the results of calls the error indicator is then clear.  When
    it throws, the indicator is clear; only the Python exception, which
    such an interpreter causes, changes the last exception, to the
    condition of a SystemError carrying a call and a trace; the other two
    leave the last exception and the warnings untouched. *)
Theorem py_fetch_error_postcondition {RT : Runtime} (st : session)
    (R : R_frames) (maybe_reuse_cached_r_trace : bool) :
  python_interrupts_pending
    (fst (py_fetch_error st R maybe_reuse_cached_r_trace)) = false
  /\ (snd (py_fetch_error st R maybe_reuse_cached_r_trace)
      = Err InterruptedException
      <-> python_interrupts_pending st = true)
  /\ (snd (py_fetch_error st R maybe_reuse_cached_r_trace)
      = Err (Rcpp_stop "Unknown Python error.")
      <-> (python_interrupts_pending st = false
           /\ error_indicator st = None))
  /\ (forall cond,
        snd (py_fetch_error st R maybe_reuse_cached_r_trace) = Ok cond ->
        py_last_exception
          (fst (py_fetch_error st R maybe_reuse_cached_r_trace)) = Some cond
        /\ (call_results_checked = true ->
            error_indicator
              (fst (py_fetch_error st R maybe_reuse_cached_r_trace)) = None)
        /\ exists excValue excTraceback exc,
             python_interrupts_pending st = false
             /\ error_indicator st = Some (excValue, excTraceback)
             /\ cond = py_ref exc true ""
             /\ ob_type exc = ob_type excValue
             /\ ob_val exc = ob_val excValue
             /\ PyObject_HasAttrString exc "call" = true
             /\ PyObject_HasAttrString exc "trace" = true)
  /\ (forall e,
        snd (py_fetch_error st R maybe_reuse_cached_r_trace) = Err e ->
        error_indicator
          (fst (py_fetch_error st R maybe_reuse_cached_r_trace)) = None
        /\ (e <> PythonException ->
            py_last_exception
              (fst (py_fetch_error st R maybe_reuse_cached_r_trace))
            = py_last_exception st
            /\ warnings (fst (py_fetch_error st R maybe_reuse_cached_r_trace))
               = warnings st)
        /\ (e = PythonException ->
            call_results_checked = true
            /\ exists sys,
                 py_last_exception
                   (fst (py_fetch_error st R maybe_reuse_cached_r_trace))
                 = Some (py_ref sys true "")
                 /\ ob_type sys = exception_type "SystemError"
                 /\ PyObject_HasAttrString sys "call" = true
                 /\ PyObject_HasAttrString sys "trace" = true)).
Proof.
  destruct (python_interrupts_pending st) eqn:I.
  { unfold py_fetch_error; rewrite I; cbn [fst snd error_indicator
      python_interrupts_pending py_last_exception warnings].
    split; [reflexivity |].
    split; [split; reflexivity |].
    split; [split; [discriminate | intros (F & _); discriminate F] |].
    split; [discriminate |].
    intros e H; assert (E : e = InterruptedException) by congruence.
    subst e; split; [reflexivity |].
    split; [intros _; split; reflexivity | discriminate]. }
  destruct (error_indicator st) as [[excValue excTraceback] |] eqn:E.
  - destruct (fetched_exception_invariant R maybe_reuse_cached_r_trace
                excValue excTraceback) as (Ot & Ov & C & T & P).
    destruct (fetched_exception R maybe_reuse_cached_r_trace excValue
                excTraceback) as [exc err] eqn:F.
    cbn [fst snd] in Ot, Ov, C, T, P.
    destruct P as [-> | ->].
    + rewrite (py_fetch_error_fetched st R maybe_reuse_cached_r_trace
                 excValue excTraceback exc I E F).
      cbn [fst snd error_indicator python_interrupts_pending
           py_last_exception warnings].
      split; [reflexivity |].
      split; [split; discriminate |].
      split; [split; [discriminate | intros (_ & N); discriminate N] |].
      split; [| discriminate].
      intros cond H; assert (Ec : cond = py_ref exc true "") by congruence.
      subst cond; split; [reflexivity |].
      split; [reflexivity |].
      exists excValue, excTraceback, exc; repeat split; assumption.
    + rewrite (py_fetch_error_pending st R maybe_reuse_cached_r_trace
                 excValue excTraceback exc I E F).
      destruct call_results_checked;
        cbn [fst snd error_indicator python_interrupts_pending
             py_last_exception warnings].
      * split; [reflexivity |].
        split; [split; discriminate |].
        split; [split; [discriminate | intros (_ & N); discriminate N] |].
        split; [discriminate |].
        intros e H; assert (Ee : e = PythonException) by congruence.
        subst e; split; [reflexivity |].
        split; [intros N; exfalso; apply N; reflexivity |].
        intros _; split; [reflexivity |].
        eexists; split; [reflexivity |].
        destruct (with_trace_and_call_has_both R false
                    (SystemError_from AttributeError_raised)) as (Cs & Ts).
        split; [| split; [exact Cs | exact Ts]].
        apply with_trace_and_call_same_object.
      * split; [reflexivity |].
        split; [split; discriminate |].
        split; [split; [discriminate | intros (_ & N); discriminate N] |].
        split; [| discriminate].
        intros cond H; assert (Ec : cond = py_ref exc true "") by congruence.
        subst cond; split; [reflexivity |].
        split; [discriminate |].
        exists excValue, excTraceback, exc; repeat split; assumption.
  - unfold py_fetch_error; rewrite I, E; cbn [fst snd error_indicator
      python_interrupts_pending py_last_exception warnings].
    split; [reflexivity |].
    split; [split; discriminate |].
    split; [split; [intros _; split; reflexivity | reflexivity] |].
    split; [discriminate |].
    intros e H.
    assert (Ee : e = Rcpp_stop "Unknown Python error.") by congruence.
    subst e; split; [reflexivity |].
    split; [intros _; split; reflexivity | discriminate].
Qed.

(** X7 -- a first fetch.  When neither the fetched exception nor any
    exception on its [__context__] chain carries a [call] or a [trace],
    [py_fetch_error] attaches to it a capsule holding the current R call
    and a capsule holding the R trace it asked for with the flag it was
    given; each capsule converts back to the R object it holds. *)
Theorem py_fetch_error_fresh_capture {RT : Runtime} (st : session)
    (R : R_frames) (maybe_reuse_cached_r_trace : bool)
    (excValue : PyObject) (excTraceback : option PyObject) :
  python_interrupts_pending st = false ->
  error_indicator st = Some (excValue, excTraceback) ->
  PyObject_HasAttrString excValue "call" = false ->
  PyObject_HasAttrString excValue "trace" = false ->
  chain_unannotated excValue ->
  exists cond exc r_call r_trace,
    snd (py_fetch_error st R maybe_reuse_cached_r_trace) = Ok cond
    /\ sx_val cond = RPyObjectRef exc true
    /\ PyObject_GetAttrString exc "call" = Some r_call
    /\ PyObject_GetAttrString exc "trace" = Some r_trace
    /\ py_to_r r_call true = Ok (get_current_call R)
    /\ py_to_r r_trace true
       = Ok (get_r_trace R maybe_reuse_cached_r_trace).
Proof.
  intros I E C T U.
  set (exc0 := with_traceback excValue excTraceback).
  assert (C0 : PyObject_HasAttrString exc0 "call" = false)
    by (subst exc0; rewrite with_traceback_HasAttr by discriminate; exact C).
  assert (T0 : PyObject_HasAttrString exc0 "trace" = false)
    by (subst exc0; rewrite with_traceback_HasAttr by discriminate; exact T).
  assert (U0 : chain_unannotated exc0).
  { apply (chain_unannotated_same_link excValue); [| exact U].
    apply with_traceback_context. }
  assert (F : fetched_exception R maybe_reuse_cached_r_trace excValue
                excTraceback
              = (with_trace_and_call R maybe_reuse_cached_r_trace exc0,
                 None)).
  { rewrite fetched_exception_eq; cbv zeta; fold exc0.
    rewrite C0; cbn [negb].
    rewrite (forward_r_trace_unannotated exc0 exc0 None U0).
    cbn [fst snd]; rewrite T0; reflexivity. }
  rewrite (py_fetch_error_fetched st R maybe_reuse_cached_r_trace
             excValue excTraceback _ I E F).
  cbn [snd].
  unfold with_trace_and_call; rewrite T0; cbn [negb].
  rewrite HasAttr_SetAttr_other by discriminate.
  rewrite C0; cbn [negb].
  eexists; eexists; eexists; eexists.
  split; [reflexivity |].
  split; [reflexivity |].
  split; [apply GetAttr_SetAttr_same |].
  split; [rewrite GetAttr_SetAttr_other by discriminate;
          apply GetAttr_SetAttr_same |].
  split; rewrite py_to_r_eq; unfold py_to_r_chain, r_scalar_type,
    is_python_str, is_numpy_str, isPyArrayScalar, isPyArray;
    cbn; destruct haveNumPy; cbn; rewrite ?andb_false_r; reflexivity.
Qed.

Lemma py_fetch_error_fresh_capture_witness :
  exists cond exc r_call r_trace,
    snd (@py_fetch_error example_runtime
           (session_raising example_plain_exception) example_frames true)
    = Ok cond
    /\ sx_val cond = RPyObjectRef exc true
    /\ @PyObject_GetAttrString exc "call" = Some r_call
    /\ @PyObject_GetAttrString exc "trace" = Some r_trace
    /\ @py_to_r example_runtime r_call true
       = Ok (get_current_call example_frames)
    /\ @py_to_r example_runtime r_trace true
       = Ok (get_r_trace example_frames true).
Proof.
  apply (@py_fetch_error_fresh_capture example_runtime
           (session_raising example_plain_exception) example_frames true
           example_plain_exception None); try reflexivity.
  eapply chain_goes_on; [reflexivity | reflexivity | reflexivity |].
  eapply chain_goes_on; [reflexivity | reflexivity | reflexivity |].
  apply chain_ends; reflexivity.
Defined.

(** X8 -- an exception keeps the R context of its first fetch.  When an
    exception object returned by [py_fetch_error] is raised and fetched
    again, at another place of the R call stack, its [call] and [trace]
    attributes are the ones the first fetch gave it. *)
Theorem refetched_exception_keeps_its_call_and_trace {RT : Runtime}
    (st1 st2 : session) (R1 R2 : R_frames) (reuse1 reuse2 : bool)
    (cond1 : SEXP) (exc1 : PyObject) (excTraceback : option PyObject) :
  snd (py_fetch_error st1 R1 reuse1) = Ok cond1 ->
  PyObjectRef_get cond1 = Ok exc1 ->
  python_interrupts_pending st2 = false ->
  error_indicator st2 = Some (exc1, excTraceback) ->
  exists cond2 exc2,
    snd (py_fetch_error st2 R2 reuse2) = Ok cond2
    /\ PyObjectRef_get cond2 = Ok exc2
    /\ PyObject_GetAttrString exc2 "call" = PyObject_GetAttrString exc1 "call"
    /\ PyObject_GetAttrString exc2 "trace"
       = PyObject_GetAttrString exc1 "trace".
Proof.
  intros F G I E.
  assert (A : PyObject_HasAttrString exc1 "call" = true
              /\ PyObject_HasAttrString exc1 "trace" = true).
  { destruct (returned_condition_is_annotated st1 R1 reuse1 cond1 F)
      as (exc & -> & C & T).
    cbn [PyObjectRef_get py_ref sx_val] in G.
    assert (Ee : exc = exc1) by congruence; subst exc.
    split; assumption. }
  destruct A as (C & T).
  set (exc0 := with_traceback exc1 excTraceback).
  assert (C0 : PyObject_HasAttrString exc0 "call" = true)
    by (subst exc0; rewrite with_traceback_HasAttr by discriminate; exact C).
  assert (T0 : PyObject_HasAttrString exc0 "trace" = true)
    by (subst exc0; rewrite with_traceback_HasAttr by discriminate; exact T).
  assert (F2 : fetched_exception R2 reuse2 exc1 excTraceback = (exc0, None)).
  { rewrite fetched_exception_eq; cbv zeta; fold exc0.
    rewrite C0; cbn [negb fst snd]; rewrite T0, C0; cbn [andb].
    rewrite (with_trace_and_call_annotated R2 reuse2 exc0 C0 T0).
    reflexivity. }
  rewrite (py_fetch_error_fetched st2 R2 reuse2 exc1 excTraceback exc0 I E F2).
  exists (py_ref exc0 true ""), exc0.
  split; [reflexivity |].
  split; [reflexivity |].
  subst exc0; split; apply with_traceback_GetAttr; discriminate.
Qed.

Lemma refetched_exception_keeps_its_call_and_trace_witness :
  exists cond2 exc2,
    snd (@py_fetch_error example_runtime
           (session_raising
              (with_trace_and_call example_frames false
                 example_plain_exception))
           (mkFrames (fun _ => R_NilValue) R_NilValue 0) false) = Ok cond2
    /\ PyObjectRef_get cond2 = Ok exc2
    /\ @PyObject_GetAttrString exc2 "call"
       = Some (py_capsule_new (get_current_call example_frames))
    /\ @PyObject_GetAttrString exc2 "trace"
       = Some (py_capsule_new (get_r_trace example_frames false)).
Proof.
  apply (@refetched_exception_keeps_its_call_and_trace example_runtime
           (session_raising example_plain_exception)
           (session_raising
              (with_trace_and_call example_frames false
                 example_plain_exception))
           example_frames (mkFrames (fun _ => R_NilValue) R_NilValue 0)
           false false
           (@py_ref example_runtime
              (with_trace_and_call example_frames false
                 example_plain_exception) true "")
           (with_trace_and_call example_frames false example_plain_exception)
           None); reflexivity.
Defined.

(** X30 -- an exception without annotations between the fetched exception
    and an annotated one.  When the [__context__] of the fetched exception
    carries neither a [call] nor a [trace] and the nearest annotated
    exception further down carries both, the two are copied onto the
    fetched exception, but the lookups that failed on the way leave an
    AttributeError in the error indicator, and nothing clears it.  Under
    an interpreter that checks the results of calls [py_ref] fails, and
    [py_fetch_error] throws a Python exception whose condition is that of
    a SystemError, not of the fetched exception; otherwise it returns the
    condition of the fetched exception and leaves the AttributeError
    pending. *)
Theorem unannotated_context_leaves_lookup_error {RT : Runtime} (st : session)
    (R : R_frames) (maybe_reuse_cached_r_trace : bool)
    (excValue context inner r_call r_trace : PyObject)
    (excTraceback : option PyObject) :
  python_interrupts_pending st = false ->
  error_indicator st = Some (excValue, excTraceback) ->
  PyObject_HasAttrString excValue "call" = false ->
  assoc "__context__" (ob_attrs excValue) = Some context ->
  PyObject_GetAttrString context "call" = None ->
  PyObject_GetAttrString context "trace" = None ->
  nearest_annotated_context context inner ->
  PyObject_GetAttrString inner "call" = Some r_call ->
  PyObject_GetAttrString inner "trace" = Some r_trace ->
  exists exc,
    exc = PyObject_SetAttrString
            (PyObject_SetAttrString (with_traceback excValue excTraceback)
               "call" r_call)
            "trace" r_trace
    /\ fetched_exception R maybe_reuse_cached_r_trace excValue excTraceback
       = (exc, AttributeError_raised)
    /\ if call_results_checked then
         snd (py_fetch_error st R maybe_reuse_cached_r_trace)
         = Err PythonException
         /\ exists sys,
              py_last_exception
                (fst (py_fetch_error st R maybe_reuse_cached_r_trace))
              = Some (py_ref sys true "")
              /\ ob_type sys = exception_type "SystemError"
       else
         snd (py_fetch_error st R maybe_reuse_cached_r_trace)
         = Ok (py_ref exc true "")
         /\ error_indicator
              (fst (py_fetch_error st R maybe_reuse_cached_r_trace))
            = AttributeError_raised.
Proof.
  intros I E C X Hc Ht N Ic It.
  set (exc0 := with_traceback excValue excTraceback).
  set (exc1 := PyObject_SetAttrString
                 (PyObject_SetAttrString exc0 "call" r_call) "trace" r_trace).
  assert (C0 : PyObject_HasAttrString exc0 "call" = false)
    by (subst exc0; rewrite with_traceback_HasAttr by discriminate; exact C).
  assert (X0 : assoc "__context__" (ob_attrs exc0) = Some context)
    by (subst exc0; rewrite with_traceback_context; exact X).
  assert (T1 : PyObject_HasAttrString exc1 "trace" = true)
    by apply HasAttr_SetAttr_same.
  assert (C1 : PyObject_HasAttrString exc1 "call" = true).
  { subst exc1; rewrite HasAttr_SetAttr_other by discriminate.
    apply HasAttr_SetAttr_same. }
  assert (W : forward_r_trace exc0 exc0 None = (exc1, AttributeError_raised)).
  { rewrite forward_r_trace_eq, X0; cbv zeta.
    unfold after_GetAttrString; rewrite Hc, Ht; cbn [is_some orb].
    rewrite (surjective_pairing
               (forward_r_trace exc0 context AttributeError_raised)).
    rewrite (forward_r_trace_nearest exc0 context inner _ N), Ic, It.
    rewrite (forward_r_trace_keeps_error exc0 context inner N).
    reflexivity. }
  assert (F : fetched_exception R maybe_reuse_cached_r_trace excValue
                excTraceback = (exc1, AttributeError_raised)).
  { rewrite fetched_exception_eq; cbv zeta; fold exc0.
    rewrite C0; cbn [negb]; rewrite W; cbn [fst snd].
    rewrite T1, C1; cbn [andb].
    rewrite (with_trace_and_call_annotated R _ exc1 C1 T1); reflexivity. }
  exists exc1; split; [reflexivity |]; split; [exact F |].
  rewrite (py_fetch_error_pending st R maybe_reuse_cached_r_trace excValue
             excTraceback exc1 I E F).
  destruct call_results_checked; cbn [fst snd py_last_exception
    error_indicator]; (split; [reflexivity |]); [| reflexivity].
  eexists; split; [reflexivity |].
  apply with_trace_and_call_same_object.
Qed.

Lemma unannotated_context_leaves_lookup_error_witness :
  snd (@py_fetch_error example_runtime
         (session_raising example_nested_exception) example_frames false)
  = Err PythonException
  /\ exists sys,
       py_last_exception
         (fst (@py_fetch_error example_runtime
                 (session_raising example_nested_exception) example_frames
                 false))
       = Some (@py_ref example_runtime sys true "")
       /\ ob_type sys = exception_type "SystemError".
Proof.
  destruct (@unannotated_context_leaves_lookup_error example_runtime
              (session_raising example_nested_exception) example_frames false
              example_nested_exception example_unannotated_exception
              example_inner_exception
              (PyCapsule_New (r_object_capsule (mkSEXP (ROther 6 1) []) false))
              (PyCapsule_New (r_object_capsule (mkSEXP (RList []) []) false))
              None eq_refl eq_refl eq_refl eq_refl eq_refl eq_refl
              (nearest_here example_unannotated_exception
                 example_inner_exception eq_refl eq_refl)
              eq_refl eq_refl)
    as (exc & _ & _ & H).
  exact H.
Defined.

(** ** Round trips through capsules, byte arrays and lists *)

Section RoundTripFacts.

Context {RT : Runtime}.

(** An object of a builtin type that is neither text nor a NumPy value is
    no scalar. *)
Lemma r_scalar_type_container (ty : PyTypeObject)
    (attrs : list (string * PyObject)) (v : PyValue) :
  match v with
  | VList _ | VTuple _ | VByteArray _ | VCapsule _ | VInstance _ | VDict _ =>
      True
  | _ => False
  end ->
  r_scalar_type (mkPyObject ty attrs v) = Ok NILSXP.
Proof.
  intros H; unfold r_scalar_type, is_python_str, is_numpy_str, isPyArrayScalar.
  destruct v; try contradiction; cbn; destruct haveNumPy; cbn;
    rewrite ?andb_false_r; reflexivity.
Qed.

Lemma py_to_r_capsule (x : SEXP) (convert : bool) :
  py_to_r (py_capsule_new x) convert = Ok x.
Proof.
  rewrite py_to_r_eq; unfold py_to_r_chain, py_capsule_new, PyCapsule_New.
  rewrite r_scalar_type_container by exact I.
  unfold isPyArray, isPyArrayScalar; cbn; destruct haveNumPy; reflexivity.
Qed.

Lemma py_to_r_bytearray (raw : string) (convert : bool) :
  py_to_r (PyByteArray_FromStringAndSize raw) convert = Ok (RawVector raw).
Proof.
  rewrite py_to_r_eq; unfold py_to_r_chain, PyByteArray_FromStringAndSize.
  rewrite r_scalar_type_container by exact I.
  unfold isPyArray, isPyArrayScalar; cbn; destruct haveNumPy; reflexivity.
Qed.

(** A list whose items all have the scalar type [t]. *)
Lemma scalar_list_rest_all (t : SEXPTYPE) (items : list PyObject) :
  SEXPTYPE_eqb t t = true ->
  Forall (fun i => r_scalar_type i = Ok t) items ->
  scalar_list_rest t items = Ok t.
Proof.
  intros T; induction 1 as [| i items Hi _ IH]; cbn [scalar_list_rest];
    [reflexivity |].
  rewrite Hi; cbn [bind]; rewrite T; exact IH.
Qed.

Lemma scalar_list_type_all (t : SEXPTYPE) (i : PyObject)
    (items : list PyObject) :
  SEXPTYPE_eqb t t = true -> SEXPTYPE_eqb t NILSXP = false ->
  Forall (fun i => r_scalar_type i = Ok t) (i :: items) ->
  scalar_list_type (i :: items) = Ok t.
Proof.
  intros T N H; inversion H as [| ? ? Hi Hr]; subst.
  cbn [scalar_list_type]; rewrite Hi; cbn [bind]; rewrite N.
  apply scalar_list_rest_all; assumption.
Qed.

(** An exact list goes through [list_to_r]. *)
Lemma py_to_r_exact_list (items : list PyObject) (convert : bool) :
  py_to_r (PyList_New items) convert
  = list_to_r (PyList_New items) (converted_items (PyList_New items) convert).
Proof.
  rewrite py_to_r_eq; unfold py_to_r_chain, PyList_New.
  rewrite r_scalar_type_container by exact I; reflexivity.
Qed.

(** A vector of two or more elements is passed as the list of its
    elements. *)
Lemma scalar_or_list_long {A : Type} (v : list A) (f : A -> PyObject) :
  (2 <= List.length v)%nat ->
  scalar_or_list v f = Ok (PyList_New (map f v)).
Proof.
  destruct v as [| a [| b v]]; simpl; intros H; try lia; reflexivity.
Qed.

Lemma py_to_r_scalar_list (t : SEXPTYPE) (items : list PyObject)
    (convert : bool) :
  SEXPTYPE_eqb t t = true -> SEXPTYPE_eqb t NILSXP = false ->
  items <> [] ->
  Forall (fun i => r_scalar_type i = Ok t) items ->
  py_to_r (PyList_New items) convert
  = match t with
    | REALSXP => Ok (NumericVector (map PyFloat_AsDouble items))
    | INTSXP => Ok (IntegerVector (map (fun i => to_int (PyInt_AsLong i)) items))
    | CPLXSXP => Ok (ComplexVector (map PyComplex_AsRcomplex items))
    | LGLSXP => Ok (LogicalVector (map is_Py_True items))
    | STRSXP => do vec <- mapM as_utf8_r_string items; Ok (CharacterVector vec)
    | _ => do list <- converted_items (PyList_New items) convert; Ok (List_ list)
    end.
Proof.
  intros T N E H; rewrite py_to_r_exact_list; unfold list_to_r; cbv zeta.
  change (PyList_items (PyList_New items)) with items.
  destruct items as [| i items]; [contradiction |].
  rewrite (scalar_list_type_all t i items T N H); reflexivity.
Qed.

(** The class vector [py_ref] hands to the filter always has the base
    class. *)
Lemma py_ref_inherits (object : PyObject) (convert : bool)
    (extraClass : string) :
  (forall l, In "python.builtin.object" l ->
             In "python.builtin.object" (py_filter_classes l)) ->
  inherits (py_ref object convert extraClass) "python.builtin.object" = true.
Proof.
  intros F; unfold py_ref, inherits, attr; cbv zeta.
  cbn [sx_attrib assoc String.eqb Ascii.eqb Bool.eqb sx_val wrap_strings
       CharacterVector].
  set (l0 := (if String.eqb extraClass "" then [] else [extraClass])
             ++ py_class_names object).
  assert (B : In "python.builtin.object"
                (if contains l0 "python.builtin.object" then l0
                 else l0 ++ ["python.builtin.object"])).
  { destruct (contains l0 "python.builtin.object") eqn:C.
    - unfold contains in C; apply existsb_exists in C as (c & I & E).
      apply String.eqb_eq in E; subst c; exact I.
    - apply in_or_app; right; left; reflexivity. }
  apply F in B.
  apply existsb_exists.
  exists (mkCharCE "python.builtin.object" CE_NATIVE); split.
  - apply in_map_iff; exists "python.builtin.object"; split;
      [reflexivity | exact B].
  - reflexivity.
Qed.

Lemma r_to_py_cpp_reference (x : SEXP) (obj : PyObject) (b convert : bool) :
  sx_val x = RPyObjectRef obj b ->
  hasAttribute x "py_object" = false ->
  inherits x "python.builtin.object" = true ->
  r_to_py_cpp x convert = Ok obj.
Proof.
  destruct x as [v a]; cbn [sx_val]; intros -> P C.
  cbn [r_to_py_cpp TYPEOF sx_val SEXPTYPE_eqb]; rewrite P, C; reflexivity.
Qed.

End RoundTripFacts.

(** X9 -- R objects without a Python counterpart travel in a capsule and
    come back as they were.  [py_capsule] followed by the conversion of the
    reference gives back the R object, whatever it is; and an R object of a
    type [r_to_py_cpp] has no case for (a symbol, a call, an S4 object,
    ...), with attributes that do not redirect the conversion, becomes an
    R-object capsule that [py_to_r] unwraps to the same object, attributes
    included. *)
Theorem r_object_capsule_round_trip {RT : Runtime} :
  (forall (x : SEXP) (convert : bool),
     py_ref_to_r (py_capsule x) = Ok x
     /\ py_ref_to_r_with_convert (py_capsule x) convert = Ok x)
  /\ (forall (type id : Z) (a : list (string * SEXP)) (convert convert' : bool),
        plain_vector (mkSEXP (ROther type id) a) = true ->
        exists p,
          r_to_py_cpp (mkSEXP (ROther type id) a) convert = Ok p
          /\ is_r_object_capsule p = true
          /\ py_to_r p convert' = Ok (mkSEXP (ROther type id) a)).
Proof.
  split.
  - intros x convert; unfold py_ref_to_r, py_ref_to_r_with_convert, py_capsule.
    cbn [PyObjectRef_convert PyObjectRef_get py_ref sx_val bind].
    split; apply py_to_r_capsule.
  - intros type id a convert convert' P.
    exists (py_capsule_new (mkSEXP (ROther type id) a)).
    split; [| split; [reflexivity | apply py_to_r_capsule]].
    unfold plain_vector in P.
    apply andb_prop in P as (P & D); apply andb_prop in P as (O & C).
    apply negb_true_iff in D, O, C.
    cbn [r_to_py_cpp TYPEOF sx_val SEXPTYPE_eqb]; rewrite O, C, D.
    reflexivity.
Qed.

Lemma r_object_capsule_round_trip_witness :
  exists p,
    @r_to_py_cpp example_runtime
      (mkSEXP (ROther 1 7) [("srcref", IntegerVector [1])]) true = Ok p
    /\ is_r_object_capsule p = true
    /\ @py_to_r example_runtime p false
       = Ok (mkSEXP (ROther 1 7) [("srcref", IntegerVector [1])]).
Proof.
  apply (proj2 (@r_object_capsule_round_trip example_runtime) 1 7
           [("srcref", IntegerVector [1])] true false).
  reflexivity.
Defined.

(** X10 -- raw vectors.  A raw vector with attributes that do not redirect
    the conversion becomes a [bytearray] with the same bytes, and the
    [bytearray] converts back to the raw vector of those bytes; the empty
    raw vector included.  The attributes are not carried back. *)
Theorem raw_vector_round_trip {RT : Runtime} (raw : string)
    (a : list (string * SEXP)) (convert convert' : bool) :
  plain_vector (mkSEXP (RRaw raw) a) = true ->
  exists p,
    r_to_py_cpp (mkSEXP (RRaw raw) a) convert = Ok p
    /\ PyByteArray_Check p = true
    /\ py_to_r p convert' = Ok (RawVector raw).
Proof.
  intros P.
  exists (PyByteArray_FromStringAndSize raw).
  split; [| split; [reflexivity | apply py_to_r_bytearray]].
  unfold plain_vector in P.
  apply andb_prop in P as (P & D); apply andb_prop in P as (O & C).
  apply negb_true_iff in D, O, C.
  cbn [r_to_py_cpp TYPEOF sx_val SEXPTYPE_eqb]; rewrite O, C, D.
  reflexivity.
Qed.

Lemma raw_vector_round_trip_witness :
  exists p,
    @r_to_py_cpp example_runtime (mkSEXP (RRaw "abc") [("names", R_NilValue)])
      true = Ok p
    /\ PyByteArray_Check p = true
    /\ @py_to_r example_runtime p true = Ok (RawVector "abc").
Proof.
  apply (@raw_vector_round_trip example_runtime "abc" [("names", R_NilValue)]
           true true).
  reflexivity.
Defined.

(** X11 -- vectors of two or more elements.  An integer, double, complex or
    logical vector with attributes that do not redirect the conversion is
    passed to Python as the list of its elements, and that list converts
    back to a vector of the same type: with the same values for integers
    (NA included), doubles and complex numbers (bit for bit), and with
    every logical that is not [FALSE] -- NA included -- turned into
    [TRUE]. *)
Theorem vector_round_trip {RT : Runtime} (a : list (string * SEXP))
    (convert convert' : bool) :
  4 <= sizeof_long ->
  (forall v, plain_vector (mkSEXP (RInteger v) a) = true ->
     (2 <= List.length v)%nat ->
     Forall (fun i => - 2 ^ 31 <= i < 2 ^ 31) v ->
     exists p, r_to_py_cpp (mkSEXP (RInteger v) a) convert = Ok p
               /\ PyList_CheckExact p = true
               /\ py_to_r p convert' = Ok (IntegerVector v))
  /\ (forall v, plain_vector (mkSEXP (RReal v) a) = true ->
        (2 <= List.length v)%nat ->
        exists p, r_to_py_cpp (mkSEXP (RReal v) a) convert = Ok p
                  /\ PyList_CheckExact p = true
                  /\ py_to_r p convert' = Ok (NumericVector v))
  /\ (forall v, plain_vector (mkSEXP (RComplex v) a) = true ->
        (2 <= List.length v)%nat ->
        exists p, r_to_py_cpp (mkSEXP (RComplex v) a) convert = Ok p
                  /\ PyList_CheckExact p = true
                  /\ py_to_r p convert' = Ok (ComplexVector v))
  /\ (forall v, plain_vector (mkSEXP (RLogical v) a) = true ->
        (2 <= List.length v)%nat ->
        exists p, r_to_py_cpp (mkSEXP (RLogical v) a) convert = Ok p
                  /\ PyList_CheckExact p = true
                  /\ py_to_r p convert'
                     = Ok (LogicalVector
                             (map (fun b => if b =? 0 then 0 else 1) v))).
Proof.
  intros S.
  split; [| split; [| split]]; intros v P L.
  - intros V.
    rewrite r_to_py_cpp_plain by (exact P || discriminate).
    rewrite scalar_or_list_long by exact L.
    eexists; split; [reflexivity |]; split; [reflexivity |].
    rewrite (py_to_r_scalar_list INTSXP); try reflexivity.
    + rewrite map_map; do 2 f_equal.
      rewrite <- (map_id v) at 2; apply map_ext_Forall.
      revert V; apply Forall_impl; intros i V.
      unfold PyInt_AsLong, PyInt_FromLong; cbn [ob_val].
      rewrite (long_holds_int i S V); apply to_int_small, V.
    + destruct v; [simpl in L; lia | discriminate].
    + apply Forall_map, Forall_forall; reflexivity.
  - rewrite r_to_py_cpp_plain by (exact P || discriminate).
    rewrite scalar_or_list_long by exact L.
    eexists; split; [reflexivity |]; split; [reflexivity |].
    rewrite (py_to_r_scalar_list REALSXP); try reflexivity.
    + rewrite map_map; do 2 f_equal; apply map_id.
    + destruct v; [simpl in L; lia | discriminate].
    + apply Forall_map, Forall_forall; reflexivity.
  - rewrite r_to_py_cpp_plain by (exact P || discriminate).
    rewrite scalar_or_list_long by exact L.
    eexists; split; [reflexivity |]; split; [reflexivity |].
    rewrite (py_to_r_scalar_list CPLXSXP); try reflexivity.
    + rewrite map_map; do 2 f_equal.
      rewrite <- (map_id v) at 2; apply map_ext; intros [re im]; reflexivity.
    + destruct v; [simpl in L; lia | discriminate].
    + apply Forall_map, Forall_forall; reflexivity.
  - rewrite r_to_py_cpp_plain by (exact P || discriminate).
    rewrite scalar_or_list_long by exact L.
    eexists; split; [reflexivity |]; split; [reflexivity |].
    rewrite (py_to_r_scalar_list LGLSXP); try reflexivity.
    + rewrite map_map; do 2 f_equal; apply map_ext; intros b.
      unfold PyBool_FromLong; destruct (b =? 0); reflexivity.
    + destruct v; [simpl in L; lia | discriminate].
    + apply Forall_map, Forall_forall; intros b _.
      unfold PyBool_FromLong; destruct (b =? 0); reflexivity.
Qed.

Lemma vector_round_trip_witness :
  (exists p, @r_to_py_cpp example_runtime
               (IntegerVector [1; NA_INTEGER; 3]) true = Ok p
             /\ PyList_CheckExact p = true
             /\ @py_to_r example_runtime p true
                = Ok (IntegerVector [1; NA_INTEGER; 3]))
  /\ (exists p, @r_to_py_cpp example_runtime
                  (LogicalVector [1; NA_LOGICAL; 0]) true = Ok p
                /\ PyList_CheckExact p = true
                /\ @py_to_r example_runtime p true
                   = Ok (LogicalVector [1; 1; 0])).
Proof.
  assert (S : 4 <= @sizeof_long example_runtime) by (simpl; lia).
  destruct (@vector_round_trip example_runtime [] true true S)
    as (I & _ & _ & B).
  split.
  - apply I; [reflexivity | simpl; lia |].
    repeat constructor; unfold NA_INTEGER; lia.
  - apply (B [1; NA_LOGICAL; 0]); [reflexivity | simpl; lia].
Defined.

(** X12 -- empty vectors lose their type.  An empty logical, integer,
    double, complex or character vector with attributes that do not
    redirect the conversion becomes the empty Python list, and the empty
    list converts back to the empty R list, not to a vector. *)
Theorem empty_vector_comes_back_as_list {RT : Runtime} (v : RValue)
    (a : list (string * SEXP)) (convert convert' : bool) :
  empty_atomic_vector v = true ->
  plain_vector (mkSEXP v a) = true ->
  r_to_py_cpp (mkSEXP v a) convert = Ok (PyList_New [])
  /\ py_to_r (PyList_New []) convert' = Ok (List_ [])
  /\ TYPEOF (List_ []) = VECSXP.
Proof.
  intros E P.
  split; [| split; [| reflexivity]].
  - unfold plain_vector in P.
    apply andb_prop in P as (P & D); apply andb_prop in P as (O & C).
    apply negb_true_iff in D, O, C.
    destruct v as [| l | l | l | l | l | | | | | |]; try discriminate E;
      destruct l; try discriminate E;
      cbn [r_to_py_cpp TYPEOF sx_val SEXPTYPE_eqb]; rewrite O, C, D;
      reflexivity.
  - rewrite py_to_r_exact_list; reflexivity.
Qed.

Lemma empty_vector_comes_back_as_list_witness :
  @r_to_py_cpp example_runtime (IntegerVector []) true = Ok (PyList_New [])
  /\ @py_to_r example_runtime (PyList_New []) true = Ok (List_ [])
  /\ TYPEOF (List_ []) = VECSXP.
Proof.
  apply (@empty_vector_comes_back_as_list example_runtime (RInteger []) []
           true true); reflexivity.
Defined.

(** X13 -- a Python callable comes back as itself.  The R function
    [py_to_r] makes for a callable carries the reference to the callable
    in its [py_object] attribute, and [r_to_py_cpp] returns that very
    object for it, without wrapping the R function again. *)
Theorem callable_round_trip {RT : Runtime} (x : PyObject)
    (convert convert' : bool) :
  classify precedence x = Ok cat_callable ->
  sx_val (py_callable_as_function (py_ref x convert "") convert) <> RNil ->
  exists f,
    py_to_r x convert = Ok f
    /\ r_to_py_cpp f convert' = Ok x
    /\ r_to_py_impl f convert' = Ok (py_ref x convert' "").
Proof.
  intros C N.
  rewrite py_to_r_by_category, C; cbn [bind convert_as].
  unfold callable_to_r; cbv zeta.
  eexists; split; [reflexivity |].
  assert (R : forall c,
            r_to_py_cpp
              (mkSEXP
                 (sx_val (py_callable_as_function (py_ref x convert "") convert))
                 (("py_object", py_ref x convert "")
                  :: ("class", attr (py_ref x convert "") "class")
                  :: sx_attrib
                       (py_callable_as_function (py_ref x convert "") convert)))
              c = Ok x).
  { intros c.
    destruct (sx_val (py_callable_as_function (py_ref x convert "") convert));
      try contradiction; reflexivity. }
  split; [apply R |].
  unfold r_to_py_impl; rewrite R; reflexivity.
Qed.

Lemma callable_round_trip_witness :
  exists f,
    @py_to_r example_runtime example_callable true = Ok f
    /\ @r_to_py_cpp example_runtime f false = Ok example_callable
    /\ @r_to_py_impl example_runtime f false
       = Ok (@py_ref example_runtime example_callable false "").
Proof.
  apply (@callable_round_trip example_runtime example_callable true false);
    [reflexivity | discriminate].
Defined.

(** X14 -- references pass straight through.  When the class filter keeps
    the base class, every reference [py_ref] makes is recognised by
    [r_to_py_cpp], which returns the very object it refers to; so a Python
    value that [py_to_r] leaves as an opaque reference or as an iterator
    reference converts back to itself. *)
Theorem python_reference_passes_through {RT : Runtime} (x : PyObject)
    (convert convert' : bool) (extraClass : string) :
  filter_keeps_base_class ->
  r_to_py_cpp (py_ref x convert extraClass) convert' = Ok x
  /\ r_to_py_impl (py_ref x convert extraClass) convert'
     = Ok (py_ref x convert' "")
  /\ (forall c, classify precedence x = Ok c ->
        c = cat_opaque \/ c = cat_iterator ->
        exists r, py_to_r x convert = Ok r
                  /\ r_to_py_cpp r convert' = Ok x).
Proof.
  intros F.
  assert (R : forall c e, r_to_py_cpp (py_ref x c e) convert' = Ok x).
  { intros c e.
    apply (r_to_py_cpp_reference _ x c);
      [reflexivity | reflexivity | apply py_ref_inherits, F]. }
  split; [apply R |].
  split; [unfold r_to_py_impl; rewrite R; reflexivity |].
  intros c C [-> | ->]; rewrite py_to_r_by_category, C; cbn [bind convert_as];
    eexists; (split; [reflexivity | apply R]).
Qed.

Lemma python_reference_passes_through_witness :
  @r_to_py_cpp example_runtime
    (@py_ref example_runtime example_generator true "python.builtin.iterator")
    false = Ok example_generator
  /\ exists r, @py_to_r example_runtime example_generator true = Ok r
               /\ @r_to_py_cpp example_runtime r false = Ok example_generator.
Proof.
  assert (F : @filter_keeps_base_class example_runtime)
    by (intros l H; exact H).
  destruct (@python_reference_passes_through example_runtime example_generator
              true false "python.builtin.iterator" F) as (A & _ & B).
  split; [exact A |].
  apply (B cat_iterator); [reflexivity | right; reflexivity].
Defined.

(** ** Arrays there and back *)

Section ArrayRoundTrip.

Context {RT : Runtime}.
Hypothesis labels_distinct : NoDup case_labels.
Hypothesis numpy_loaded : s_numpy_loaded = true.

(** An R array goes through [r_to_py_numpy]. *)
Lemma r_to_py_cpp_array (x : SEXP) (dims : list Z) (convert : bool) :
  R_array x dims -> sx_val x <> RNil ->
  r_to_py_cpp x convert = r_to_py_numpy x convert
  /\ (if hasAttribute x "dim" then int_values (attr x "dim") else [LENGTH x])
     = dims.
Proof.
  intros (O & C & D & _) N.
  assert (H : hasAttribute x "dim" = true) by (unfold hasAttribute; rewrite D;
                                               reflexivity).
  split.
  - destruct x as [v a]; cbn [sx_val] in N.
    destruct v; try contradiction;
      cbn [r_to_py_cpp TYPEOF sx_val SEXPTYPE_eqb]; rewrite O, C, H;
      unfold requireNumPy, haveNumPy; rewrite numpy_loaded; reflexivity.
  - rewrite H; unfold attr; rewrite D; reflexivity.
Qed.

Lemma dimsVector_of_dims (dims : list Z) :
  dims <> [] -> Forall (fun d => 0 <= d < 2 ^ 31) dims ->
  dimsVector_of dims = dims.
Proof.
  intros N F; destruct dims as [| d dims]; [contradiction |].
  unfold dimsVector_of; rewrite <- (map_id (d :: dims)) at 2.
  apply map_ext_Forall; revert F; apply Forall_impl.
  intros z Z; apply to_int_small; lia.
Qed.

(** An array of a kind that narrows to NPY_DOUBLE. *)
Lemma double_array_to_r (ty : PyTypeObject) (attrs : list (string * PyObject))
    (t : Z) (dims : list Z) (data pData : list npy_item) (convert : bool) :
  In t double_kinds ->
  PyArray_CastToType t dims data NPY_DOUBLE = Some pData ->
  py_to_r (mkPyObject ty attrs (VArray t dims data)) convert
  = Ok (Rf_allocArray
          (RReal (map read_num
                      (firstn (Z.to_nat (fold_right Z.mul 1 dims)) pData)))
          (dimsVector_of dims)).
Proof.
  intros W C.
  assert (B : NPY_DOUBLE <> NPY_BOOL) by kinds_neq labels_distinct 13%nat 0%nat.
  assert (L : NPY_DOUBLE <> NPY_LONG) by kinds_neq labels_distinct 13%nat 9%nat.
  assert (S : NPY_DOUBLE <> NPY_STRING)
    by kinds_neq labels_distinct 13%nat 16%nat.
  assert (U : NPY_DOUBLE <> NPY_UNICODE)
    by kinds_neq labels_distinct 13%nat 17%nat.
  rewrite (py_to_r_numeric_array numpy_loaded ty attrs t dims
             data convert NPY_DOUBLE
             (narrow_double_kinds labels_distinct t W) S U).
  unfold array_to_r, PyArray_TYPE, PyArray_DIMS, PyArray_DATA, PyArray_SIZE;
    cbn [ob_val].
  rewrite (narrow_double_kinds labels_distinct t W); cbn [bind].
  rewrite (proj2 (Z.eqb_neq _ _) B), (proj2 (Z.eqb_neq _ _) L), Z.eqb_refl.
  cbn [orb]; rewrite C; reflexivity.
Qed.

Lemma firstn_whole {A : Type} (n : Z) (l : list A) :
  n = Z.of_nat (List.length l) -> firstn (Z.to_nat n) l = l.
Proof.
  intros ->; rewrite Nat2Z.id; apply firstn_all.
Qed.

End ArrayRoundTrip.

(** X15 -- a double array comes back as it was.  With NumPy loaded and
    NumPy's cast of a double buffer to doubles keeping the buffer, an R
    array of doubles becomes a NumPy array of kind NPY_DOUBLE with the
    same dimensions, and that array converts back to an R array of doubles
    with the same values (bit for bit) and the same [dim]; other attributes
    are not carried back. *)
Theorem double_array_round_trip {RT : Runtime} (v : list npy_double)
    (a : list (string * SEXP)) (dims : list Z) (convert convert' : bool) :
  NoDup case_labels -> s_numpy_loaded = true ->
  R_array (mkSEXP (RReal v) a) dims ->
  PyArray_CastToType NPY_DOUBLE dims (map elem_num v) NPY_DOUBLE
  = Some (map elem_num v) ->
  exists p,
    r_to_py_cpp (mkSEXP (RReal v) a) convert = Ok p
    /\ isPyArray p = true
    /\ PyArray_TYPE p = NPY_DOUBLE
    /\ PyArray_DIMS p = dims
    /\ py_to_r p convert' = Ok (Rf_allocArray (RReal v) dims).
Proof.
  intros ND NP A C.
  destruct (r_to_py_cpp_array NP _ dims convert A) as (E & D);
    [discriminate |].
  rewrite E; unfold r_to_py_numpy; cbv zeta; rewrite D; cbn [sx_val].
  eexists; split; [reflexivity |].
  split; [unfold isPyArray, haveNumPy; rewrite NP; reflexivity |].
  split; [reflexivity |]; split; [reflexivity |].
  destruct A as (_ & _ & _ & N & F & L).
  unfold PyArray_New.
  rewrite (double_array_to_r ND NP _ _ NPY_DOUBLE dims _ (map elem_num v))
    by (try exact C; simpl; auto 10).
  rewrite firstn_whole
    by (rewrite L, length_map; reflexivity).
  rewrite map_map, (dimsVector_of_dims dims N F).
  cbn [read_num]; rewrite map_id; reflexivity.
Qed.

Lemma double_array_round_trip_witness :
  exists p,
    @r_to_py_cpp example_runtime example_double_matrix true = Ok p
    /\ @isPyArray example_runtime p = true
    /\ @PyArray_TYPE example_runtime p = 12
    /\ PyArray_DIMS p = [2; 2]
    /\ @py_to_r example_runtime p true = Ok example_double_matrix.
Proof.
  apply (@double_array_round_trip example_runtime _ _ [2; 2] true true
           numpy_abi_distinct eq_refl); [| reflexivity].
  repeat split; try reflexivity; try discriminate.
  repeat constructor; lia.
Defined.

(** X16 -- whether an integer array comes back as integers depends on the
    width of the C [long].  With NumPy loaded and its casts keeping the
    numbers: where [long] does not have four bytes an R integer array is
    sent as NPY_INT and comes back as the same integer array; where
    [long] has four bytes it is sent as NPY_LONG, which narrows to
    NPY_DOUBLE, and it comes back as an array of doubles holding what
    NumPy's cast to double produced. *)
Theorem integer_array_round_trip {RT : Runtime} (v : list Z)
    (a : list (string * SEXP)) (dims : list Z) (convert convert' : bool) :
  NoDup case_labels -> s_numpy_loaded = true ->
  R_array (mkSEXP (RInteger v) a) dims ->
  Forall (fun i => - 2 ^ 31 <= i < 2 ^ 31) v ->
  (sizeof_long <> 4 ->
   PyArray_CastToType NPY_INT dims (map elem_num v) NPY_LONG
   = Some (map elem_num v) ->
   exists p,
     r_to_py_cpp (mkSEXP (RInteger v) a) convert = Ok p
     /\ PyArray_TYPE p = NPY_INT
     /\ py_to_r p convert' = Ok (Rf_allocArray (RInteger v) dims))
  /\ (forall pData,
        sizeof_long = 4 ->
        PyArray_CastToType NPY_LONG dims (map elem_num v) NPY_DOUBLE
        = Some pData ->
        exists p r,
          r_to_py_cpp (mkSEXP (RInteger v) a) convert = Ok p
          /\ PyArray_TYPE p = NPY_LONG
          /\ py_to_r p convert' = Ok r
          /\ TYPEOF r = REALSXP
          /\ r = Rf_allocArray
                   (RReal (map read_num (firstn (List.length v) pData))) dims).
Proof.
  intros ND NP A V.
  destruct (r_to_py_cpp_array NP _ dims convert A) as (E & D);
    [discriminate |].
  rewrite E; unfold r_to_py_numpy; cbv zeta; rewrite D; cbn [sx_val].
  destruct A as (_ & _ & _ & N & F & L).
  split; [intros S C | intros pData S C].
  - rewrite (proj2 (Z.eqb_neq _ _) S).
    eexists; split; [reflexivity |]; split; [reflexivity |].
    unfold PyArray_New.
    rewrite (narrow_array_is_integer ND NP _ _ NPY_INT dims _
               (map elem_num v))
      by (try exact C; simpl; auto 10).
    rewrite firstn_whole by (rewrite L, length_map; reflexivity).
    rewrite map_map, (dimsVector_of_dims dims N F).
    cbn [read_num]; do 3 f_equal.
    rewrite <- (map_id v) at 2; apply map_ext_Forall.
    revert V; apply Forall_impl; intros i I; apply to_int_small, I.
  - rewrite S; cbn [Z.eqb Pos.eqb].
    eexists; eexists; split; [reflexivity |]; split; [reflexivity |].
    unfold PyArray_New.
    rewrite (double_array_to_r ND NP _ _ NPY_LONG dims _ pData)
      by (try exact C; simpl; auto 10).
    rewrite (dimsVector_of_dims dims N F), L.
    cbn [LENGTH sx_val]; rewrite Nat2Z.id.
    split; [reflexivity |]; split; reflexivity.
Qed.

Lemma integer_array_round_trip_witness :
  (exists p,
     @r_to_py_cpp example_runtime example_integer_matrix true = Ok p
     /\ @PyArray_TYPE example_runtime p = 5
     /\ @py_to_r example_runtime p true = Ok example_integer_matrix)
  /\ (exists p r,
        @r_to_py_cpp example_runtime_long4 example_integer_matrix true = Ok p
        /\ @PyArray_TYPE example_runtime_long4 p = 7
        /\ @py_to_r example_runtime_long4 p true = Ok r
        /\ TYPEOF r = REALSXP
        /\ r = Rf_allocArray
                 (RReal (map read_num
                           (firstn 4 (map elem_num [1; 2; 3; 4])))) [2; 2]).
Proof.
  assert (A : R_array example_integer_matrix [2; 2]).
  { repeat split; try reflexivity; try discriminate.
    repeat constructor; lia. }
  assert (V : Forall (fun i => - 2 ^ 31 <= i < 2 ^ 31) [1; 2; 3; 4])
    by (repeat constructor; lia).
  split.
  - apply (proj1 (@integer_array_round_trip example_runtime _ _ [2; 2]
                    true true numpy_abi_distinct eq_refl A V));
      [discriminate | reflexivity].
  - apply (proj2 (@integer_array_round_trip example_runtime_long4 _ _ [2; 2]
                    true true numpy_abi_distinct eq_refl A V)
                 (map elem_num [1; 2; 3; 4]));
      reflexivity.
Defined.

(** ** Building and reading dictionaries *)

Section DictAccess.

Context {RT : Runtime}.

(** The dictionary the loop builds does not depend on the error indicator,
    nor does the exception it throws. *)
Lemma py_dict_fill_indicator (keys items : list SEXP) (convert : bool) :
  forall dict0 err0 err0',
    match py_dict_fill keys items convert dict0 err0,
          py_dict_fill keys items convert dict0 err0' with
    | Ok filled, Ok filled' => fst filled = fst filled'
    | Err e, Err e' => e = e'
    | _, _ => False
    end.
Proof.
  revert items; induction keys as [| k keys IH]; intros items dict0 err0 err0'.
  - reflexivity.
  - cbn [py_dict_fill].
    destruct (r_to_py k convert) as [key |]; [| reflexivity]; cbn [bind].
    destruct items as [| i items]; [reflexivity |].
    destruct (r_to_py i convert) as [val |]; [| reflexivity]; cbn [bind].
    apply IH.
Qed.

(** An error that is pending stays pending to the end of the loop. *)
Lemma py_dict_fill_keeps_error (keys items : list SEXP) (convert : bool) :
  forall dict0 err0 filled,
    err0 <> None ->
    py_dict_fill keys items convert dict0 err0 = Ok filled ->
    snd filled <> None.
Proof.
  revert items; induction keys as [| k keys IH];
    intros items dict0 err0 filled N H.
  - cbn [py_dict_fill] in H; injection H as <-; exact N.
  - cbn [py_dict_fill] in H.
    apply bind_Ok in H as (key & _ & H).
    destruct items as [| i items]; [discriminate |].
    apply bind_Ok in H as (val & _ & H).
    apply (IH _ _ _ _) in H; [exact H |].
    unfold after_PyDict_SetItem, TypeError_raised.
    destruct (py_hashable key); [exact N | discriminate].
Qed.

(** The pair with the refused key changes nothing but the indicator. *)
Lemma py_dict_fill_unhashable (keys1 keys2 items1 items2 : list SEXP)
    (convert : bool) (k i : SEXP) (key val : PyObject) :
  List.length keys1 = List.length items1 ->
  r_to_py k convert = Ok key -> r_to_py i convert = Ok val ->
  py_hashable key = false ->
  forall dict0 err0,
    match py_dict_fill (keys1 ++ k :: keys2) (items1 ++ i :: items2) convert
            dict0 err0,
          py_dict_fill (keys1 ++ keys2) (items1 ++ items2) convert dict0 err0
    with
    | Ok filled, Ok filled' => fst filled = fst filled' /\ snd filled <> None
    | Err e, Err e' => e = e'
    | _, _ => False
    end.
Proof.
  intros L Hk Hi U; revert items1 L.
  induction keys1 as [| k0 keys1 IH]; intros [| i0 items1] L dict0 err0;
    try discriminate L.
  - cbn [app py_dict_fill]; rewrite Hk, Hi; cbn [bind].
    unfold PyDict_SetItem, after_PyDict_SetItem; rewrite U; cbn [snd].
    pose proof (py_dict_fill_indicator keys2 items2 convert dict0
                  TypeError_raised err0) as I.
    pose proof (py_dict_fill_keeps_error keys2 items2 convert dict0
                  TypeError_raised) as K.
    destruct (py_dict_fill keys2 items2 convert dict0 TypeError_raised)
      as [filled |];
      destruct (py_dict_fill keys2 items2 convert dict0 err0) as [filled' |];
      try exact I.
    split; [exact I | apply K; [discriminate | reflexivity]].
  - cbn [app py_dict_fill].
    destruct (r_to_py k0 convert) as [key0 |]; [| reflexivity].
    cbn [bind].
    destruct (r_to_py i0 convert) as [val0 |]; [| reflexivity].
    cbn [bind]; apply IH; injection L as L; exact L.
Qed.

Lemma py_dict_fill_too_few_items (keys items : list SEXP) (convert : bool) :
  all_convert keys convert -> all_convert items convert ->
  (List.length items < List.length keys)%nat ->
  forall dict0 err0,
    py_dict_fill keys items convert dict0 err0 = Err Rcpp_index_out_of_bounds.
Proof.
  intros K; revert items.
  induction K as [| k keys (key & Hk) _ IH]; intros items I L dict0 err0;
    [simpl in L; lia |].
  cbn [py_dict_fill]; rewrite Hk; cbn [bind].
  destruct I as [| i items (val & Hi) I]; [reflexivity |].
  rewrite Hi; cbn [bind]; apply IH; [exact I | simpl in L; lia].
Qed.

Lemma py_dict_fill_enough_items (keys items : list SEXP) (convert : bool) :
  all_convert keys convert -> all_convert items convert ->
  (List.length keys <= List.length items)%nat ->
  forall dict0 err0,
    exists filled, py_dict_fill keys items convert dict0 err0 = Ok filled.
Proof.
  intros K; revert items.
  induction K as [| k keys (key & Hk) _ IH]; intros items I L dict0 err0;
    [eexists; reflexivity |].
  cbn [py_dict_fill]; rewrite Hk; cbn [bind].
  destruct I as [| i items (val & Hi) I]; [simpl in L; lia |].
  rewrite Hi; cbn [bind]; apply IH; [exact I | simpl in L; lia].
Qed.

Lemma py_dict_fill_surplus_items (keys items extra : list SEXP)
    (convert : bool) :
  (List.length keys <= List.length items)%nat ->
  forall dict0 err0,
    py_dict_fill keys (items ++ extra) convert dict0 err0
    = py_dict_fill keys items convert dict0 err0.
Proof.
  revert items; induction keys as [| k keys IH]; intros items L dict0 err0;
    [reflexivity |].
  destruct items as [| i items]; [simpl in L; lia |].
  cbn [app py_dict_fill].
  destruct (r_to_py k convert) as [key |]; [| reflexivity]; cbn [bind].
  destruct (r_to_py i convert) as [val |]; [| reflexivity]; cbn [bind].
  apply IH; simpl in L; lia.
Qed.

Lemma all_convert_app (l1 l2 : list SEXP) (convert : bool) :
  all_convert l1 convert -> all_convert l2 convert ->
  all_convert (l1 ++ l2) convert.
Proof. intros A B; apply Forall_app; split; assumption. Qed.

(** The loop over the keys of a dict names them as [py_to_r] does. *)
Lemma keys_as_str_loop_list (keys : list PyObject) (names : list string) :
  mapM key_name keys = Ok names ->
  keys_as_str_loop (fold_right iter_next iter_done keys) = Ok names.
Proof.
  revert names; induction keys as [| k keys IH]; intros names H.
  - injection H as <-; reflexivity.
  - cbn [mapM] in H.
    apply bind_Ok in H as (n & Hn & H).
    apply bind_Ok in H as (ns & Hns & H).
    assert (E : names = n :: ns) by congruence; subst names.
    cbn [fold_right keys_as_str_loop].
    unfold key_name in Hn.
    destruct (is_python_str k) as [s |]; [| discriminate Hn].
    cbn [bind] in *.
    destruct (if s then as_utf8_r_string k
              else as_utf8_r_string (PyObject_Str k)) as [name |];
      [| discriminate Hn].
    cbn [bind] in *.
    rewrite (IH ns Hns); cbn [bind]; congruence.
Qed.

Lemma char_bytes_wrap_strings (l : list string) :
  map char_bytes (string_values (wrap_strings l)) = l.
Proof.
  unfold wrap_strings, string_values, CharacterVector; cbn [sx_val].
  rewrite map_map; apply map_id.
Qed.

End DictAccess.

(** X17 -- [py_dict_impl] and a key Python cannot hash.  [PyDict_SetItem]
    refuses the key, its status is ignored and the TypeError stays in the
    error indicator.  Under an interpreter that checks the results of
    calls, wrapping the finished dict fails and the function throws a
    Python exception, wherever the pair stands in the two lists (an R
    vector of several elements, which becomes a Python list, is such a
    key); otherwise the function returns what the lists without that pair
    give. *)
Theorem py_dict_impl_unhashable_key {RT : Runtime}
    (keys1 keys2 items1 items2 : list SEXP) (convert : bool) (k i : SEXP)
    (key val : PyObject) :
  List.length keys1 = List.length items1 ->
  (List.length keys2 <= List.length items2)%nat ->
  all_convert keys1 convert -> all_convert items1 convert ->
  all_convert keys2 convert -> all_convert items2 convert ->
  r_to_py k convert = Ok key -> r_to_py i convert = Ok val ->
  py_hashable key = false ->
  py_dict_impl (keys1 ++ k :: keys2) (items1 ++ i :: items2) convert
  = if call_results_checked then Err PythonException
    else py_dict_impl (keys1 ++ keys2) (items1 ++ items2) convert.
Proof.
  intros L1 L2 K1 I1 K2 I2 Hk Hi U.
  pose proof (py_dict_fill_unhashable keys1 keys2 items1 items2 convert k i
                key val L1 Hk Hi U [] None) as F.
  destruct (py_dict_fill_enough_items (keys1 ++ keys2) (items1 ++ items2)
              convert (all_convert_app _ _ _ K1 K2)
              (all_convert_app _ _ _ I1 I2)
              ltac:(rewrite !length_app; lia) [] None) as (filled' & F').
  unfold py_dict_impl; rewrite F' in *.
  destruct (py_dict_fill (keys1 ++ k :: keys2) (items1 ++ i :: items2)
              convert [] None) as [filled |]; [| contradiction].
  destruct F as (D & P); cbn [bind]; rewrite D.
  unfold py_ref_with.
  destruct (snd filled); [| exfalso; apply P; reflexivity].
  destruct call_results_checked; [reflexivity |].
  destruct (snd filled'); reflexivity.
Qed.

Lemma py_dict_impl_unhashable_key_witness :
  @py_dict_impl example_runtime
    [CharacterVector [mkCharCE "a" CE_UTF8]; IntegerVector [1; 2]]
    [IntegerVector [10]; IntegerVector [20]] true
  = Err PythonException
  /\ @py_dict_impl example_runtime
       [CharacterVector [mkCharCE "a" CE_UTF8]] [IntegerVector [10]] true
     = Ok (@py_ref example_runtime
             (PyDict_New
                [(mkPyObject (builtin_type "str" ["__iter__"]) []
                    (VUnicode "a"),
                  PyInt_FromLong 10)]) true "").
Proof.
  split; [| reflexivity].
  apply (@py_dict_impl_unhashable_key example_runtime
           [CharacterVector [mkCharCE "a" CE_UTF8]] []
           [IntegerVector [10]] [] true (IntegerVector [1; 2])
           (IntegerVector [20])
           (PyList_New [PyInt_FromLong 1; PyInt_FromLong 2])
           (PyInt_FromLong 20));
    try reflexivity; try (simpl; lia);
    repeat constructor; eexists; reflexivity.
Defined.

(** X18 -- [py_dict_impl] with lists of different lengths.  When every key
    and item converts and there are fewer items than keys, the function
    throws Rcpp's index-out-of-bounds error; items beyond the number of
    keys are neither converted nor stored. *)
Theorem py_dict_impl_length_mismatch {RT : Runtime}
    (keys items extra : list SEXP) (convert : bool) :
  (all_convert keys convert -> all_convert items convert ->
   (List.length items < List.length keys)%nat ->
   py_dict_impl keys items convert = Err Rcpp_index_out_of_bounds)
  /\ ((List.length keys <= List.length items)%nat ->
      py_dict_impl keys (items ++ extra) convert
      = py_dict_impl keys items convert).
Proof.
  split.
  - intros K I L; unfold py_dict_impl.
    rewrite (py_dict_fill_too_few_items keys items convert K I L);
      reflexivity.
  - intros L; unfold py_dict_impl.
    rewrite (py_dict_fill_surplus_items keys items extra convert L);
      reflexivity.
Qed.

Lemma py_dict_impl_length_mismatch_witness :
  @py_dict_impl example_runtime
    [IntegerVector [1]; IntegerVector [2]] [IntegerVector [10]] true
  = Err Rcpp_index_out_of_bounds
  /\ @py_dict_impl example_runtime [IntegerVector [1]]
       ([IntegerVector [10]] ++ [IntegerVector [20]]) true
     = @py_dict_impl example_runtime [IntegerVector [1]] [IntegerVector [10]]
         true.
Proof.
  split.
  - apply (proj1 (@py_dict_impl_length_mismatch example_runtime
                    [IntegerVector [1]; IntegerVector [2]]
                    [IntegerVector [10]] [] true));
      [| | simpl; lia]; repeat constructor; eexists; reflexivity.
  - apply (proj2 (@py_dict_impl_length_mismatch example_runtime
                    [IntegerVector [1]] [IntegerVector [10]]
                    [IntegerVector [20]] true)).
    simpl; lia.
Defined.

(** X19 -- [py_dict_set_item] followed by [py_dict_get_item].  On a
    reference to a dict, storing a value under a key Python can hash (and
    that equals itself) and then asking for the same key returns a
    reference to the stored Python value, with the [convert] flag of the
    dict; the dict has the same number of entries when the key was there
    and one more otherwise, and [py_dict_length] reports that number.
    Storing under a key Python cannot hash leaves
    the dict as it was and raises nothing.  Asking for a key that is not
    there returns a reference to None with [convert = false]. *)
Theorem py_dict_set_then_get {RT : Runtime}
    (PyObject_GetItem : PyObject -> PyObject -> option PyObject)
    (PyObject_SetItem : PyObject -> PyObject -> PyObject -> option PyObject)
    (PyObject_Size : PyObject -> Z)
    (dict key val : SEXP) (d : PyObject) (convert : bool)
    (pyKey pyVal : PyObject) :
  sx_val dict = RPyObjectRef d convert -> PyDict_Check d = true ->
  r_to_py key convert = Ok pyKey -> r_to_py val convert = Ok pyVal ->
  exists d',
    py_dict_set_item PyObject_SetItem dict key val = Ok d'
    /\ PyDict_Check d' = true
    /\ py_dict_length PyObject_Size (same_reference dict d')
       = Ok (to_int (Z.of_nat (List.length (PyDict_entries d'))))
    /\ (py_hashable pyKey = true -> py_key_eq pyKey pyKey = true ->
        py_dict_get_item PyObject_GetItem (same_reference dict d') key
        = Ok (py_ref pyVal convert "")
        /\ List.length (PyDict_entries d')
           = match PyDict_GetItem (PyDict_entries d) pyKey with
             | Some _ => List.length (PyDict_entries d)
             | None => S (List.length (PyDict_entries d))
             end)
    /\ (py_hashable pyKey = false -> d' = d)
    /\ (PyDict_GetItem (PyDict_entries d') pyKey = None ->
        py_dict_get_item PyObject_GetItem (same_reference dict d') key
        = Ok (py_ref Py_None false "")).
Proof.
  intros R D Hk Hv.
  unfold py_dict_set_item, PyObjectRef_get, PyObjectRef_convert.
  rewrite R; cbn [bind]; rewrite D; cbn [negb].
  rewrite Hk, Hv; cbn [bind].
  eexists; split; [reflexivity |].
  split; [reflexivity |].
  split; [unfold py_dict_length, same_reference, PyObjectRef_get;
          rewrite R; reflexivity |].
  assert (G : forall d',
            PyDict_Check d' = true ->
            py_dict_get_item PyObject_GetItem (same_reference dict d') key
            = match PyDict_GetItem (PyDict_entries d') pyKey with
              | None => Ok (py_ref Py_None false "")
              | Some item => Ok (py_ref item convert "")
              end).
  { intros d' D'.
    unfold py_dict_get_item, same_reference, PyObjectRef_get,
      PyObjectRef_convert.
    rewrite R; cbn [sx_val bind]; rewrite D'; cbn [negb].
    rewrite Hk; reflexivity. }
  split; [| split].
  - intros H E; rewrite G by reflexivity.
    unfold PyDict_SetItem; rewrite H; cbn [snd PyDict_entries ob_val].
    rewrite PyDict_GetItem_dict_store by exact E.
    split; [reflexivity | apply dict_store_length].
  - intros U; unfold PyDict_SetItem; rewrite U; cbn [snd].
    destruct d as [ty attrs v]; unfold PyDict_Check in D; cbn [ob_val] in D.
    destruct v; try discriminate D; reflexivity.
  - intros M; rewrite G by reflexivity.
    rewrite M; reflexivity.
Qed.

Lemma py_dict_set_then_get_witness :
  exists d',
    @py_dict_set_item example_runtime no_SetItem
      (@py_ref example_runtime (@example_dict example_runtime) true "")
      (IntegerVector [1]) (IntegerVector [30]) = Ok d'
    /\ @py_dict_get_item example_runtime no_GetItem
         (same_reference
            (@py_ref example_runtime (@example_dict example_runtime) true "")
            d')
         (IntegerVector [1])
       = Ok (@py_ref example_runtime (PyInt_FromLong 30) true "")
    /\ List.length (PyDict_entries d') = 2%nat
    /\ py_dict_length no_Size
         (same_reference
            (@py_ref example_runtime (@example_dict example_runtime) true "")
            d')
       = Ok (to_int (Z.of_nat (List.length (PyDict_entries d')))).
Proof.
  destruct (@py_dict_set_then_get example_runtime no_GetItem no_SetItem
              no_Size
              (@py_ref example_runtime (@example_dict example_runtime) true "")
              (IntegerVector [1]) (IntegerVector [30])
              (@example_dict example_runtime) true
              (PyInt_FromLong 1) (PyInt_FromLong 30)
              eq_refl eq_refl eq_refl eq_refl)
    as (d' & S & _ & N & G & _).
  exists d'; split; [exact S |].
  destruct (G eq_refl eq_refl) as (G1 & G2).
  split; [exact G1 |]; split; [exact G2 | exact N].
Defined.

(** X20 -- the keys [py_dict_get_keys_as_str] lists are the names
    [py_to_r] gives.  For an exact dict that [py_to_r] converts, the
    character vector of its keys has, element by element, the bytes of the
    [names] of the converted list: a text key by its UTF-8 bytes, any other
    key by [str(key)], each as the C string it goes through. *)
Theorem py_dict_keys_are_the_names {RT : Runtime}
    (PyObject_CallMethod_keys : PyObject -> option PyObject)
    (tp_iter : PyObject -> option iteration)
    (d : PyObject) (convert convert' : bool) (extraClass : string) (r : SEXP) :
  PyDict_CheckExact d = true ->
  py_to_r d convert = Ok r ->
  exists keys,
    py_dict_get_keys_as_str PyObject_CallMethod_keys tp_iter
      (py_ref d convert' extraClass) = Ok (wrap_strings keys)
    /\ keys = map char_bytes (string_values (attr r "names"))
    /\ List.length keys = List.length (PyDict_entries d).
Proof.
  intros X H.
  rewrite (py_to_r_exact_dict d convert X) in H.
  unfold entries_to_r in H.
  apply bind_Ok in H as (list & Hl & H).
  assert (E : r = mkSEXP (RList (map snd list))
                    [("names", wrap_strings (map fst list))])
    by congruence.
  subst r; clear H.
  assert (D : PyDict_Check d = true)
    by (unfold PyDict_CheckExact in X; apply andb_prop in X; tauto).
  destruct d as [ty attrs v]; unfold PyDict_Check in D; cbn [ob_val] in D.
  destruct v; try discriminate D; clear D.
  unfold converted_entries in Hl; cbn [ob_val] in Hl.
  destruct (converted_entries_names entries convert list Hl) as (N & _).
  exists (map fst list).
  split; [| split].
  - unfold py_dict_get_keys_as_str, py_dict_get_keys_impl, PyObject_GetIter.
    cbn [PyObjectRef_get py_ref sx_val bind ob_val PyList_New].
    rewrite (keys_as_str_loop_list _ _ N); reflexivity.
  - unfold attr; cbn [sx_attrib assoc String.eqb Ascii.eqb Bool.eqb].
    symmetry; apply char_bytes_wrap_strings.
  - rewrite length_map.
    apply mapM_Ok_length in Hl; exact Hl.
Qed.

Lemma py_dict_keys_are_the_names_witness :
  exists keys,
    @py_dict_get_keys_as_str example_runtime no_keys_method no_tp_iter
      (@py_ref example_runtime (@example_dict example_runtime) true "") = Ok (wrap_strings keys)
    /\ keys = ["1"; "1"]
    /\ List.length keys = List.length (PyDict_entries (@example_dict example_runtime)).
Proof.
  apply (@py_dict_keys_are_the_names example_runtime no_keys_method no_tp_iter
           (@example_dict example_runtime) true true ""
           (mkSEXP (RList [IntegerVector [10]; IntegerVector [20]])
              [("names", wrap_strings ["1"; "1"])]));
    reflexivity.
Defined.

(** ** Formals of a Python callable *)

Section FormalsFacts.

Context {RT : Runtime}.

Lemma formals_loop_names (items : list parameter) :
  forall (has_dots : bool) (r_args out : list (string * SEXP)),
    formals_loop items has_dots r_args = Ok out ->
    map fst out
    = map fst r_args
      ++ (if has_dots
          then map name_of (filter (fun p => negb (variadic p)) items)
          else map name_of (before_dots items)
               ++ match from_dots items with
                  | [] => []
                  | after =>
                      "..." :: map name_of
                                 (filter (fun p => negb (variadic p)) after)
                  end).
Proof.
  induction items as [| item rest IH]; intros has_dots r_args out H.
  - cbn [formals_loop] in H; injection H as <-.
    destruct has_dots; cbn; rewrite app_nil_r; reflexivity.
  - cbn [formals_loop] in H.
    destruct (param_kind item) as [kind |] eqn:K; [| discriminate H].
    destruct (is_VAR kind) eqn:V.
    + assert (N : needs_dots item = true)
        by (unfold needs_dots; rewrite K, V; reflexivity).
      assert (W : variadic item = true)
        by (unfold variadic; rewrite K; exact V).
      destruct has_dots; cbn [negb] in H; apply IH in H; rewrite H.
      * cbn [filter]; rewrite W; reflexivity.
      * cbn [before_dots from_dots filter]; rewrite N, W.
        rewrite map_app, <- app_assoc; reflexivity.
    + assert (W : variadic item = false)
        by (unfold variadic; rewrite K; exact V).
      cbv zeta in H.
      destruct (param_default item) as [dflt |]; [| discriminate H].
      apply bind_Ok in H as (arg_default & _ & H).
      destruct (param_name item) as [name_char |] eqn:Nm; [| discriminate H].
      assert (Nn : name_of item = name_char)
        by (unfold name_of; rewrite Nm; reflexivity).
      destruct has_dots; cbn [negb andb] in H.
      * apply IH in H; rewrite H.
        cbn [filter]; rewrite W; cbn [negb map]; rewrite Nn.
        rewrite map_app, <- app_assoc; reflexivity.
      * destruct (is_KEYWORD_ONLY kind) eqn:Q.
        -- assert (N : needs_dots item = true)
             by (unfold needs_dots; rewrite K, V, Q; reflexivity).
           apply IH in H; rewrite H.
           cbn [before_dots from_dots filter]; rewrite N, W.
           cbn [negb map]; rewrite Nn.
           rewrite !map_app, <- !app_assoc; reflexivity.
        -- assert (N : needs_dots item = false)
             by (unfold needs_dots; rewrite K, V, Q; reflexivity).
           apply IH in H; rewrite H.
           cbn [before_dots from_dots]; rewrite N.
           cbn [map]; rewrite Nn.
           rewrite map_app, <- app_assoc; reflexivity.
Qed.

End FormalsFacts.

(** X21 -- the formals [py_get_formals] builds.  When the function
    returns for a callable whose signature [inspect] could read, the names
    of the formals are: the parameters that come before the first variadic
    ([*args], [**kwargs]) or keyword-only parameter, in order; then, if
    there is such a parameter, one [...] followed by every later parameter
    that is not variadic, in order.  So [...] is added once, in front of
    the first keyword-only parameter at the latest, and [*args] and
    [**kwargs] are never named. *)
Theorem py_get_formals_names {RT : Runtime} (items : list parameter)
    (PyErr_Occurred : bool) (formals : list (string * SEXP)) :
  py_get_formals (parameters_items items PyErr_Occurred) = Ok formals ->
  map fst formals
  = map name_of (before_dots items)
    ++ match from_dots items with
       | [] => []
       | after =>
           "..." :: map name_of (filter (fun p => negb (variadic p)) after)
       end.
Proof.
  unfold py_get_formals; intros H.
  apply bind_Ok in H as (r_args & L & H).
  destruct PyErr_Occurred; [discriminate H |].
  assert (E : formals = r_args) by congruence; subst r_args.
  apply (formals_loop_names items false [] formals L).
Qed.

Lemma py_get_formals_names_witness :
  @py_get_formals example_runtime
    (parameters_items (@example_signature example_runtime) false)
  = Ok [("a", R_MissingArg); ("...", R_MissingArg); ("key", IntegerVector [1])]
  /\ map fst [("a", R_MissingArg); ("...", R_MissingArg);
              ("key", IntegerVector [1])]
     = ["a"; "..."; "key"].
Proof.
  assert (H : @py_get_formals example_runtime
                (parameters_items (@example_signature example_runtime) false)
              = Ok [("a", R_MissingArg); ("...", R_MissingArg);
                    ("key", IntegerVector [1])]) by reflexivity.
  split; [exact H |].
  apply (@py_get_formals_names example_runtime
           (@example_signature example_runtime) false
           [("a", R_MissingArg); ("...", R_MissingArg);
            ("key", IntegerVector [1])] H).
Defined.

(** ** Submodules *)

Section SubmoduleFacts.

Context {RT : Runtime}.

Lemma index_of_str_zero (pat s : string) :
  (std_find_str s pat =? 0) = starts_with pat s.
Proof.
  unfold std_find_str; destruct s as [| c s]; cbn [index_of_str].
  - destruct (starts_with pat ""); reflexivity.
  - destruct (starts_with pat (String c s)); [reflexivity |].
    destruct (index_of_str pat s) as [i |]; [| reflexivity].
    apply Z.eqb_neq; lia.
Qed.

Lemma starts_with_split (pat s : string) :
  starts_with pat s = true ->
  s = (pat ++ drop (String.length pat) s)%string.
Proof.
  unfold starts_with; intros H; apply String.eqb_eq in H.
  transitivity (take (String.length pat) s ++ drop (String.length pat) s)%string;
    [symmetry; apply take_drop | rewrite H; reflexivity].
Qed.

Lemma starts_with_append (pat s : string) :
  starts_with pat (pat ++ s) = true.
Proof.
  unfold starts_with; rewrite take_append_exact; apply String.eqb_refl.
Qed.

Lemma drop_append_exact (a b : string) :
  drop (String.length a) (a ++ b) = b.
Proof.
  induction a as [| c a IH]; simpl; [reflexivity | exact IH].
Qed.

Lemma starts_with_length (pat s : string) :
  starts_with pat s = true -> (String.length pat <= String.length s)%nat.
Proof.
  intros H; apply starts_with_split in H.
  rewrite H; generalize (drop (String.length pat) s); intros x; clear.
  induction pat as [| c pat IH]; simpl; lia.
Qed.

Lemma std_find_dot (s : string) :
  size s < 2 ^ 63 ->
  (std_find s "."%char 0 =? npos)
  = match index_of "."%char s with None => true | Some _ => false end.
Proof.
  intros B; destruct (index_of "."%char s) as [i |] eqn:E.
  - rewrite (std_find_first s _ i E).
    pose proof (index_of_bound _ _ _ E) as Bi.
    apply Z.eqb_neq; unfold npos, size in *; lia.
  - rewrite (std_find_none s _ E); reflexivity.
Qed.

(** What the loop collects. *)
Lemma submodules_loop_spec (modulesDict : list (PyObject * PyObject))
    (prefix : string) (modules : list string) :
  keys_fit_size_t modulesDict ->
  submodules_loop modulesDict prefix = Ok modules ->
  forall submodule,
    In submodule modules
    <-> exists key value,
          In (key, value) modulesDict
          /\ PyString_Check key = true
          /\ py_is_none value = false
          /\ as_std_string key = Ok (prefix ++ submodule)%string
          /\ index_of "."%char submodule = None.
Proof.
  intros F; revert modules.
  induction F as [| [key value] rest Hk _ IH]; intros modules H submodule.
  - injection H as <-; split; [intros [] | intros (k & v & [] & _)].
  - cbn [submodules_loop] in H; cbn [fst] in Hk.
    assert (Skip : submodules_loop rest prefix = Ok modules ->
                   ~ (PyString_Check key = true
                      /\ py_is_none value = false
                      /\ as_std_string key = Ok (prefix ++ submodule)%string
                      /\ index_of "."%char submodule = None) ->
                   In submodule modules
                   <-> exists key0 value0,
                         In (key0, value0) ((key, value) :: rest)
                         /\ PyString_Check key0 = true
                         /\ py_is_none value0 = false
                         /\ as_std_string key0
                            = Ok (prefix ++ submodule)%string
                         /\ index_of "."%char submodule = None).
    { intros H' No; rewrite (IH modules H' submodule); split.
      - intros (k & v & I & R); exists k, v; split; [right; exact I | exact R].
      - intros (k & v & [E | I] & R).
        + injection E as <- <-; exfalso; apply No; exact R.
        + exists k, v; split; [exact I | exact R]. }
    destruct (PyString_Check key && negb (py_is_none value)) eqn:C.
    2:{ apply Skip; [exact H |].
        intros (P & N & _); rewrite P, N in C; discriminate C. }
    apply andb_prop in C as (P & N); apply negb_true_iff in N.
    apply bind_Ok in H as (name & Hn & H).
    specialize (Hk name Hn).
    rewrite index_of_str_zero in H.
    destruct (starts_with prefix name) eqn:S.
    2:{ apply Skip; [exact H |].
        intros (_ & _ & A & _); rewrite Hn in A.
        assert (E : name = (prefix ++ submodule)%string) by congruence.
        rewrite E, starts_with_append in S; discriminate S. }
    pose proof (starts_with_length prefix name S) as Lp.
    change (size prefix) with (Z.of_nat (String.length prefix)) in H.
    rewrite (std_substr_suffix name (String.length prefix)) in H
      by (unfold size in Hk; lia).
    cbn [bind] in H.
    apply bind_Ok in H as (modules' & Hm & H).
    set (sub := drop (String.length prefix) name) in *.
    assert (Nm : name = (prefix ++ sub)%string)
      by (apply starts_with_split, S).
    assert (Bs : size sub < 2 ^ 63).
    { unfold size, sub in *; rewrite length_drop; lia. }
    rewrite (std_find_dot sub Bs) in H.
    destruct (index_of "."%char sub) eqn:D.
    + assert (E0 : modules' = modules) by congruence; subst modules'.
      apply Skip; [exact Hm |].
      intros (_ & _ & A & I); rewrite Hn in A.
      assert (E : name = (prefix ++ submodule)%string) by congruence.
      assert (E' : sub = submodule).
      { unfold sub; rewrite E; apply drop_append_exact. }
      rewrite E', I in D; discriminate D.
    + assert (E : modules = sub :: modules') by congruence; subst modules.
      split.
      * intros [<- | I].
        -- exists key, value; split; [left; reflexivity |].
           rewrite Hn, <- Nm; auto.
        -- apply (IH modules' Hm submodule) in I as (k & v & I & R).
           exists k, v; split; [right; exact I | exact R].
      * intros (k & v & [E | I] & R).
        -- injection E as <- <-.
           destruct R as (_ & _ & A & _); rewrite Hn in A.
           assert (E : name = (prefix ++ submodule)%string) by congruence.
           left; unfold sub; rewrite E; apply drop_append_exact.
        -- right; apply (IH modules' Hm submodule).
           exists k, v; split; [exact I | exact R].
Qed.

End SubmoduleFacts.

(** X22 -- [py_list_submodules] lists the direct children.  When it
    returns, a name is listed exactly when [sys.modules] has an entry
    whose key passes [PyString_Check], whose value is not None, and whose
    key reads [module.name] with no further dot in [name]: deeper
    descendants, the module itself and entries set to None are left
    out. *)
Theorem py_list_submodules_direct_children {RT : Runtime}
    (modulesDict : list (PyObject * PyObject)) (module : string) (r : SEXP) :
  keys_fit_size_t modulesDict ->
  py_list_submodules modulesDict module = Ok r ->
  forall submodule,
    In submodule (map char_bytes (string_values r))
    <-> exists key value,
          In (key, value) modulesDict
          /\ PyString_Check key = true
          /\ py_is_none value = false
          /\ as_std_string key = Ok (module ++ "." ++ submodule)%string
          /\ index_of "."%char submodule = None.
Proof.
  intros F H submodule; unfold py_list_submodules in H.
  apply bind_Ok in H as (modules & L & H).
  assert (E : r = wrap_strings modules) by congruence; subst r.
  unfold wrap_strings, string_values, CharacterVector; cbn [sx_val].
  rewrite map_map; cbn [char_bytes]; rewrite map_id.
  rewrite (submodules_loop_spec modulesDict _ modules F L submodule).
  assert (A : ((module ++ ".") ++ submodule)%string
              = (module ++ "." ++ submodule)%string).
  { clear; induction module as [| c m IH]; simpl; [reflexivity |].
    rewrite IH; reflexivity. }
  rewrite A; reflexivity.
Qed.

Lemma py_list_submodules_direct_children_witness :
  @py_list_submodules example_runtime (@example_modules example_runtime) "xml"
  = Ok (wrap_strings ["etree"])
  /\ (In "etree" (map char_bytes (string_values (wrap_strings ["etree"])))
  <-> exists key value,
        In (key, value) (@example_modules example_runtime)
        /\ PyString_Check key = true
        /\ @py_is_none value = false
        /\ @as_std_string example_runtime key
           = Ok ("xml" ++ "." ++ "etree")%string
        /\ index_of "."%char "etree" = None).
Proof.
  split; [reflexivity |].
  apply (@py_list_submodules_direct_children example_runtime
           (@example_modules example_runtime) "xml" (wrap_strings ["etree"]));
    [| reflexivity].
  repeat constructor; cbn [fst]; intros name H; vm_compute in H;
    injection H as <-; vm_compute; reflexivity.
Defined.

(** ** Iteration and tuples *)

Section IterateFacts.

Context {RT : Runtime}.

Lemma py_iterate_loop_Ok (convert : bool) (it : iteration)
    (f : SEXP -> result SEXP) (values : list SEXP) :
  py_iterate_loop convert it f = Ok values ->
  iteration_failed it = false
  /\ exists params,
       mapM (iterate_param convert) (iteration_items it) = Ok params
       /\ mapM f params = Ok values.
Proof.
  revert values; induction it as [| | item rest IH]; intros values H;
    cbn [py_iterate_loop] in H.
  - injection H as <-; split; [reflexivity |].
    exists []; split; reflexivity.
  - discriminate H.
  - apply bind_Ok in H as (param & Hp & H).
    apply bind_Ok in H as (value & Hv & H).
    apply bind_Ok in H as (rest_values & Hr & H).
    assert (E : values = value :: rest_values) by congruence; subst values.
    destruct (IH rest_values Hr) as (F & params & P & V).
    split; [exact F |].
    exists (param :: params); split.
    + cbn [iteration_items mapM]; unfold iterate_param at 1.
      rewrite Hp; cbn [bind]; rewrite P; reflexivity.
    + cbn [mapM]; rewrite Hv; cbn [bind]; rewrite V; reflexivity.
Qed.

End IterateFacts.

(** X23 -- [py_iterate] returns all or nothing.  When it returns, the
    iteration ended without an error, every item was handed to the R
    function -- converted by [py_to_r] when the reference converts, as a
    reference with [convert = false] otherwise -- and the result is the
    unnamed list of what the function returned, one element per item in
    order.  An iteration that ends on an error never yields a partial
    list. *)
Theorem py_iterate_all_or_nothing {RT : Runtime} (x : SEXP) (it : iteration)
    (f : SEXP -> result SEXP) (r : SEXP) :
  py_iterate x (Some it) f = Ok r ->
  iteration_failed it = false
  /\ exists convert params values,
       PyObjectRef_convert x = Ok convert
       /\ mapM (iterate_param convert) (iteration_items it) = Ok params
       /\ mapM f params = Ok values
       /\ r = List_ values
       /\ List.length values = List.length (iteration_items it).
Proof.
  unfold py_iterate; intros H.
  apply bind_Ok in H as (convert & C & H).
  apply bind_Ok in H as (values & L & H).
  assert (E : r = List_ values) by congruence; subst r.
  destruct (py_iterate_loop_Ok convert it f values L) as (F & params & P & V).
  split; [exact F |].
  exists convert, params, values.
  repeat split; try assumption.
  rewrite (mapM_Ok_length _ _ _ V), (mapM_Ok_length _ _ _ P); reflexivity.
Qed.

Lemma py_iterate_all_or_nothing_witness :
  iteration_failed (@example_iteration example_runtime) = false
  /\ exists convert params values,
       PyObjectRef_convert
         (@py_ref example_runtime (PyList_New []) true "") = Ok convert
       /\ mapM (@iterate_param example_runtime convert)
            (iteration_items (@example_iteration example_runtime)) = Ok params
       /\ mapM (fun v => Ok v) params = Ok values
       /\ List_ [IntegerVector [1]; CharacterVector [mkCharCE "a" CE_UTF8]]
          = List_ values
       /\ List.length values
          = List.length (iteration_items (@example_iteration example_runtime)).
Proof.
  apply (@py_iterate_all_or_nothing example_runtime
           (@py_ref example_runtime (PyList_New []) true "")
           (@example_iteration example_runtime) (fun v => Ok v)).
  reflexivity.
Defined.

(** X24 -- [py_tuple] and [py_tuple_length].  The reference [py_tuple]
    returns points to an exact tuple with one element per R item: its
    [py_tuple_length] is the number of items (below 2^31), and converting
    it gives, when the elements convert, an unnamed R list of that
    length. *)
Theorem py_tuple_has_every_item {RT : Runtime} (PyObject_Size : PyObject -> Z)
    (items : list SEXP) (convert : bool) (t : SEXP) :
  py_tuple items convert = Ok t ->
  Z.of_nat (List.length items) < 2 ^ 31 ->
  py_tuple_length PyObject_Size t = Ok (Z.of_nat (List.length items))
  /\ PyObjectRef_convert t = Ok convert
  /\ forall convert' r,
       py_ref_to_r_with_convert t convert' = Ok r ->
       TYPEOF r = VECSXP /\ LENGTH r = Z.of_nat (List.length items)
       /\ sx_attrib r = [].
Proof.
  unfold py_tuple; intros H B.
  apply bind_Ok in H as (elts & M & H).
  assert (E : t = py_ref (PyTuple_New elts) convert "") by congruence.
  subst t; clear H.
  pose proof (mapM_Ok_length _ _ _ M) as L.
  split; [| split; [reflexivity |]].
  - unfold py_tuple_length.
    cbn [PyObjectRef_get py_ref sx_val bind PyTuple_Check PyTuple_New ob_val
         negb PyTuple_items].
    rewrite L, to_int_small by lia; reflexivity.
  - intros convert' r H.
    unfold py_ref_to_r_with_convert in H.
    cbn [PyObjectRef_get py_ref sx_val bind] in H.
    rewrite py_to_r_eq in H; unfold py_to_r_chain, PyTuple_New in H.
    rewrite r_scalar_type_container in H by exact I.
    cbn in H.
    apply bind_Ok in H as (list & Hl & H).
    assert (E : r = List_ list) by congruence; subst r.
    apply mapM_Ok_length in Hl.
    split; [reflexivity |].
    split; [| reflexivity].
    unfold LENGTH; cbn [List_ sx_val]; rewrite Hl, L; reflexivity.
Qed.

Lemma py_tuple_has_every_item_witness :
  py_tuple_length no_Size
    (@py_ref example_runtime
       (PyTuple_New [PyInt_FromLong 1; PyInt_FromLong 2]) false "")
  = Ok (Z.of_nat (List.length [IntegerVector [1]; IntegerVector [2]])).
Proof.
  apply (@py_tuple_has_every_item example_runtime no_Size
           [IntegerVector [1]; IntegerVector [2]] false
           (@py_ref example_runtime
              (PyTuple_New [PyInt_FromLong 1; PyInt_FromLong 2]) false ""));
    [reflexivity | simpl; lia].
Defined.

(** ** Class names *)

(** [as_r_class] tests the module for a prefix, not for equality.
    A class of a module whose name starts with "builtins" or with
    "__builtin__" is named "python.builtin", followed by the rest of the
    module name, a dot and the class name: "python.builtin.int" for
    [builtins.int], and also "python.builtin_extra.C" for a class [C] of a
    module [builtins_extra].  A class without [__module__] is named
    "python.builtin." and its name. *)
Theorem as_r_class_builtin_prefix (m name : string) :
  as_r_class (mkPyClass (Some ("builtins" ++ m)%string) name)
  = ("python.builtin" ++ m ++ "." ++ name)%string
  /\ as_r_class (mkPyClass (Some ("__builtin__" ++ m)%string) name)
     = ("python.builtin" ++ m ++ "." ++ name)%string
  /\ as_r_class (mkPyClass None name) = ("python.builtin." ++ name)%string.
Proof.
  assert (A : forall a b c : string,
            ((a ++ b) ++ c)%string = (a ++ b ++ c)%string).
  { intros a b c; induction a as [| x a IH]; simpl; [reflexivity |].
    rewrite IH; reflexivity. }
  split; [| split]; [| | reflexivity].
  - unfold as_r_class; cbn [cls_module cls_name].
    change (starts_with "__builtin__" (("builtins" ++ m) ++ ".")%string) with false.
    cbv iota.
    change (starts_with "builtins" (("builtins" ++ m) ++ ".")%string) with true.
    cbv iota.
    change (drop 8 (("builtins" ++ m) ++ ".")%string) with (m ++ ".")%string.
    rewrite A; cbn; rewrite A; reflexivity.
  - unfold as_r_class; cbn [cls_module cls_name].
    change (starts_with "__builtin__" (("__builtin__" ++ m) ++ ".")%string)
      with true.
    cbv iota.
    change (drop 11 (("__builtin__" ++ m) ++ ".")%string) with (m ++ ".")%string.
    change (starts_with "builtins" ("python.builtin" ++ m ++ ".")%string) with false.
    cbv iota; rewrite A; cbn; rewrite A; reflexivity.
Qed.

(** ** Character vectors and the missing string *)

Section CharacterFacts.

Context {RT : Runtime}.
Hypothesis python3 : s_isPython3 = true.
Hypothesis NA_decodes : utf8_decodes "NA" = true.

Lemma as_python_str_text (c : CHARSXP) :
  NA_or_unchanged c ->
  as_python_str c false = Ok (text (char_bytes c)).
Proof.
  intros H; unfold as_python_str; cbn [andb]; rewrite python3.
  unfold PyUnicode_FromString.
  destruct H as [-> | (T & U)].
  - cbn [Rf_translateCharUTF8 char_bytes]; rewrite NA_decodes; reflexivity.
  - rewrite T, U; reflexivity.
Qed.

Lemma as_python_str_handle_na (c : CHARSXP) :
  NA_or_unchanged c ->
  as_python_str c true
  = Ok (match c with NA_STRING => Py_None | _ => text (char_bytes c) end).
Proof.
  intros H; destruct c as [| b ce]; [reflexivity |].
  rewrite <- (as_python_str_text (mkCharCE b ce) H).
  unfold as_python_str; reflexivity.
Qed.

Lemma mapM_map {A B C : Type} (f : B -> result C) (h : A -> B) (l : list A) :
  mapM f (map h l) = mapM (fun x => f (h x)) l.
Proof.
  induction l as [| x l IH]; cbn [map mapM]; [reflexivity |].
  rewrite IH; reflexivity.
Qed.

Lemma r_scalar_type_text (s : string) : r_scalar_type (text s) = Ok STRSXP.
Proof. reflexivity. Qed.

Lemma as_utf8_r_string_text (s : string) :
  as_utf8_r_string (text s) = Ok (mkCharCE s CE_UTF8).
Proof. reflexivity. Qed.

End CharacterFacts.

(** X26 -- a character vector of two or more elements loses its NA.  In a
    Python 3 session, a character vector with attributes that do not
    redirect the conversion, whose elements are NA or reach Python
    unchanged, becomes a list of text objects and comes back as a
    character vector of the same bytes marked UTF-8 -- with the text "NA"
    where the vector had [NA_character_]. *)
Theorem character_vector_round_trip {RT : Runtime} (v : list CHARSXP)
    (a : list (string * SEXP)) (convert convert' : bool) :
  s_isPython3 = true -> utf8_decodes "NA" = true ->
  plain_vector (mkSEXP (RString v) a) = true ->
  (2 <= List.length v)%nat ->
  Forall NA_or_unchanged v ->
  exists p,
    r_to_py_cpp (mkSEXP (RString v) a) convert = Ok p
    /\ PyList_CheckExact p = true
    /\ py_to_r p convert' = Ok (CharacterVector (map as_text v))
    /\ ~ In NA_STRING (map as_text v).
Proof.
  intros P3 NA P L F.
  unfold plain_vector in P.
  apply andb_prop in P as (P & D); apply andb_prop in P as (O & C).
  apply negb_true_iff in D, O, C.
  assert (M : mapM (fun s => as_python_str s false) v
              = Ok (map (fun c => text (char_bytes c)) v)).
  { apply mapM_all_Ok; intros c I.
    apply (as_python_str_text P3 NA), (proj1 (Forall_forall _ _) F c I). }
  exists (PyList_New (map (fun c => text (char_bytes c)) v)).
  split; [| split; [reflexivity | split]].
  - destruct v as [| s [| s' v]]; try (simpl in L; lia).
    cbn [r_to_py_cpp TYPEOF sx_val SEXPTYPE_eqb]; rewrite O, C, D.
    cbn [bind]; rewrite M; reflexivity.
  - rewrite (py_to_r_scalar_list STRSXP); try reflexivity.
    + rewrite mapM_map, (mapM_all_Ok _ as_text); [reflexivity |].
      intros c _; reflexivity.
    + destruct v; [simpl in L; lia | discriminate].
    + apply Forall_map, Forall_forall; reflexivity.
  - intros I; apply in_map_iff in I as (c & E & _); discriminate E.
Qed.

Lemma character_vector_round_trip_witness :
  exists p,
    @r_to_py_cpp example_runtime
      (CharacterVector [mkCharCE "a" CE_UTF8; NA_STRING]) true = Ok p
    /\ PyList_CheckExact p = true
    /\ @py_to_r example_runtime p true
       = Ok (CharacterVector [mkCharCE "a" CE_UTF8; mkCharCE "NA" CE_UTF8])
    /\ ~ In NA_STRING (map as_text [mkCharCE "a" CE_UTF8; NA_STRING]).
Proof.
  apply (@character_vector_round_trip example_runtime
           [mkCharCE "a" CE_UTF8; NA_STRING] [] true true);
    [reflexivity | reflexivity | reflexivity | simpl; lia |].
  constructor; [right; split; reflexivity |].
  constructor; [left; reflexivity | constructor].
Defined.

Section CharacterArrays.

Context {RT : Runtime}.
Hypothesis python3 : s_isPython3 = true.
Hypothesis NA_decodes : utf8_decodes "NA" = true.
Hypothesis text_is_not_nan : forall s, is_numpy_nan (text s) = false.

Lemma all_strings_text_or_None (v : list CHARSXP) :
  all_strings
    (map elem_obj
       (map (fun c => match c with
                      | NA_STRING => Py_None
                      | _ => text (char_bytes c)
                      end) v)) = Ok true.
Proof.
  induction v as [| c v IH]; [reflexivity |].
  cbn [map all_strings].
  destruct c as [| b ce].
  - assert (S : is_python_str Py_None = Ok false).
    { unfold is_python_str, is_numpy_str, isPyArrayScalar; cbn.
      destruct haveNumPy; cbn; rewrite ?andb_false_r; reflexivity. }
    rewrite S; cbn [bind negb andb].
    unfold is_pandas_na_like; cbn [py_is_none Py_None ob_val].
    rewrite orb_true_r; cbn [orb negb]; exact IH.
  - cbn [bind is_python_str PyUnicode_Check text ob_val negb andb]; exact IH.
Qed.

Lemma string_elements_text_or_None (v : list CHARSXP) :
  mapM string_element_of
    (map elem_obj
       (map (fun c => match c with
                      | NA_STRING => Py_None
                      | _ => text (char_bytes c)
                      end) v)) = Ok (map as_text_or_NA v).
Proof.
  rewrite !mapM_map; apply mapM_all_Ok; intros c _.
  destruct c as [| b ce]; cbn [string_element_of];
    unfold string_element, is_pandas_na_like.
  - cbn; reflexivity.
  - rewrite text_is_not_nan; cbn; reflexivity.
Qed.

End CharacterArrays.

(** X27 -- a character array keeps its NA.  In a Python 3 session with
    NumPy loaded, an R character array whose elements are NA or reach
    Python unchanged becomes a NumPy array of kind NPY_OBJECT holding text
    objects, with None for [NA_character_]; it converts back to a
    character array with the same dimensions, the same bytes marked UTF-8,
    and [NA_character_] where it was. *)
Theorem character_array_round_trip {RT : Runtime} (v : list CHARSXP)
    (a : list (string * SEXP)) (dims : list Z) (convert convert' : bool) :
  NoDup case_labels -> s_numpy_loaded = true ->
  s_isPython3 = true -> utf8_decodes "NA" = true ->
  (forall s, is_numpy_nan (text s) = false) ->
  R_array (mkSEXP (RString v) a) dims ->
  Forall NA_or_unchanged v ->
  exists p,
    r_to_py_cpp (mkSEXP (RString v) a) convert = Ok p
    /\ PyArray_TYPE p = NPY_OBJECT
    /\ PyArray_DIMS p = dims
    /\ py_to_r p convert'
       = Ok (Rf_allocArray (RString (map as_text_or_NA v)) dims).
Proof.
  intros ND NP P3 NA NN A F.
  destruct (r_to_py_cpp_array NP _ dims convert A) as (E & D);
    [discriminate |].
  rewrite E; unfold r_to_py_numpy; cbv zeta; rewrite D; cbn [sx_val].
  destruct A as (_ & _ & _ & N & Fd & L).
  rewrite (mapM_all_Ok _ (fun c => match c with
                                   | NA_STRING => Py_None
                                   | _ => text (char_bytes c)
                                   end))
    by (intros c I; apply (as_python_str_handle_na P3 NA),
                      (proj1 (Forall_forall _ _) F c I)).
  cbn [bind].
  eexists; split; [reflexivity |].
  split; [reflexivity |]; split; [reflexivity |].
  assert (Nw : narrow_array_typenum NPY_OBJECT = Ok NPY_OBJECT)
    by (apply (narrow_structural_kinds ND); simpl; auto).
  assert (OS : NPY_OBJECT <> NPY_STRING) by kinds_neq ND 18%nat 16%nat.
  assert (OU : NPY_OBJECT <> NPY_UNICODE) by kinds_neq ND 18%nat 17%nat.
  assert (OB : (NPY_OBJECT =? NPY_BOOL) = false) by kinds_differ ND 18%nat 0%nat.
  assert (OL : (NPY_OBJECT =? NPY_LONG) = false) by kinds_differ ND 18%nat 9%nat.
  assert (OD : (NPY_OBJECT =? NPY_DOUBLE) = false)
    by kinds_differ ND 18%nat 13%nat.
  assert (OC : (NPY_OBJECT =? NPY_CDOUBLE) = false)
    by kinds_differ ND 18%nat 15%nat.
  unfold PyArray_New.
  rewrite (py_to_r_numeric_array NP _ _ NPY_OBJECT dims _ convert' NPY_OBJECT
             Nw OS OU).
  unfold array_to_r, PyArray_TYPE, PyArray_DIMS, PyArray_DATA, PyArray_SIZE;
    cbn [ob_val].
  rewrite Nw; cbn [bind].
  rewrite OB, OL, OD, OC, (proj2 (Z.eqb_neq _ _) OS),
    (proj2 (Z.eqb_neq _ _) OU), Z.eqb_refl.
  cbn [orb]; cbv zeta; cbn [PyArray_DIMS PyArray_DATA ob_val].
  rewrite firstn_whole
    by (rewrite L, !length_map; reflexivity).
  rewrite all_strings_text_or_None; cbn [bind].
  rewrite (string_elements_text_or_None NN); cbn [bind].
  rewrite (dimsVector_of_dims dims N Fd); reflexivity.
Qed.

Lemma character_array_round_trip_witness :
  exists p,
    @r_to_py_cpp example_runtime example_character_matrix true = Ok p
    /\ @PyArray_TYPE example_runtime p = 17
    /\ PyArray_DIMS p = [1; 2]
    /\ @py_to_r example_runtime p true = Ok example_character_matrix.
Proof.
  apply (@character_array_round_trip example_runtime
           [mkCharCE "a" CE_UTF8; NA_STRING] [("dim", IntegerVector [1; 2])]
           [1; 2] true true
           numpy_abi_distinct eq_refl eq_refl eq_refl (fun _ => eq_refl)).
  - repeat split; try reflexivity; try discriminate.
    repeat constructor; lia.
  - constructor; [right; split; reflexivity |].
    constructor; [left; reflexivity | constructor].
Defined.

(** ** Named lists *)

Section NamedLists.

Context {RT : Runtime}.
Hypothesis python3 : s_isPython3 = true.
Hypothesis keys_by_bytes : text_keys_by_bytes.

Lemma dict_store_text (entries : list (string * PyObject)) (k : string)
    (val : PyObject) :
  dict_store (text_keyed entries) (text k) val
  = text_keyed (assoc_set k val entries).
Proof.
  destruct keys_by_bytes as (_ & E).
  induction entries as [| [k' v'] entries IH]; [reflexivity |].
  cbn [text_keyed map dict_store assoc_set fst snd].
  rewrite E; destruct (String.eqb k' k); [reflexivity |].
  cbn [map fst snd]; f_equal; exact IH.
Qed.

Lemma PyDict_GetItem_text (entries : list (string * PyObject)) (n : string) :
  PyDict_GetItem (text_keyed entries) (text n) = assoc n entries.
Proof.
  destruct keys_by_bytes as (_ & E).
  induction entries as [| [k v] entries IH]; [reflexivity |].
  cbn [text_keyed map PyDict_GetItem assoc fst snd].
  rewrite E; destruct (String.eqb k n); [reflexivity | exact IH].
Qed.

Lemma PyDict_SetItemString_text (entries : list (string * PyObject))
    (name : string) (val : PyObject) :
  utf8_decodes name = true ->
  PyDict_SetItemString (text_keyed entries) name val
  = (0, text_keyed (assoc_set name val entries)).
Proof.
  intros U; unfold PyDict_SetItemString, PyUnicode_FromString.
  rewrite python3, U; unfold PyDict_SetItem.
  destruct keys_by_bytes as (H & _).
  change (mkPyObject (builtin_type "str" ["__iter__"]) [] (VUnicode name))
    with (text name).
  rewrite H, dict_store_text; reflexivity.
Qed.

(** The loop over a named list stores each element under its name. *)
Lemma fill_dict_text (r_to_py : SEXP -> result PyObject) (elts : list SEXP) :
  forall (names : list CHARSXP) (items : list PyObject)
         (entries : list (string * PyObject)),
    List.length names = List.length elts ->
    Forall (fun n => utf8_decodes (Rf_translateChar n) = true) names ->
    mapM r_to_py elts = Ok items ->
    fill_dict r_to_py elts names (text_keyed entries)
    = Ok (text_keyed
            (fold_left (fun d e => assoc_set (fst e) (snd e) d)
                       (combine (map Rf_translateChar names) items) entries)).
Proof.
  induction elts as [| elt elts IH]; intros names items entries L U M.
  - injection M as <-; destruct names; [reflexivity | discriminate L].
  - destruct names as [| name names]; [discriminate L |].
    cbn [mapM] in M.
    apply bind_Ok in M as (item & Hi & M).
    apply bind_Ok in M as (items' & Hm & M).
    assert (E : items = item :: items') by congruence; subst items.
    inversion U as [| ? ? Un Us]; subst.
    cbn [fill_dict]; rewrite Hi; cbn [bind].
    rewrite (PyDict_SetItemString_text entries _ item Un).
    cbn [Z.eqb negb map combine fold_left fst snd].
    apply IH; [injection L as L; exact L | exact Us | exact Hm].
Qed.

Lemma assoc_app_string {A : Type} (n : string) (l1 l2 : list (string * A)) :
  assoc n (l1 ++ l2)
  = match assoc n l1 with Some v => Some v | None => assoc n l2 end.
Proof.
  induction l1 as [| [k v] l1 IH]; [reflexivity |].
  cbn [app assoc]; destruct (String.eqb k n); [reflexivity | exact IH].
Qed.

(** Looking a name up after the loop: the last element of that name. *)
Lemma assoc_fold_assoc_set {A : Type} (n : string) (pairs : list (string * A)) :
  forall entries,
    assoc n (fold_left (fun d e => assoc_set (fst e) (snd e) d) pairs entries)
    = match assoc n (rev pairs) with
      | Some v => Some v
      | None => assoc n entries
      end.
Proof.
  induction pairs as [| [k v] pairs IH]; intros entries; [reflexivity |].
  cbn [fold_left rev fst snd]; rewrite IH, assoc_app_string.
  destruct (assoc n (rev pairs)); [reflexivity |].
  cbn [assoc]; destruct (String.eqb k n) eqn:E.
  - apply String.eqb_eq in E; subst k; apply assoc_set_same.
  - apply assoc_set_other; apply String.eqb_neq; exact E.
Qed.

Lemma assoc_set_fresh {A : Type} (k : string) (v : A)
    (l : list (string * A)) :
  ~ In k (map fst l) -> assoc_set k v l = l ++ [(k, v)].
Proof.
  induction l as [| [k' v'] l IH]; intros N; [reflexivity |].
  cbn [assoc_set app].
  destruct (String.eqb k' k) eqn:E.
  - apply String.eqb_eq in E; subst k'; exfalso; apply N; left; reflexivity.
  - f_equal; apply IH; intros I; apply N; right; exact I.
Qed.

Lemma fold_assoc_set_distinct {A : Type} (pairs : list (string * A)) :
  forall entries,
    NoDup (map fst entries ++ map fst pairs) ->
    fold_left (fun d e => assoc_set (fst e) (snd e) d) pairs entries
    = entries ++ pairs.
Proof.
  induction pairs as [| [k v] pairs IH]; intros entries N.
  - rewrite app_nil_r; reflexivity.
  - cbn [fold_left fst snd map] in *.
    rewrite assoc_set_fresh.
    + rewrite IH; [rewrite <- app_assoc; reflexivity |].
      rewrite map_app, <- app_assoc; exact N.
    + apply NoDup_remove_2 in N; intros I; apply N, in_or_app; left; exact I.
Qed.

Lemma assoc_set_length {A : Type} (k : string) (v : A)
    (l : list (string * A)) :
  (List.length (assoc_set k v l) <= S (List.length l))%nat.
Proof.
  induction l as [| [k' v'] l IH]; cbn [assoc_set List.length]; [lia |].
  destruct (String.eqb k' k); cbn [List.length]; lia.
Qed.

Lemma fold_assoc_set_length {A : Type} (pairs : list (string * A)) :
  forall entries,
    (List.length
       (fold_left (fun d e => assoc_set (fst e) (snd e) d) pairs entries)
     <= List.length entries + List.length pairs)%nat.
Proof.
  induction pairs as [| [k v] pairs IH]; intros entries;
    cbn [fold_left List.length fst snd]; [lia |].
  specialize (IH (assoc_set k v entries)).
  pose proof (assoc_set_length k v entries); lia.
Qed.

End NamedLists.

(** X28 -- a named R list becomes a dict in which the last of several
    elements with one name wins.  In a Python 3 session where dictionary
    keys made from names are hashable text objects compared by their
    bytes, a named list (with attributes that do not redirect the
    conversion, names that decode, elements that convert) becomes an exact
    dict with text keys: looking a name up gives the converted value of
    the last element that has this name, so the dict has at most as many
    entries as the list has elements; when the names are pairwise distinct
    the dict has exactly the elements of the list, in order. *)
Theorem named_list_to_dict {RT : Runtime} (v : list SEXP)
    (names : list CHARSXP) (a : list (string * SEXP)) (convert : bool)
    (items : list PyObject) :
  s_isPython3 = true -> text_keys_by_bytes ->
  plain_vector (mkSEXP (RList v) a) = true ->
  assoc "names" a = Some (CharacterVector names) ->
  List.length names = List.length v ->
  Forall (fun n => utf8_decodes (Rf_translateChar n) = true) names ->
  mapM (fun y => r_to_py y convert) v = Ok items ->
  exists entries,
    r_to_py_cpp (mkSEXP (RList v) a) convert
    = Ok (PyDict_New (text_keyed entries))
    /\ (forall n,
          PyDict_GetItem (text_keyed entries) (text n)
          = assoc n (rev (combine (map Rf_translateChar names) items)))
    /\ (List.length entries <= List.length v)%nat
    /\ (NoDup (map Rf_translateChar names) ->
        entries = combine (map Rf_translateChar names) items).
Proof.
  intros P3 K P Nm L U M.
  unfold plain_vector in P.
  apply andb_prop in P as (P & D); apply andb_prop in P as (O & C).
  apply negb_true_iff in D, O, C.
  set (pairs := combine (map Rf_translateChar names) items).
  exists (fold_left (fun d e => assoc_set (fst e) (snd e) d) pairs []).
  pose proof (mapM_Ok_length _ _ _ M) as Li.
  split; [| split; [| split]].
  - cbn [r_to_py_cpp TYPEOF sx_val SEXPTYPE_eqb]; rewrite O, C, D.
    cbn [bind].
    assert (H : hasAttribute (mkSEXP (RList v) a) "names" = true)
      by (unfold hasAttribute; cbn [sx_attrib]; rewrite Nm; reflexivity).
    rewrite H.
    assert (S : string_values (attr (mkSEXP (RList v) a) "names") = names)
      by (unfold attr; cbn [sx_attrib]; rewrite Nm; reflexivity).
    rewrite S.
    change (@nil (PyObject * PyObject)) with (text_keyed []).
    change (fun y : SEXP =>
              if negb (OBJECT y) then r_to_py_cpp y convert
              else r_to_py_fn y convert)
      with (fun y : SEXP => r_to_py y convert).
    rewrite (fill_dict_text P3 K _ v names items [] L U M).
    reflexivity.
  - intros n; rewrite (PyDict_GetItem_text K), assoc_fold_assoc_set.
    destruct (assoc n (rev pairs)); reflexivity.
  - pose proof (fold_assoc_set_length pairs []) as B.
    subst pairs; rewrite length_combine, length_map in B.
    cbn [List.length] in B; lia.
  - intros ND; rewrite fold_assoc_set_distinct; [reflexivity |].
    cbn [map app]; subst pairs.
    assert (E : map fst (combine (map Rf_translateChar names) items)
                = map Rf_translateChar names).
    { generalize (map Rf_translateChar names) items
                 (eq_trans (length_map Rf_translateChar names)
                           (eq_trans L (eq_sym Li))).
      clear; intros l1; induction l1 as [| x l1 IH]; intros [| y l2] E;
        try discriminate E; [reflexivity |].
      cbn [combine map fst]; f_equal; apply IH; injection E as E; exact E. }
    rewrite E; exact ND.
Qed.

Lemma named_list_to_dict_witness :
  exists entries,
    @r_to_py_cpp example_runtime example_named_list true
    = Ok (PyDict_New (@text_keyed example_runtime entries))
    /\ (forall n,
          @PyDict_GetItem example_runtime
            (@text_keyed example_runtime entries) (@text example_runtime n)
          = assoc n (rev (combine ["a"; "b"; "a"]
                                  [PyInt_FromLong 1; PyInt_FromLong 2;
                                   PyInt_FromLong 3])))
    /\ (List.length entries <= 3)%nat
    /\ (NoDup ["a"; "b"; "a"] ->
        entries = combine ["a"; "b"; "a"]
                    [PyInt_FromLong 1; PyInt_FromLong 2; PyInt_FromLong 3]).
Proof.
  apply (@named_list_to_dict example_runtime
           [IntegerVector [1]; IntegerVector [2]; IntegerVector [3]]
           [mkCharCE "a" CE_NATIVE; mkCharCE "b" CE_NATIVE;
            mkCharCE "a" CE_NATIVE]
           [("names", CharacterVector [mkCharCE "a" CE_NATIVE;
                                       mkCharCE "b" CE_NATIVE;
                                       mkCharCE "a" CE_NATIVE])]
           true
           [PyInt_FromLong 1; PyInt_FromLong 2; PyInt_FromLong 3]);
    try reflexivity.
  - split; [reflexivity | intros s t; reflexivity].
  - repeat constructor.
Defined.

(** X29 -- an unnamed list of like scalars comes back as a vector.  An
    unnamed R list (with attributes that do not redirect the conversion)
    whose elements are all length-1 integer vectors without attributes
    becomes the Python list of those integers, and that list converts
    back to one integer vector holding them, not to a list. *)
Theorem list_of_integers_comes_back_as_vector {RT : Runtime} (v : list Z)
    (a : list (string * SEXP)) (convert convert' : bool) :
  4 <= sizeof_long ->
  plain_vector (mkSEXP (RList (map (fun i => IntegerVector [i]) v)) a) = true ->
  hasAttribute (mkSEXP (RList (map (fun i => IntegerVector [i]) v)) a) "names"
  = false ->
  v <> [] ->
  Forall (fun i => - 2 ^ 31 <= i < 2 ^ 31) v ->
  exists p,
    r_to_py_cpp (mkSEXP (RList (map (fun i => IntegerVector [i]) v)) a) convert
    = Ok p
    /\ PyList_CheckExact p = true
    /\ py_to_r p convert' = Ok (IntegerVector v)
    /\ TYPEOF (IntegerVector v) = INTSXP.
Proof.
  intros S P Nm N V.
  unfold plain_vector in P.
  apply andb_prop in P as (P & D); apply andb_prop in P as (O & C).
  apply negb_true_iff in D, O, C.
  exists (PyList_New (map PyInt_FromLong v)).
  split; [| split; [reflexivity | split; [| reflexivity]]].
  - cbn [r_to_py_cpp TYPEOF sx_val SEXPTYPE_eqb]; rewrite O, C, D, Nm.
    cbn [bind].
    change (fun y : SEXP =>
              if negb (OBJECT y) then r_to_py_cpp y convert
              else r_to_py_fn y convert)
      with (fun y : SEXP => r_to_py y convert).
    rewrite mapM_map, (mapM_all_Ok _ PyInt_FromLong); [reflexivity |].
    intros i _; reflexivity.
  - rewrite (py_to_r_scalar_list INTSXP); try reflexivity.
    + rewrite map_map; do 2 f_equal.
      rewrite <- (map_id v) at 2; apply map_ext_Forall.
      revert V; apply Forall_impl; intros i I.
      unfold PyInt_AsLong, PyInt_FromLong; cbn [ob_val].
      rewrite (long_holds_int i S I); apply to_int_small, I.
    + destruct v; [contradiction | discriminate].
    + apply Forall_map, Forall_forall; reflexivity.
Qed.

Lemma list_of_integers_comes_back_as_vector_witness :
  exists p,
    @r_to_py_cpp example_runtime
      (List_ [IntegerVector [1]; IntegerVector [2]]) true = Ok p
    /\ PyList_CheckExact p = true
    /\ @py_to_r example_runtime p true = Ok (IntegerVector [1; 2])
    /\ TYPEOF (IntegerVector [1; 2]) = INTSXP.
Proof.
  apply (@list_of_integers_comes_back_as_vector example_runtime [1; 2] []
           true true);
    [simpl; lia | reflexivity | reflexivity | discriminate |].
  repeat constructor; lia.
Defined.
